(** * Dispa-SET input validation: [dispaset/preprocessing/data_check.py]

    A shallow embedding of the checkers of [data_check.py] and the
    properties of its specification.

    - Numbers are IEEE 754 binary64 values, as pandas and numpy hold them
      in [float64] columns; arithmetic is the correctly rounded arithmetic
      of [SpecFloat] at precision 53 and exponent bound 1024.  A missing
      value is NaN.  The sum of a column ([Series.sum]) is numpy's: the
      missing values count as zero and the terms are added pairwise.
    - A table ([pandas.DataFrame]) is a list of row labels and an
      association list of named columns.  A cell is a number or a text.
    - A checker is a computation in a small monad: it reads (and possibly
      updates) the tables it was given, appends leveled records to the
      log, and ends by returning a value, by [sys.exit(status)] or by a
      Python exception that reaches the caller.
    - A log record keeps the level, the call site and the values put in
      the message; how Python prints a number is not modelled.
    - The language is Python 3: an order comparison or an arithmetic
      operation between a text and a number raises [TypeError], and a
      dictionary is visited in the order in which it was written.  Text is
      ASCII.  A label-based read ([plants.loc[u, key]], [series[u]]) takes
      the first row of that label; the statements that depend on it ask
      for distinct labels.
    - [check_simulation_environment] (lines 425-540) looks at files and at
      a list of names, not at tables: it is a function of its arguments
      and of what it sees of its surroundings, apart from the monad of the
      checkers. *)

From Stdlib Require Import ZArith List String Ascii Bool Lia.
From Stdlib Require Import Floats.SpecFloat.
From Stdlib Require Lists.Finite.
Import ListNotations.
Local Open Scope string_scope.
Local Open Scope list_scope.

Set Implicit Arguments.

(* ===================================================================== *)
(** * Binary64 numbers *)
(* ===================================================================== *)

Definition float : Type := spec_float.

Module F64.

Definition prec : Z := 53.
Definition emax : Z := 1024.

(** The float nearest to an integer. *)
Definition of_Z (n : Z) : float := binary_normalize prec emax n 0 false.

Definition add : float -> float -> float := SFadd prec emax.
Definition sub : float -> float -> float := SFsub prec emax.
Definition mul : float -> float -> float := SFmul prec emax.
Definition div : float -> float -> float := SFdiv prec emax.
Definition abs : float -> float := SFabs.

Definition ltb : float -> float -> bool := SFltb.
Definition leb : float -> float -> bool := SFleb.
Definition eqb : float -> float -> bool := SFeqb.
(** Python [x > y], [x >= y], [x != y]. *)
Definition gtb (x y : float) : bool := ltb y x.
Definition geb (x y : float) : bool := leb y x.
Definition neb (x y : float) : bool := negb (eqb x y).

Definition nan : float := S754_nan.
Definition inf : float := S754_infinity false.
Definition zero : float := S754_zero false.

Definition isnan (x : float) : bool :=
  match x with S754_nan => true | _ => false end.

(** A decimal literal [n / d], e.g. [0.0001] is [dec 1 10000]: both
    integers are exact floats and the quotient is correctly rounded, as the
    literal is when Python reads it. *)
Definition dec (n d : Z) : float := div (of_Z n) (of_Z d).

(** [float.is_integer()]. *)
Definition is_integer (x : float) : bool :=
  match x with
  | S754_zero _ => true
  | S754_finite _ m e =>
      match e with
      | Zneg p => Z.eqb (Z.modulo (Zpos m) (Z.pow 2 (Zpos p))) 0
      | _ => true
      end
  | _ => false
  end.

(** The value is one that binary64 can hold. *)
Definition valid (x : float) : bool := valid_binary prec emax x.

(** Structural equality, used for row labels. *)
Definition same (x y : float) : bool :=
  match x, y with
  | S754_zero a, S754_zero b => Bool.eqb a b
  | S754_infinity a, S754_infinity b => Bool.eqb a b
  | S754_nan, S754_nan => true
  | S754_finite a m e, S754_finite b n f =>
      Bool.eqb a b && Pos.eqb m n && Z.eqb e f
  | _, _ => false
  end.

(** Python's [min(a, b)]: [b] when [b < a], else [a]. *)
Definition pymin (a b : float) : float := if ltb b a then b else a.

Definition neg_zero : float := S754_zero true.

(** [Series.sum()] is pandas' [nansum]: the missing values are set to
    zero and the array is handed to numpy's [sum], which adds the terms
    pairwise, as follows. *)

(** The eight running sums [r[0..7]] of numpy's [pairwise_sum]. *)
Record sums : Type :=
  Sums { r0 : float; r1 : float; r2 : float; r3 : float;
         r4 : float; r5 : float; r6 : float; r7 : float }.

(** [for (i = 8; i < n - (n % 8); i += 8) r[j] += a[i + j]]: the terms are
    dealt out to the eight sums, eight at a time; fewer than eight are
    left over. *)
Fixpoint deal (r : sums) (a : list float) : sums * list float :=
  match a with
  | a0 :: a1 :: a2 :: a3 :: a4 :: a5 :: a6 :: a7 :: a' =>
      deal (Sums (add (r0 r) a0) (add (r1 r) a1) (add (r2 r) a2)
                 (add (r3 r) a3) (add (r4 r) a4) (add (r5 r) a5)
                 (add (r6 r) a6) (add (r7 r) a7)) a'
  | _ => (r, a)
  end.

(** A block of at most [PW_BLOCKSIZE] terms.  Fewer than eight are added
    from left to right, starting from [-0.0]; otherwise the eight sums are
    added as a tree and the terms left over are added to the result. *)
Definition block (a : list float) : float :=
  match a with
  | a0 :: a1 :: a2 :: a3 :: a4 :: a5 :: a6 :: a7 :: a' =>
      let (r, rest) := deal (Sums a0 a1 a2 a3 a4 a5 a6 a7) a' in
      fold_left add rest
        (add (add (add (r0 r) (r1 r)) (add (r2 r) (r3 r)))
             (add (add (r4 r) (r5 r)) (add (r6 r) (r7 r))))
  | _ => fold_left add a neg_zero
  end.

Definition PW_BLOCKSIZE : nat := 128.

(** numpy's [pairwise_sum]: more than [PW_BLOCKSIZE] terms are split in
    two, the first part a multiple of eight, and the two sums are added.
    [depth] bounds the number of splits; the length of the list is
    enough (lemma [pairwise_sum_depth]). *)
Fixpoint pairwise_sum (depth : nat) (a : list float) : float :=
  let n := List.length a in
  match depth with
  | S d =>
      if (PW_BLOCKSIZE <? n)%nat then
        let n2 := (n / 2)%nat in
        let n2 := (n2 - n2 mod 8)%nat in
        add (pairwise_sum d (firstn n2 a)) (pairwise_sum d (skipn n2 a))
      else block a
  | O => block a
  end.

(** [np.putmask(values, mask, 0)]. *)
Definition fillna (x : float) : float := if isnan x then zero else x.

(** [Series.sum()]: [add.reduce] starts from its identity [0.0] and adds
    the pairwise sum of the array to it; the empty sum is zero. *)
Definition nansum (xs : list float) : float :=
  add zero (pairwise_sum (List.length xs) (map fillna xs)).

(** [Series.max()] and [Series.min()]: missing values are skipped, NaN
    when nothing is left. *)
Definition nanmax (xs : list float) : float :=
  fold_left (fun acc x =>
               if isnan x then acc
               else if isnan acc then x
               else if ltb acc x then x else acc) xs nan.

Definition nanmin (xs : list float) : float :=
  fold_left (fun acc x =>
               if isnan x then acc
               else if isnan acc then x
               else if ltb x acc then x else acc) xs nan.

End F64.

(* ===================================================================== *)
(** * Tables *)
(* ===================================================================== *)

(** A cell of a unit table. *)
Inductive Cell : Type :=
| CNum (x : float)
| CStr (s : string).

(** A row label: the integers of a default index, or values taken from a
    column. *)
Inductive Label : Type :=
| LInt (n : Z)
| LNum (x : float)
| LStr (s : string)
| LTime (t : Z).

Definition label_eqb (a b : Label) : bool :=
  match a, b with
  | LInt n, LInt m => Z.eqb n m
  | LNum x, LNum y => F64.same x y
  | LStr s, LStr t => String.eqb s t
  | LTime s, LTime t => Z.eqb s t
  | _, _ => false
  end.

Definition label_of_cell (c : Cell) : Label :=
  match c with
  | CNum x => LNum x
  | CStr s => LStr s
  end.

(** [pandas.DataFrame] with cells of either kind. *)
Record DataFrame : Type := {
  index : list Label;
  columns : list (string * list Cell)
}.

(** A numeric table: time series by column (availability factors, heat
    demand, any table given to [check_df]). *)
Record NumFrame : Type := {
  nindex : list Label;
  ncolumns : list (string * list float)
}.

Section Lookup.
Variable A : Type.

Fixpoint assoc (k : string) (l : list (string * A)) : option A :=
  match l with
  | [] => None
  | (k', v) :: l' => if String.eqb k k' then Some v else assoc k l'
  end.

Fixpoint position (u : Label) (idx : list Label) : option nat :=
  match idx with
  | [] => None
  | v :: idx' =>
      if label_eqb u v then Some 0%nat
      else option_map S (position u idx')
  end.

(** Rows kept by a boolean mask. *)
Fixpoint select (mask : list bool) (xs : list A) : list A :=
  match mask, xs with
  | b :: mask', x :: xs' =>
      if b then x :: select mask' xs' else select mask' xs'
  | _, _ => []
  end.
End Lookup.

Arguments position u idx : clear implicits.

Definition column (df : DataFrame) (k : string) : option (list Cell) :=
  assoc k (columns df).

(** [k in df]: membership among the column names. *)
Definition has_column (df : DataFrame) (k : string) : bool :=
  match column df k with Some _ => true | None => false end.

(** A label-based read of one cell, [df.loc[u, k]]. *)
Definition cell_at (df : DataFrame) (u : Label) (k : string) : option Cell :=
  match column df k with
  | None => None
  | Some cs =>
      match position u (index df) with
      | None => None
      | Some i => nth_error cs i
      end
  end.

(** A label-based read in a column, [series[u]]. *)
Definition series_at (idx : list Label) (cs : list Cell) (u : Label)
  : option Cell :=
  match position u idx with
  | None => None
  | Some i => nth_error cs i
  end.

Definition ncolumn (df : NumFrame) (k : string) : option (list float) :=
  assoc k (ncolumns df).

Definition has_ncolumn (df : NumFrame) (k : string) : bool :=
  match ncolumn df k with Some _ => true | None => false end.

(* ===================================================================== *)
(** * Text *)
(* ===================================================================== *)

Definition lower_ascii (c : ascii) : ascii :=
  let n := nat_of_ascii c in
  if (65 <=? n)%nat && (n <=? 90)%nat then ascii_of_nat (n + 32) else c.

(** [str.lower()] on ASCII text. *)
Fixpoint lower (s : string) : string :=
  match s with
  | EmptyString => EmptyString
  | String c s' => String (lower_ascii c) (lower s')
  end.

Definition mem_string (s : string) (l : list string) : bool :=
  existsb (String.eqb s) l.

(** [c in l] for a list of texts [l]. *)
Definition cell_in (c : Cell) (l : list string) : bool :=
  match c with
  | CStr s => mem_string s l
  | CNum _ => false
  end.

(** [a == b] on cells: a missing value equals nothing. *)
Definition cell_eqb (a b : Cell) : bool :=
  match a, b with
  | CStr s, CStr t => String.eqb s t
  | CNum x, CNum y => F64.eqb x y
  | _, _ => false
  end.

(** Equality as [drop_duplicates], [unique] and [duplicated] see it: two
    missing values are the same. *)
Definition cell_same (a b : Cell) : bool :=
  match a, b with
  | CStr s, CStr t => String.eqb s t
  | CNum x, CNum y => F64.eqb x y || (F64.isnan x && F64.isnan y)
  | _, _ => false
  end.

(* ===================================================================== *)
(** * Effects: log, exit, exceptions, store *)
(* ===================================================================== *)

Inductive level : Type := DEBUG | INFO | WARNING | ERROR | CRITICAL.

(** The values interpolated in a message. *)
Inductive pyval : Type :=
| VCell (c : Cell)
| VLabel (u : Label)
| VRepr (u : Label)       (* str(u) *)
| VFloat (x : float)
| VNat (n : nat)
| VStr (s : string)
| VCells (l : list Cell)
| VStrs (l : list string).

(** The call sites of [logging]; the comment gives the source line. *)
Inductive site : Type :=
| AF_res_missing        (* 39 *)
| AF_empty_values       (* 44 *)
| AF_always_100         (* 47 *)
| AF_out_of_range       (* 51 *)
| AF_default_100        (* 53 *)
| clustering_capacity   (* 72 *)
| clustering_storage    (* 85 *)
| flows_min_above_max   (* 96 *)
| flows_negative_max    (* 101 *)
| sto_deprecated        (* 119 *)
| sto_missing_field     (* 123 *)
| sto_non_numeric       (* 133 *)
| sto_missing_value     (* 136 *)
| chp_missing_field     (* 153 *)
| chp_non_numeric       (* 163 *)
| chp_missing_value     (* 166 *)
| chp_numeric_text      (* 176 *)
| chp_empty_text        (* 180 *)
| chp_bad_type          (* 195 *)
| chp_powertoheat_range (* 198 *)
| chp_lossfactor_range  (* 201 *)
| chp_lossfactor_backpressure (* 204 *)
| chp_maxheat_above_intersection (* 210 *)
| chp_efficiency        (* 220 *)
| chp_efficiency_unrealistic (* 222 *)
| chp_efficiency_high   (* 225 *)
| chp_maxheat_shutdown  (* 232 *)
| chp_storage_low       (* 238 *)
| chp_storage_high      (* 240 *)
| chp_selfdischarge_negative  (* 245 *)
| chp_selfdischarge_high      (* 248 *)
| chp_selfdischarge_too_high  (* 250 *)
| units_nunits_not_integer (* 271 *)
| units_nunits_default  (* 274 *)
| units_missing_field   (* 278 *)
| units_non_numeric     (* 284 *)
| units_missing_value   (* 287 *)
| units_numeric_text    (* 293 *)
| units_empty_text      (* 297 *)
| units_duplicates      (* 313 *)
| units_negative        (* 320 *)
| units_not_positive    (* 329 *)
| units_above_one       (* 338 *)
| units_above_horizon   (* 348 *)
| heat_not_found        (* 370 *)
| heat_always_zero      (* 373 *)
| heat_bad_type         (* 389 *)
| heat_no_powertoheat   (* 391 *)
| heat_above_capacity   (* 394 *)
| heat_below_minimum    (* 396 *)
| heat_no_plant         (* 398 *)
| df_no_start           (* 409 *)
| df_no_stop            (* 411 *)
| df_missing_entries    (* 418 *)
| df_duplicate_headers  (* 420 *).

Record entry : Type := Log {
  lvl : level;
  at_site : site;
  args : list pyval
}.

(** Python exceptions that reach the caller. *)
Inductive exn : Type :=
| KeyError | TypeError | ValueError | AttributeError | NameError
| IndexError.

Inductive outcome (A : Type) : Type :=
| Return (a : A)
| SysExit (status : Z)
| Raise (e : exn).

Arguments Return {A} a.
Arguments SysExit {A} status.
Arguments Raise {A} e.

(** What a run leaves behind: how it ended, the tables as they are then,
    and what it logged, oldest first. *)
Record run (S A : Type) : Type := Run {
  result : outcome A;
  store : S;
  logged : list entry
}.

Definition M (S A : Type) : Type := S -> run S A.

Section Monad.
Variable S : Type.

Definition ret {A} (a : A) : M S A := fun s => Run (Return a) s [].

Definition bind {A B} (m : M S A) (f : A -> M S B) : M S B :=
  fun s =>
    match m s with
    | Run (Return a) s' l =>
        match f a s' with
        | Run r s'' l' => Run r s'' (l ++ l')
        end
    | Run (SysExit c) s' l => Run (SysExit c) s' l
    | Run (Raise e) s' l => Run (Raise e) s' l
    end.

Definition logging (v : level) (w : site) (a : list pyval) : M S unit :=
  fun s => Run (Return tt) s [Log v w a].

Definition sys_exit {A} (c : Z) : M S A := fun s => Run (SysExit c) s [].

Definition raise {A} (e : exn) : M S A := fun s => Run (Raise e) s [].

Definition gets {A} (f : S -> A) : M S A := fun s => Run (Return (f s)) s [].

Definition modify (f : S -> S) : M S unit :=
  fun s => Run (Return tt) (f s) [].

(** A lookup that raises when there is nothing to find. *)
Definition lookup {A} (e : exn) (f : S -> option A) : M S A :=
  fun s => match f s with
           | Some a => Run (Return a) s []
           | None => Run (Raise e) s []
           end.

Definition of_option {A} (e : exn) (o : option A) : M S A :=
  match o with Some a => ret a | None => raise e end.

Definition when (b : bool) (m : M S unit) : M S unit :=
  if b then m else ret tt.

(** A run before which [l] had already been logged. *)
Definition after {A} (l : list entry) (r : run S A) : run S A :=
  Run (result r) (store r) (l ++ logged r).

(** A computation that leaves the store as it found it. *)
Definition readonly {A} (m : M S A) : Prop := forall s, store (m s) = s.

(** Every record that a computation logs satisfies [P]. *)
Definition logs_only {A} (P : entry -> Prop) (m : M S A) : Prop :=
  forall s, Forall P (logged (m s)).
End Monad.

Arguments ret {S A} a.
Arguments sys_exit {S A} c.
Arguments raise {S A} e.
Arguments of_option {S A} e o.

Declare Scope py_scope.
Delimit Scope py_scope with py.
Notation "x <- m ;; k" := (bind m (fun x => k))
  (at level 61, m at next level, right associativity) : py_scope.
Notation "m ;; k" := (bind m (fun _ => k))
  (at level 61, right associativity) : py_scope.
Local Open Scope py_scope.

Section Loops.
Variables S X : Type.

(** [for x in xs: body]. *)
Fixpoint for_ (xs : list X) (body : X -> M S unit) : M S unit :=
  match xs with
  | [] => ret tt
  | x :: xs' => body x ;; for_ xs' body
  end.

(** A loop whose body assigns variables that live on after it. *)
Fixpoint for_acc {V : Type} (xs : list X) (v : V) (body : V -> X -> M S V)
  : M S V :=
  match xs with
  | [] => ret v
  | x :: xs' => v' <- body v x ;; for_acc xs' v' body
  end.

(** A list comprehension. *)
Fixpoint map_M {Y : Type} (f : X -> M S Y) (xs : list X) : M S (list Y) :=
  match xs with
  | [] => ret []
  | x :: xs' => y <- f x ;; ys <- map_M f xs' ;; ret (y :: ys)
  end.
End Loops.

(** Values that ['text' + v] accepts. *)
Definition is_text (v : pyval) : bool :=
  match v with
  | VStr _ | VRepr _ | VCell (CStr _) | VLabel (LStr _) => true
  | _ => false
  end.

(** ['text' + v + 'text']: a [TypeError] unless [v] is text. *)
Definition concat {S} (v : pyval) : M S pyval :=
  if is_text v then ret v else raise TypeError.

(** A number in arithmetic or in an order comparison; text raises. *)
Definition num {S} (c : Cell) : M S float :=
  match c with
  | CNum x => ret x
  | CStr _ => raise TypeError
  end.

(** [c.lower()]. *)
Definition lower_of {S} (c : Cell) : M S string :=
  match c with
  | CStr s => ret (lower s)
  | CNum _ => raise AttributeError
  end.

Definition is_str (c : Cell) : bool :=
  match c with CStr _ => true | CNum _ => false end.

(** [pd.isnull(c)] on a cell. *)
Definition isnull (c : Cell) : bool :=
  match c with CNum x => F64.isnan x | CStr _ => false end.

(** [np.isnan(c)]: defined on numbers only. *)
Definition np_isnan {S} (c : Cell) : M S bool :=
  match c with
  | CNum x => ret (F64.isnan x)
  | CStr _ => raise TypeError
  end.

(** Primitive reads of a table held in the store. *)
Section Reads.
Variable S : Type.
Variable sel : S -> DataFrame.

(** [k in plants]. *)
Definition contains (k : string) : M S bool :=
  gets (fun s => has_column (sel s) k).

(** [plants.loc[u, k]]. *)
Definition loc (u : Label) (k : string) : M S Cell :=
  lookup KeyError (fun s => cell_at (sel s) u k).

(** [plants[k]]. *)
Definition getitem (k : string) : M S (list Cell) :=
  lookup KeyError (fun s => column (sel s) k).

(** [plants.k]. *)
Definition getattr (k : string) : M S (list Cell) :=
  lookup AttributeError (fun s => column (sel s) k).

(** [plants.index]. *)
Definition get_index : M S (list Label) :=
  gets (fun s => index (sel s)).

(** The name used in messages (lines 158-161, 171-174, 185-188). *)
Definition unitname (u : Label) : M S pyval :=
  b <- contains "Unit" ;;
  if b then c <- loc u "Unit" ;; ret (VCell c)
  else ret (VRepr u).
End Reads.

Arguments contains {S} sel k.
Arguments loc {S} sel u k.
Arguments getitem {S} sel k.
Arguments getattr {S} sel k.
Arguments get_index {S} sel.
Arguments unitname {S} sel u.

(** The run-time configuration: a dictionary. *)
Definition Config : Type := list (string * Cell).

(* ===================================================================== *)
(** * [check_chp] (lines 143-253) *)
(* ===================================================================== *)

Module CHP.

Definition keys : list string :=
  ["CHPType"; "CHPPowerToHeat"; "CHPPowerLossFactor"].
Definition NonNaNKeys : list string :=
  ["CHPPowerToHeat"; "CHPPowerLossFactor"].
Definition StrKeys : list string := ["CHPType"].
Definition types : list string := ["extraction"; "back-pressure"; "p2h"].

Definition zero : float := F64.of_Z 0.
Definition one : float := F64.of_Z 1.
Definition ten : float := F64.of_Z 10.
Definition c24 : float := F64.of_Z 24.
Definition c100 : float := F64.of_Z 100.
Definition c0_5 : float := F64.dec 5 10.
Definition c0_95 : float := F64.dec 95 100.
Definition c1_14 : float := F64.dec 114 100.

Definition self (s : DataFrame) : DataFrame := s.

(** Lines 151-154. *)
Definition check_keys : M DataFrame unit :=
  for_ keys (fun key =>
    b <- contains self key ;;
    when (negb b)
      (logging CRITICAL chp_missing_field [VStr key] ;; sys_exit 1)).

(** Lines 156-167; [plants.loc[u, key]] is read once, a read having no
    effect. *)
Definition check_numeric : M DataFrame unit :=
  for_ NonNaNKeys (fun key =>
    idx <- get_index self ;;
    for_ idx (fun u =>
      name <- unitname self u ;;
      c <- loc self u key ;;
      when (is_str c)
        (logging CRITICAL chp_non_numeric [VStr key] ;; sys_exit 1) ;;
      missing <- np_isnan c ;;
      when missing
        (n <- concat name ;;
         logging CRITICAL chp_missing_value [n; VStr key] ;; sys_exit 1))).

(** Lines 169-181. *)
Definition check_text : M DataFrame unit :=
  for_ StrKeys (fun key =>
    idx <- get_index self ;;
    for_ idx (fun u =>
      name <- unitname self u ;;
      c <- loc self u key ;;
      match c with
      | CNum _ =>
          logging CRITICAL chp_numeric_text [VStr key] ;; sys_exit 1
      | CStr "" =>
          n <- concat name ;;
          logging CRITICAL chp_empty_text [n; VStr key] ;; sys_exit 1
      | CStr _ => ret tt
      end)).

(** Lines 206-214: the heat output used for an [extraction] unit; the
    result is the new value of [plant_MaxHeat]. *)
Definition extraction_MaxHeat (PowerCapacity : Cell) (powertoheat : float)
           (MaxHeat : Cell) : M DataFrame Cell :=
  pc <- num PowerCapacity ;;
  let intersection_MaxHeat := F64.div pc powertoheat in
  if negb (isnull MaxHeat) then
    m <- num MaxHeat ;;
    if F64.ltb intersection_MaxHeat m then
      logging WARNING chp_maxheat_above_intersection
              [VCell MaxHeat; VFloat intersection_MaxHeat] ;;
      ret (CNum intersection_MaxHeat)
    else ret MaxHeat
  else ret (CNum intersection_MaxHeat).

(** Line 218: [F = (P + C_v * Q) / eta]. *)
Definition Fuel (P lossfactor Q eta : float) : float :=
  F64.div (F64.add P (F64.mul lossfactor Q)) eta.

(** Line 219: [eta_tot = (P + Q) / F]. *)
Definition TotalEfficiency (P Q F : float) : float :=
  F64.div (F64.add P Q) F.

(** Lines 185-225: the body of the efficiency loop; it returns
    [unitname], which the later loops still use. *)
Definition check_unit (u : Label) : M DataFrame pyval :=
  name <- unitname self u ;;
  plant_PowerCapacity <- loc self u "PowerCapacity" ;;
  plant_MaxHeat <- loc self u "CHPMaxHeat" ;;
  plant_powertoheat <- loc self u "CHPPowerToHeat" ;;
  plant_powerlossfactor <- loc self u "CHPPowerLossFactor" ;;
  CHPType <- loc self u "CHPType" ;;
  type <- lower_of CHPType ;;
  when (negb (mem_string type types))
    (a <- concat (VLabel u) ;;
     logging CRITICAL chp_bad_type [a; VCell CHPType] ;; sys_exit 1) ;;
  p2h <- num plant_powertoheat ;;
  when (F64.gtb zero p2h && F64.gtb p2h ten)
    (a <- concat (VLabel u) ;;
     logging CRITICAL chp_powertoheat_range [a; VFloat p2h] ;; sys_exit 1) ;;
  lf <- num plant_powerlossfactor ;;
  when (F64.gtb zero lf && F64.gtb lf one && negb (type =? "p2h"))
    (a <- concat (VLabel u) ;;
     logging CRITICAL chp_lossfactor_range [a; VFloat lf] ;; sys_exit 1) ;;
  when ((type =? "back-pressure") && F64.neb lf zero)
    (a <- concat (VLabel u) ;;
     logging CRITICAL chp_lossfactor_backpressure [a; VFloat lf] ;;
     sys_exit 1) ;;
  plant_MaxHeat <- (if type =? "extraction"
                    then extraction_MaxHeat plant_PowerCapacity p2h
                                            plant_MaxHeat
                    else ret plant_MaxHeat) ;;
  when (negb (type =? "p2h"))
    (Q <- num plant_MaxHeat ;;
     P <- num plant_PowerCapacity ;;
     Efficiency <- loc self u "Efficiency" ;;
     eta <- num Efficiency ;;
     let F := Fuel P lf Q eta in
     let eta_tot := TotalEfficiency P Q F in
     logging DEBUG chp_efficiency [VLabel u; VFloat eta_tot] ;;
     when (F64.ltb eta_tot zero || F64.gtb eta_tot c1_14)
       (n <- concat name ;;
        logging CRITICAL chp_efficiency_unrealistic [n; VFloat eta_tot] ;;
        sys_exit 1) ;;
     when (F64.gtb eta_tot c0_95)
       (n <- concat name ;;
        logging WARNING chp_efficiency_high [n; VFloat eta_tot])) ;;
  ret name.

(** The variable [unitname] after the efficiency loop. *)
Definition stale (name : option pyval) : M DataFrame pyval :=
  match name with
  | Some n => concat n
  | None => raise NameError
  end.

(** Lines 229-232. *)
Definition check_MaxHeat (u : Label) : M DataFrame unit :=
  plant_MaxHeat <- loc self u "CHPMaxHeat" ;;
  m <- num plant_MaxHeat ;;
  when (F64.leb m zero)
    (logging WARNING chp_maxheat_shutdown [VLabel u; VCell plant_MaxHeat]).

(** Lines 235-240. *)
Definition check_STOCapacity (name : option pyval) (u : Label)
  : M DataFrame unit :=
  PowerCapacity <- loc self u "PowerCapacity" ;;
  CHPPowerToHeat <- loc self u "CHPPowerToHeat" ;;
  P <- num PowerCapacity ;;
  r <- num CHPPowerToHeat ;;
  let Qdot := F64.div P r in
  STOCapacity <- loc self u "STOCapacity" ;;
  c <- num STOCapacity ;;
  if F64.ltb c (F64.mul Qdot c0_5) then
    n <- stale name ;;
    logging WARNING chp_storage_low [n; VFloat c; VFloat Qdot]
  else if F64.gtb c (F64.mul Qdot c24) then
    n <- stale name ;;
    logging WARNING chp_storage_high [n; VFloat c; VFloat Qdot]
  else ret tt.

(** Lines 244-251, on the value [d] of [STOSelfDischarge]. *)
Definition selfdischarge (name : option pyval) (d : float)
  : M DataFrame unit :=
  if F64.ltb d zero then
    n <- stale name ;;
    logging ERROR chp_selfdischarge_negative [n; VFloat (F64.mul d c100)] ;;
    sys_exit 1
  else if F64.gtb d one then
    n <- stale name ;;
    logging WARNING chp_selfdischarge_high [n; VFloat (F64.mul d c100)]
  else if F64.gtb d c24 then
    n <- stale name ;;
    logging ERROR chp_selfdischarge_too_high [n; VFloat (F64.mul d c100)] ;;
    sys_exit 1
  else ret tt.

Definition check_STOSelfDischarge (name : option pyval) (u : Label)
  : M DataFrame unit :=
  STOSelfDischarge <- loc self u "STOSelfDischarge" ;;
  d <- num STOSelfDischarge ;;
  selfdischarge name d.

Definition check_chp (config : Config) : M DataFrame bool :=
  check_keys ;;
  check_numeric ;;
  check_text ;;
  idx <- get_index self ;;
  name <- for_acc idx None (fun _ u => n <- check_unit u ;; ret (Some n)) ;;
  b <- contains self "CHPMaxHeat" ;;
  when b (idx <- get_index self ;; for_ idx check_MaxHeat) ;;
  b <- contains self "STOCapacity" ;;
  when b (idx <- get_index self ;; for_ idx (check_STOCapacity name)) ;;
  b <- contains self "STOSelfDischarge" ;;
  when b (idx <- get_index self ;; for_ idx (check_STOSelfDischarge name)) ;;
  ret true.

End CHP.

Definition check_chp := CHP.check_chp.

(* ===================================================================== *)
(** * [isVRE], [isStorage] (lines 15-25) *)
(* ===================================================================== *)

Definition isVRE (tech : string) : bool :=
  mem_string tech ["HROR"; "PHOT"; "WTON"; "WTOF"].

Definition isStorage (tech : string) : bool :=
  mem_string tech ["HDAM"; "HPHS"; "CAES"; "BATS"; "BEVS"; "THMS"; "P2GS"].

(* ===================================================================== *)
(** * [check_units] (lines 255-352) *)
(* ===================================================================== *)

Module Units.

Definition keys : list string :=
  ["Unit"; "Fuel"; "Zone"; "Technology"; "PowerCapacity"; "PartLoadMin";
   "RampUpRate"; "RampDownRate"; "StartUpTime"; "MinUpTime"; "MinDownTime";
   "NoLoadCost"; "StartUpCost"; "Efficiency"; "CO2Intensity"].
Definition NonNaNKeys : list string :=
  ["PowerCapacity"; "PartLoadMin"; "RampUpRate"; "RampDownRate";
   "Efficiency"; "RampingCost"; "CO2Intensity"].
Definition StrKeys : list string := ["Unit"; "Zone"; "Fuel"; "Technology"].

Definition lower : list string :=
  ["PowerCapacity"; "PartLoadMin"; "StartUpTime"; "MinUpTime"; "MinDownTime";
   "NoLoadCost"; "StartUpCost"].
Definition lower_hard : list string :=
  ["RampUpRate"; "RampDownRate"; "Efficiency"].
Definition higher : list string := ["PartLoadMin"; "Efficiency"].
Definition higher_time : list string := ["MinUpTime"; "MinDownTime"].

Definition zero : float := F64.of_Z 0.
Definition one : float := F64.of_Z 1.
Definition c24 : float := F64.of_Z 24.

Definition self (s : DataFrame) : DataFrame := s.

(** [Series.duplicated()]: a row is marked when its value was seen in an
    earlier row. *)
Fixpoint duplicated_from (seen cs : list Cell) : list bool :=
  match cs with
  | [] => []
  | c :: cs' => existsb (cell_same c) seen :: duplicated_from (c :: seen) cs'
  end.

Definition duplicated (cs : list Cell) : list bool := duplicated_from [] cs.

(** [Series.unique()]: the values in order of first appearance. *)
Definition unique (cs : list Cell) : list Cell :=
  select (map negb (duplicated cs)) cs.

Section Checks.
(** [float(x)] on a text is Python's parser, which is not part of this
    file: it is a parameter, [None] standing for [ValueError]. *)
Variable float_of_text : string -> option float.

Definition to_float (c : Cell) : M DataFrame float :=
  match c with
  | CNum x => ret x
  | CStr s => of_option ValueError (float_of_text s)
  end.

(** Lines 267-274; the result tells whether the column [Nunits] is
    there. *)
Definition check_Nunits : M DataFrame bool :=
  b <- contains self "Nunits" ;;
  if b then
    col <- getitem self "Nunits" ;;
    xs <- map_M to_float col ;;
    when (existsb (fun x => negb (F64.is_integer x)) xs)
      (logging ERROR units_nunits_not_integer [] ;; sys_exit 1) ;;
    ret true
  else
    logging INFO units_nunits_default [] ;; ret false.

Definition optional (Nunits : bool) : list string :=
  if Nunits then ["Nunits"] else [].

(** Lines 276-279. *)
Definition check_keys (ks : list string) : M DataFrame unit :=
  for_ ks (fun key =>
    b <- contains self key ;;
    when (negb b)
      (logging CRITICAL units_missing_field [VStr key] ;; sys_exit 1)).

(** Lines 281-288; [plants.loc[u, key]] is read once, a read having no
    effect. *)
Definition check_numeric (ks : list string) : M DataFrame unit :=
  for_ ks (fun key =>
    idx <- get_index self ;;
    for_ idx (fun u =>
      c <- loc self u key ;;
      when (is_str c)
        (logging CRITICAL units_non_numeric [VStr key] ;; sys_exit 1) ;;
      missing <- np_isnan c ;;
      when missing
        (logging CRITICAL units_missing_value [VRepr u; VStr key] ;;
         sys_exit 1))).

(** Lines 290-299. *)
Definition check_text : M DataFrame unit :=
  for_ StrKeys (fun key =>
    idx <- get_index self ;;
    for_ idx (fun u =>
      c <- loc self u key ;;
      match c with
      | CNum _ =>
          logging CRITICAL units_numeric_text [VStr key] ;; sys_exit 1
      | CStr "" =>
          logging CRITICAL units_empty_text [VRepr u; VStr key] ;;
          sys_exit 1
      | CStr _ => ret tt
      end)).

(** Lines 260-299: everything before the uniqueness check. *)
Definition prelude : M DataFrame bool :=
  Nunits <- check_Nunits ;;
  check_keys (keys ++ optional Nunits) ;;
  check_numeric (NonNaNKeys ++ optional Nunits) ;;
  check_text ;;
  ret Nunits.

(** Lines 311-314. *)
Definition check_unique : M DataFrame unit :=
  Unit <- getitem self "Unit" ;;
  when (negb (List.length (unique Unit) =? List.length Unit)%nat)
    (let duplicates := select (duplicated Unit) Unit in
     d0 <- of_option IndexError (hd_error duplicates) ;;
     first <- concat (VCell d0) ;;
     Zone <- getattr self "Zone" ;;
     let zones := select (map (fun c => cell_eqb c d0) Unit) Zone in
     logging ERROR units_duplicates [VCells duplicates; first; VCells zones] ;;
     sys_exit 1).

(** The rows of column [key] on which [test] holds; an order comparison
    with a text raises. *)
Definition where_ (key : string) (test : float -> bool)
  : M DataFrame (list bool) :=
  col <- getitem self key ;;
  xs <- map_M num col ;;
  ret (map test xs).

(** One pass of a range loop (lines 316-350): fatal when [test] holds
    in some row, naming the units of these rows. *)
Definition check_range (w : site) (extra : list pyval) (key : string)
           (test : float -> bool) : M DataFrame unit :=
  mask <- where_ key test ;;
  when (existsb (fun b => b) mask)
    (Unit <- getitem self "Unit" ;;
     logging CRITICAL w ([VStr key] ++ extra ++ [VCells (select mask Unit)]) ;;
     sys_exit 1).

(** Lines 344-350. *)
Definition check_horizon (config : Config) (key : string)
  : M DataFrame unit :=
  col <- getitem self key ;;
  HorizonLength <- of_option KeyError (assoc "HorizonLength" config) ;;
  h <- num HorizonLength ;;
  let hours := F64.mul h c24 in
  check_range units_above_horizon [VFloat hours] key
              (fun x => F64.geb x hours).

Definition check_units (config : Config) : M DataFrame bool :=
  Nunits <- prelude ;;
  check_unique ;;
  for_ lower (fun key =>
    check_range units_negative [] key (fun x => F64.ltb x zero)) ;;
  for_ (lower_hard ++ optional Nunits) (fun key =>
    check_range units_not_positive [] key (fun x => F64.leb x zero)) ;;
  for_ higher (fun key =>
    check_range units_above_one [] key (fun x => F64.gtb x one)) ;;
  for_ higher_time (check_horizon config) ;;
  ret true.
End Checks.

End Units.

Definition check_units := Units.check_units.

(* ===================================================================== *)
(** * [check_sto] (lines 107-139) *)
(* ===================================================================== *)

Module Sto.

Definition self (s : DataFrame) : DataFrame := s.

Definition keys (raw_data : bool) : list string :=
  if raw_data
  then ["STOCapacity"; "STOSelfDischarge"; "STOMaxChargingPower";
        "STOChargingEfficiency"]
  else ["StorageCapacity"; "StorageSelfDischarge"; "StorageChargingCapacity";
        "StorageChargingEfficiency"].

Definition NonNaNKeys (raw_data : bool) : list string :=
  if raw_data then ["STOCapacity"] else ["StorageCapacity"].

Definition check_sto (config : Config) (raw_data : bool) : M DataFrame bool :=
  b <- contains self "StorageInitial" ;;
  when b (logging WARNING sto_deprecated []) ;;
  for_ (keys raw_data) (fun key =>
    b <- contains self key ;;
    when (negb b)
      (logging CRITICAL sto_missing_field [VStr key] ;; sys_exit 1)) ;;
  for_ (NonNaNKeys raw_data) (fun key =>
    idx <- get_index self ;;
    for_ idx (fun u =>
      name <- unitname self u ;;
      c <- loc self u key ;;
      when (is_str c)
        (logging CRITICAL sto_non_numeric [VStr key] ;; sys_exit 1) ;;
      missing <- np_isnan c ;;
      when missing
        (n <- concat name ;;
         logging CRITICAL sto_missing_value [n; VStr key] ;; sys_exit 1))) ;;
  ret true.

End Sto.

Definition check_sto := Sto.check_sto.

(* ===================================================================== *)
(** * [check_clustering] (lines 55-87) *)
(* ===================================================================== *)

Module Clustering.

(** The store: the original table and the clustered one. *)
Definition Tables : Type := (DataFrame * DataFrame)%type.
Definition plants (s : Tables) : DataFrame := fst s.
Definition plants_merged (s : Tables) : DataFrame := snd s.

Definition List_tech_storage : list string :=
  ["HDAM"; "HPHS"; "BATS"; "BEVS"; "CAES"; "THMS"].

Definition c0_0001 : float := F64.dec 1 10000.
Definition c0_01 : float := F64.dec 1 100.

(** The test of lines 71 and 84. *)
Definition differs (old new : float) : bool :=
  F64.gtb (F64.div (F64.abs (F64.sub old new)) (F64.add old c0_0001)) c0_01.

Definition pair_same (a b : Cell * Cell) : bool :=
  cell_same (fst a) (fst b) && cell_same (snd a) (snd b).

(** [drop_duplicates]: the first row of each kind is kept. *)
Fixpoint drop_duplicates_from (seen ps : list (Cell * Cell))
  : list (Cell * Cell) :=
  match ps with
  | [] => []
  | p :: ps' =>
      if existsb (pair_same p) seen then drop_duplicates_from seen ps'
      else p :: drop_duplicates_from (p :: seen) ps'
  end.

Definition drop_duplicates (ps : list (Cell * Cell)) : list (Cell * Cell) :=
  drop_duplicates_from [] ps.

(** [a * b] on cells. *)
Definition times (ab : Cell * Cell) : M Tables float :=
  a <- num (fst ab) ;; b <- num (snd ab) ;; ret (F64.mul a b).

Section Table.
(** One of the two tables. *)
Variable sel : Tables -> DataFrame.

(** [t.Technology[u]] and the like. *)
Definition at_label (k : string) (u : Label) : M Tables Cell :=
  col <- getattr sel k ;;
  idx <- get_index sel ;;
  of_option KeyError (series_at idx col u).

(** Lines 67-68: the rows of one technology and fuel. *)
Definition units_of (tech : Cell * Cell) : M Tables (list bool) :=
  Technology <- getattr sel "Technology" ;;
  Fuel <- getattr sel "Fuel" ;;
  ret (map (fun tf => cell_eqb (fst tf) (fst tech) &&
                      cell_eqb (snd tf) (snd tech))
           (combine Technology Fuel)).

(** Lines 69-70 and 82-83: [(t.k[rows] * t.Nunits[rows]).sum()]. *)
Definition total (k : string) (rows : list bool) : M Tables float :=
  col <- getattr sel k ;;
  Nunits <- getattr sel "Nunits" ;;
  products <- map_M times (combine (select rows col) (select rows Nunits)) ;;
  ret (F64.nansum products).

(** Lines 76-81. *)
Definition isstorage : M Tables (list bool) :=
  idx <- get_index sel ;;
  map_M (fun u => t <- at_label "Technology" u ;;
                  ret (cell_in t List_tech_storage)) idx.
End Table.

(** Line 63. *)
Definition techs : M Tables (list (Cell * Cell)) :=
  idx <- get_index plants ;;
  map_M (fun u => t <- at_label plants "Technology" u ;;
                  f <- at_label plants "Fuel" u ;;
                  ret (t, f)) idx.

(** Lines 66-73. *)
Definition check_pair (tech : Cell * Cell) : M Tables unit :=
  units_old <- units_of plants tech ;;
  units_new <- units_of plants_merged tech ;;
  P_old <- total plants "PowerCapacity" units_old ;;
  P_new <- total plants_merged "PowerCapacity" units_new ;;
  when (differs P_old P_new)
    (t <- concat (VCell (fst tech)) ;;
     f <- concat (VCell (snd tech)) ;;
     logging ERROR clustering_capacity [t; f; VFloat P_old; VFloat P_new] ;;
     sys_exit 1).

Definition check_clustering : M Tables bool :=
  ts <- techs ;;
  for_ (drop_duplicates ts) check_pair ;;
  isstorage_ <- isstorage plants ;;
  isstorage_merged <- isstorage plants_merged ;;
  TotalStorage <- total plants "STOCapacity" isstorage_ ;;
  TotalStorage_merged <- total plants_merged "STOCapacity" isstorage_merged ;;
  when (differs TotalStorage TotalStorage_merged)
    (logging ERROR clustering_storage
             [VFloat TotalStorage; VFloat TotalStorage_merged]) ;;
  ret true.

End Clustering.

Definition check_clustering := Clustering.check_clustering.

(* ===================================================================== *)
(** * [check_AvailabilityFactors] (lines 29-53) *)
(* ===================================================================== *)

Module AF.

(** The store: the unit table and the availability factors. *)
Definition Tables : Type := (DataFrame * NumFrame)%type.
Definition plants (s : Tables) : DataFrame := fst s.

Definition RES : list string := ["WTON"; "WTOF"; "PHOT"; "HROR"].

Definition zero : float := F64.of_Z 0.
Definition one : float := F64.of_Z 1.

(** [u in AF]: a column of that name. *)
Definition in_AF (u : Cell) (AF : NumFrame) : bool :=
  match u with
  | CStr s => has_ncolumn AF s
  | CNum _ => false
  end.

(** [AF[u]]. *)
Definition AF_column (u : Cell) : M Tables (list float) :=
  lookup KeyError (fun s => match u with
                            | CStr k => ncolumn (snd s) k
                            | CNum _ => None
                            end).

(** [v[k]] in row number [i] of [iterrows]. *)
Definition field (i : nat) (k : string) : M Tables Cell :=
  lookup KeyError (fun s => match column (plants s) k with
                            | Some cs => nth_error cs i
                            | None => None
                            end).

Definition count (p : float -> bool) (xs : list float) : nat :=
  List.length (filter p xs).

(** Lines 36-53: the loop body. *)
Definition check_row (i : nat) : M Tables unit :=
  u <- field i "Unit" ;;
  t <- field i "Technology" ;;
  present <- gets (fun s => in_AF u (snd s)) ;;
  when (cell_in t RES && negb present)
    (tech <- concat (VCell t) ;;
     logging ERROR AF_res_missing [VCell u; tech] ;;
     raise ValueError) ;;
  if present then
    col <- AF_column u ;;
    when (existsb F64.isnan col)
      (logging WARNING AF_empty_values
               [VCell u; VCell t; VNat (List.length col)]) ;;
    let df_af := filter (fun x => negb (F64.isnan x)) col in
    when (forallb (fun x => F64.eqb x one) df_af)
      (tech <- concat (VCell t) ;;
       logging DEBUG AF_always_100 [VCell u; tech]) ;;
    when (existsb (fun x => F64.ltb x zero || F64.gtb x one) df_af)
      (logging ERROR AF_out_of_range
               [VCell u; VCell t;
                VNat (count (fun x => F64.gtb x one) df_af);
                VNat (count (fun x => F64.ltb x zero) df_af)])
  else
    tech <- concat (VCell t) ;;
    logging ERROR AF_default_100 [VCell u; tech].

Definition check_AvailabilityFactors : M Tables unit :=
  idx <- get_index plants ;;
  for_ (seq 0 (List.length idx)) check_row.

End AF.

Definition check_AvailabilityFactors := AF.check_AvailabilityFactors.

(* ===================================================================== *)
(** * [check_MinMaxFlows] (lines 90-104) *)
(* ===================================================================== *)

Module Flows.

(** The store: two arrays of the same shape, by line and time step. *)
Definition Array : Type := list (list float).
Definition Tables : Type := (Array * Array)%type.

Definition zero : float := F64.of_Z 0.

Fixpoint find_true (j : nat) (row : list bool) : option nat :=
  match row with
  | [] => None
  | b :: row' => if b then Some j else find_true (S j) row'
  end.

(** [np.where(a)], first hit: the coordinates of the first true entry in
    row-major order. *)
Fixpoint first_where (i : nat) (a : list (list bool)) : option (nat * nat) :=
  match a with
  | [] => None
  | row :: a' =>
      match find_true 0 row with
      | Some j => Some (i, j)
      | None => first_where (S i) a'
      end
  end.

Definition fatal_at (w : site) (a : list (list bool)) : M Tables unit :=
  match first_where 0 a with
  | Some (i, j) => logging CRITICAL w [VNat i; VNat j] ;; sys_exit 1
  | None => ret tt
  end.

Definition check_MinMaxFlows : M Tables bool :=
  df_min <- gets fst ;;
  df_max <- gets snd ;;
  fatal_at flows_min_above_max
    (map (fun rows => map (fun ab => F64.gtb (fst ab) (snd ab))
                          (combine (fst rows) (snd rows)))
         (combine df_min df_max)) ;;
  fatal_at flows_negative_max
    (map (map (fun x => F64.ltb x zero)) df_max) ;;
  ret true.

End Flows.

Definition check_MinMaxFlows := Flows.check_MinMaxFlows.

(* ===================================================================== *)
(** * [check_heat_demand] (lines 355-399) *)
(* ===================================================================== *)

Module Heat.

(** The store: the table of CHP plants and the heat demand. *)
Definition Tables : Type := (DataFrame * NumFrame)%type.
Definition plants (s : Tables) : DataFrame := fst s.

Definition zero : float := F64.of_Z 0.
Definition one : float := F64.of_Z 1.

(** Line 361: [plants.index = plants['Unit']]. *)
Definition set_index (Unit : list Cell) (s : Tables) : Tables :=
  ({| index := map label_of_cell Unit; columns := columns (fst s) |}, snd s).

(** [data[u]]. *)
Definition demand (u : string) : M Tables (list float) :=
  lookup KeyError (fun s => ncolumn (snd s) u).

(** [min(a, b) * Nunits] with cells. *)
Definition capped (a : float) (b Nunits : Cell) : M Tables float :=
  q <- num b ;; n <- num Nunits ;; ret (F64.mul (F64.pymin a q) n).

(** A local variable that may not have been assigned yet. *)
Definition bound (v : option float) : M Tables float :=
  of_option NameError v.

(** Lines 363-398: the loop body; [Qmin] and [Qmax] live on from one
    column to the next.  The test of line 369, [u not in data.columns],
    never holds for a header [u] of [data] and is left out. *)
Definition check_column (Q : option float * option float) (u : string)
  : M Tables (option float * option float) :=
  idx <- get_index plants ;;
  if existsb (label_eqb (LStr u)) idx then
    has <- contains plants "Nunits" ;;
    Nunits <- (if has then loc plants (LStr u) "Nunits"
               else ret (CNum one)) ;;
    series <- demand u ;;
    when (forallb (fun x => F64.eqb x zero) series)
      (logging CRITICAL heat_always_zero [VStr u]) ;;
    CHPType <- loc plants (LStr u) "CHPType" ;;
    plant_CHP_type <- lower_of CHPType ;;
    CHPMaxHeat <- loc plants (LStr u) "CHPMaxHeat" ;;
    let plant_Qmax := if isnull CHPMaxHeat then CNum F64.inf
                      else CHPMaxHeat in
    Q <- (if plant_CHP_type =? "extraction" then
            PowerCapacity <- loc plants (LStr u) "PowerCapacity" ;;
            CHPPowerToHeat <- loc plants (LStr u) "CHPPowerToHeat" ;;
            P <- num PowerCapacity ;;
            r <- num CHPPowerToHeat ;;
            Qmax <- capped (F64.div P r) plant_Qmax Nunits ;;
            ret (Some zero, Some Qmax)
          else if plant_CHP_type =? "back-pressure" then
            PowerCapacity <- loc plants (LStr u) "PowerCapacity" ;;
            PartLoadMin <- loc plants (LStr u) "PartLoadMin" ;;
            P <- num PowerCapacity ;;
            m <- num PartLoadMin ;;
            CHPPowerToHeat <- loc plants (LStr u) "CHPPowerToHeat" ;;
            r <- num CHPPowerToHeat ;;
            Qmax <- capped (F64.div P r) plant_Qmax Nunits ;;
            ret (Some (F64.div (F64.mul P m) r), Some Qmax)
          else if plant_CHP_type =? "p2h" then
            q <- num plant_Qmax ;;
            n <- num Nunits ;;
            ret (Some zero, Some (F64.mul q n))
          else
            logging ERROR heat_bad_type [VStr u] ;; ret Q) ;;
    Qmax <- bound (snd Q) ;;
    (if F64.isnan Qmax && negb (plant_CHP_type =? "p2h") then
       logging ERROR heat_no_powertoheat [VStr u] ;; sys_exit 1
     else
       when (F64.gtb (F64.nanmax series) Qmax)
         (logging WARNING heat_above_capacity
                  [VStr u; VFloat (F64.nanmax series); VFloat Qmax])) ;;
    Qmin <- bound (fst Q) ;;
    when (F64.ltb (F64.nanmin series) Qmin)
      (logging WARNING heat_below_minimum
               [VStr u; VFloat (F64.nanmin series); VFloat Qmin]) ;;
    ret Q
  else
    logging WARNING heat_no_plant [VStr u] ;; ret Q.

Definition check_heat_demand : M Tables bool :=
  Unit <- getitem plants "Unit" ;;
  modify (set_index Unit) ;;
  data <- gets (fun s => map fst (ncolumns (snd s))) ;;
  for_acc data (None, None) check_column ;;
  ret true.

End Heat.

Definition check_heat_demand := Heat.check_heat_demand.

(* ===================================================================== *)
(** * [check_df] (lines 402-422) *)
(* ===================================================================== *)

Module DF.

Definition is_time (u : Label) : bool :=
  match u with LTime _ => true | _ => false end.

(** [isinstance(df.index, pd.DatetimeIndex)], for an index as pandas makes
    it from its labels: there are labels and all of them are time stamps.
    Without labels pandas makes an [Index] or a [RangeIndex], which is no
    [DatetimeIndex]. *)
Definition DatetimeIndex (idx : list Label) : bool :=
  match idx with
  | [] => false
  | _ => forallb is_time idx
  end.

(** [date in df.index]; the default date [None] is in no index. *)
Definition in_index (date : option Label) (idx : list Label) : bool :=
  match date with
  | Some d => existsb (label_eqb d) idx
  | None => false
  end.

(** [df.columns[df.columns.duplicated()]]: the headers that were seen
    before. *)
Fixpoint duplicated (seen ks : list string) : list string :=
  match ks with
  | [] => []
  | k :: ks' =>
      if mem_string k seen then k :: duplicated seen ks'
      else duplicated (k :: seen) ks'
  end.

Fixpoint unique (seen ks : list string) : list string :=
  match ks with
  | [] => []
  | k :: ks' =>
      if mem_string k seen then unique seen ks'
      else k :: unique (k :: seen) ks'
  end.

(** [df.columns.get_duplicates()], as the releases of pandas before 1.0
    have it. *)
Definition get_duplicates (ks : list string) : list string :=
  unique [] (duplicated [] ks).

Fixpoint is_unique (ks : list string) : bool :=
  match ks with
  | [] => true
  | k :: ks' => negb (mem_string k ks') && is_unique ks'
  end.

(** A header that several columns have: [df[key]] is then a table,
    [missing] holds one count for each of its columns, and the test
    [missing > 1] of line 417 has no truth value. *)
Definition repeated (key : string) (keys : list string) : bool :=
  (1 <? List.length (filter (String.eqb key) keys))%nat.

(** Lines 402-422.  [any(np.isnan(df))] runs over the column headers and
    holds when one of them is not empty. *)
Definition check_df (StartDate StopDate : option Label) (name : string)
  : M NumFrame bool :=
  idx <- gets (@nindex) ;;
  when (DatetimeIndex idx)
    (when (negb (in_index StartDate idx))
       (logging WARNING df_no_start []) ;;
     when (negb (in_index StopDate idx))
       (logging WARNING df_no_stop [])) ;;
  keys <- gets (fun df => map fst (ncolumns df)) ;;
  when (existsb (fun k => negb (k =? "")) keys)
    (for_ keys (fun key =>
       if repeated key keys then raise ValueError
       else
         col <- lookup KeyError (fun df => ncolumn df key) ;;
         let missing := List.length (filter F64.isnan col) in
         when (1 <? missing)%nat
           (logging WARNING df_missing_entries
                    [VNat missing; VStr key; VStr name]))) ;;
  when (negb (is_unique keys))
    (logging ERROR df_duplicate_headers [VStrs (get_duplicates keys)] ;;
     sys_exit 1) ;;
  ret true.

End DF.

Definition check_df := DF.check_df.

(* ===================================================================== *)
(** * [check_simulation_environment] (lines 425-540) *)
(* ===================================================================== *)

Module Env.

(** The sets and parameters that a simulation needs (lines 436-492). *)
Definition list_sets : list string :=
  ["h"; "d"; "mk"; "n"; "c"; "p"; "l"; "f"; "s"; "t"; "tr"; "u"].

Definition list_param : list string :=
  ["AvailabilityFactor"; "CostFixed"; "CostShutDown"; "Curtailment";
   "Demand"; "Efficiency"; "Fuel"; "CostVariable"; "FuelPrice"; "Markup";
   "CostStartUp"; "EmissionMaximum"; "EmissionRate"; "FlowMaximum";
   "FlowMinimum"; "LineNode"; "Location"; "LoadShedding"; "OutageFactor";
   "PermitPrice"; "PriceTransmission"; "PowerCapacity"; "PartLoadMin";
   "RampUpMaximum"; "RampDownMaximum"; "RampStartUpMaximum";
   "RampShutDownMaximum"; "Reserve"; "StorageDischargeEfficiency";
   "StorageCapacity"; "StorageInflow"; "StorageOutflow"; "StorageInitial";
   "StorageMinimum"; "StorageChargingEfficiency"; "StorageChargingCapacity";
   "Technology"; "TimeDownMinimum"; "TimeUpMinimum"; "TimeDownInitial";
   "TimeUpInitial"; "PowerInitial"].

(** A set or parameter of the simulation: a dictionary. *)
Definition Var : Type := list (string * Cell).

(** The argument [SimulationPath]: a list of variables, or a path. *)
Inductive Argument : Type :=
| AList (vars : list Var)
| APath (path : string).

(** What the function sees of its surroundings: whether the module
    [cPickle] can be imported, the file system as [os.path] shows it, and
    what [cPickle.load(open(path, 'rb'))] gives, [None] when either
    raises. *)
Record World : Type := {
  cPickle : bool;
  exists_ : string -> bool;
  isfile : string -> bool;
  join : string -> string -> string;
  unpickle : string -> option (list Var)
}.

(** The messages, all logged at critical level; the comment gives the
    source line. *)
Inductive message : Type :=
| list_missing (var : string)      (* 500 *)
| not_a_list                       (* 503 *)
| pickle_missing (var : string)    (* 513 *)
| no_pickle_file                   (* 516 *)
| not_a_directory                  (* 519, 535 *)
| no_sets_file                     (* 525 *)
| no_parameter_file (var : string) (* 531 *)
| bad_type.                        (* 539 *)

Inductive error : Type :=
| ImportError    (* import cPickle *)
| KeyError       (* v['name'] *)
| TypeError      (* os.path.exists(a list) *)
| UnpicklingError.     (* open or cPickle.load *)

Inductive ending : Type :=
| Returned
| Exited (status : Z)
| Raised (e : error).

Record outcome : Type := {
  ended : ending;
  critical : list message
}.

Definition done : outcome := {| ended := Returned; critical := [] |}.
Definition fatal (m : message) : outcome :=
  {| ended := Exited 1; critical := [m] |}.
Definition raised (e : error) : outcome :=
  {| ended := Raised e; critical := [] |}.

(** [[vars[i]['name'] for i in range(len(vars))]]. *)
Fixpoint names (vars : list Var) : option (list Cell) :=
  match vars with
  | [] => Some []
  | v :: vars' =>
      match assoc "name" v with
      | None => None
      | Some n => option_map (cons n) (names vars')
      end
  end.

(** [var in l]. *)
Definition among (l : list Cell) (var : string) : bool :=
  existsb (cell_eqb (CStr var)) l.

(** The loops of lines 498-501, 511-514 and 527-532: the first name that
    is not there is fatal. *)
Fixpoint require (present : string -> bool) (report : string -> message)
         (vars : list string) : outcome :=
  match vars with
  | [] => done
  | var :: vars' =>
      if present var then require present report vars'
      else fatal (report var)
  end.

Definition file (var : string) : string :=
  "InputDispa-SET - " ++ var ++ ".xlsx".

Definition check_simulation_environment (w : World)
           (SimulationPath : Argument) (store_type : string) (firstline : Z)
  : outcome :=
  if negb (cPickle w) then raised ImportError
  else if store_type =? "list" then
    match SimulationPath with
    | AList vars =>
        match names vars with
        | None => raised KeyError
        | Some SimulationPath_vars =>
            require (among SimulationPath_vars) list_missing
                    (list_sets ++ list_param)
        end
    | APath _ => fatal not_a_list
    end
  else if store_type =? "pickle" then
    match SimulationPath with
    | AList _ => raised TypeError
    | APath path =>
        if exists_ w path then
          if isfile w (join w path "Inputs.p") then
            match unpickle w (join w path "Inputs.p") with
            | None => raised UnpicklingError
            | Some vars =>
                match names vars with
                | None => raised KeyError
                | Some arg_vars =>
                    require (among arg_vars) pickle_missing
                            (list_sets ++ list_param)
                end
            end
          else fatal no_pickle_file
        else fatal not_a_directory
    end
  else if store_type =? "excel" then
    match SimulationPath with
    | AList _ => raised TypeError
    | APath path =>
        if exists_ w path then
          if negb (isfile w (join w path "InputDispa-SET - Sets.xlsx"))
          then fatal no_sets_file
          else require (fun var => isfile w (join w path (file var)))
                       no_parameter_file list_param
        else fatal not_a_directory
    end
  else fatal bad_type.

End Env.

Definition check_simulation_environment := Env.check_simulation_environment.

(* ===================================================================== *)
(** * Notions used in the statements *)
(* ===================================================================== *)


(** A variable-renewable unit [u] of technology [t] without a column in
    the availability factors. *)
Definition missing (AF_ : NumFrame) (u : Cell) (t : string) : bool :=
  isVRE t && negb (AF.in_AF u AF_).

(** A cell that holds a number. *)
Definition number (c : Cell) : bool :=
  match c with CNum x => negb (F64.isnan x) | CStr _ => false end.

Definition whole (c : Cell) : bool :=
  match c with CNum x => F64.is_integer x | CStr _ => false end.

(** Every column is as long as the index. *)
Definition aligned (df : DataFrame) : Prop :=
  Forall (fun kc => List.length (snd kc) = List.length (index df))
         (columns df).

(** Column [k] is there and holds numbers only. *)
Definition numeric_column (df : DataFrame) (k : string) : bool :=
  match column df k with
  | Some cs => forallb number cs
  | None => false
  end.

(** Column [Nunits], when there, holds whole numbers only. *)
Definition whole_Nunits (df : DataFrame) : bool :=
  match column df "Nunits" with
  | Some cs => forallb whole cs
  | None => true
  end.

(** The numeric columns that [check_units] looks at before
    [RampingCost]. *)
Definition before_RampingCost : list string :=
  ["PowerCapacity"; "PartLoadMin"; "RampUpRate"; "RampDownRate"; "Efficiency"].

(** The record that would report [RampingCost] as a missing mandatory
    field. *)
Definition RampingCost_missing : entry :=
  Log CRITICAL units_missing_field [VStr "RampingCost"].

(** The names that come again: each occurrence after the first. *)
Fixpoint repeated_from (seen names : list string) : list string :=
  match names with
  | [] => []
  | n :: names' =>
      if mem_string n seen then n :: repeated_from (n :: seen) names'
      else repeated_from (n :: seen) names'
  end.

Definition repeated (names : list string) : list string :=
  repeated_from [] names.

(** The zones of the rows named [d]. *)
Definition zones_of (d : string) (names : list string) (zones : list Cell)
  : list Cell :=
  map snd (filter (fun nz => String.eqb (fst nz) d) (combine names zones)).

(** A unit as the clustering check reads it. *)
Module Row.
Record t : Type := {
  Technology : string;
  Fuel : string;
  PowerCapacity : float;
  Nunits : float;
  STOCapacity : float
}.
Definition pair (r : t) : string * string := (Technology r, Fuel r).
End Row.

(** The table holds these units, one per row, under distinct labels. *)
Definition shows (df : DataFrame) (rows : list Row.t) : Prop :=
  NoDup (index df) /\
  List.length (index df) = List.length rows /\
  column df "Technology" = Some (map (fun r => CStr (Row.Technology r)) rows) /\
  column df "Fuel" = Some (map (fun r => CStr (Row.Fuel r)) rows) /\
  column df "PowerCapacity"
    = Some (map (fun r => CNum (Row.PowerCapacity r)) rows) /\
  column df "Nunits" = Some (map (fun r => CNum (Row.Nunits r)) rows) /\
  column df "STOCapacity" = Some (map (fun r => CNum (Row.STOCapacity r)) rows).

(** Total installed capacity of a technology and fuel:
    the sum of [PowerCapacity * Nunits], as [Series.sum] adds them. *)
Definition installed (rows : list Row.t) (tf : string * string) : float :=
  F64.nansum
    (map (fun r => F64.mul (Row.PowerCapacity r) (Row.Nunits r))
         (filter (fun r => (Row.Technology r =? fst tf) &&
                           (Row.Fuel r =? snd tf)) rows)).

(** Total storage capacity: the sum of [STOCapacity * Nunits] over the
    rows of a storage technology, as [Series.sum] adds them. *)
Definition stored (storage : string -> bool) (rows : list Row.t) : float :=
  F64.nansum
    (map (fun r => F64.mul (Row.STOCapacity r) (Row.Nunits r))
         (filter (fun r => storage (Row.Technology r)) rows)).

Definition pair_eqb (a b : string * string) : bool :=
  (fst a =? fst b) && (snd a =? snd b).

(** The pairs in order of first appearance. *)
Fixpoint distinct_from (seen ps : list (string * string))
  : list (string * string) :=
  match ps with
  | [] => []
  | p :: ps' =>
      if existsb (pair_eqb p) seen then distinct_from seen ps'
      else p :: distinct_from (p :: seen) ps'
  end.

Definition cells (p : string * string) : Cell * Cell :=
  (CStr (fst p), CStr (snd p)).

(** The test of [check_clustering] on the totals of one technology and
    fuel. *)
Definition exceeds (rows rows' : list Row.t) (tf : string * string) : bool :=
  Clustering.differs (installed rows tf) (installed rows' tf).

(** The relative difference as the specification words it. *)
Definition relative_difference (old new : float) : float :=
  F64.div (F64.abs (F64.sub old new)) old.

(* ===================================================================== *)
(** * Tables used as examples *)
(* ===================================================================== *)

Module Example.

(** A table of one CHP unit, labelled by its name. *)
Definition chp (type : string) (P r lossfactor eta MaxHeat : float)
           (more : list (string * list Cell)) : DataFrame :=
  {| index := [LStr "CHP1"];
     columns := [("Unit", [CStr "CHP1"]);
                 ("PowerCapacity", [CNum P]);
                 ("Efficiency", [CNum eta]);
                 ("CHPType", [CStr type]);
                 ("CHPPowerToHeat", [CNum r]);
                 ("CHPPowerLossFactor", [CNum lossfactor]);
                 ("CHPMaxHeat", [CNum MaxHeat])] ++ more |}.

Definition c100 : float := F64.of_Z 100.
Definition c2 : float := F64.of_Z 2.
Definition c0_4 : float := F64.dec 4 10.
Definition c0_15 : float := F64.dec 15 100.

(** [PowerCapacity=100, CHPPowerToHeat=2, Efficiency=0.4,
    CHPPowerLossFactor=0.15, CHPMaxHeat=None]. *)
Definition extraction : DataFrame :=
  chp "extraction" c100 c2 c0_15 c0_4 F64.nan [].

(** The same unit with an explicit [CHPMaxHeat]. *)
Definition extraction_MaxHeat (h : Z) : DataFrame :=
  chp "extraction" c100 c2 c0_15 c0_4 (F64.of_Z h) [].

(** The same unit with a thermal storage losing [d] per day. *)
Definition extraction_selfdischarge (d : Z) : DataFrame :=
  chp "extraction" c100 c2 c0_15 c0_4 F64.nan
      [("STOSelfDischarge", [CNum (F64.of_Z d)])].

(** The same unit with another power loss factor [n / 10]. *)
Definition extraction_lossfactor (n : Z) : DataFrame :=
  chp "extraction" c100 c2 (F64.dec n 10) c0_4 F64.nan [].

(** A table of one CHP unit under the default index, and a heat demand
    for it. *)
Definition heat_plants : DataFrame :=
  {| index := [LInt 0];
     columns := [("Unit", [CStr "CHP1"]);
                 ("PowerCapacity", [CNum c100]);
                 ("CHPType", [CStr "extraction"]);
                 ("CHPPowerToHeat", [CNum c2]);
                 ("CHPMaxHeat", [CNum F64.nan])] |}.

Definition heat_data : NumFrame :=
  {| nindex := [LInt 0; LInt 1];
     ncolumns := [("CHP1", [F64.of_Z 10; F64.of_Z 20])] |}.



(** The table of a list of units, under the default index. *)
Definition units_table (rows : list Row.t) : DataFrame :=
  {| index := map (fun i => LInt (Z.of_nat i)) (seq 0 (List.length rows));
     columns :=
       [("Technology", map (fun r => CStr (Row.Technology r)) rows);
        ("Fuel", map (fun r => CStr (Row.Fuel r)) rows);
        ("PowerCapacity", map (fun r => CNum (Row.PowerCapacity r)) rows);
        ("Nunits", map (fun r => CNum (Row.Nunits r)) rows);
        ("STOCapacity", map (fun r => CNum (Row.STOCapacity r)) rows)] |}.

Definition gas (P : float) : Row.t :=
  {| Row.Technology := "GAS"; Row.Fuel := "NG"; Row.PowerCapacity := P;
     Row.Nunits := F64.of_Z 1; Row.STOCapacity := F64.nan |}.

Definition hydro (sto : float) : Row.t :=
  {| Row.Technology := "HDAM"; Row.Fuel := "WAT";
     Row.PowerCapacity := F64.of_Z 10;
     Row.Nunits := F64.of_Z 1; Row.STOCapacity := sto |}.

Definition power_to_gas (sto : float) : Row.t :=
  {| Row.Technology := "P2GS"; Row.Fuel := "HYD";
     Row.PowerCapacity := F64.of_Z 10;
     Row.Nunits := F64.of_Z 1; Row.STOCapacity := sto |}.

Definition original : list Row.t := [gas (F64.of_Z 100); gas (F64.of_Z 50)].
Definition clustered (P : Z) : list Row.t := [gas (F64.of_Z P)].

(** A unit table under the default index with the fifteen mandatory
    columns; [names] and [zones] fill [Unit] and [Zone], every unit has
    the power capacity [P], and [more] adds columns. *)
Definition units (names zones : list string) (P : float)
           (more : list (string * list Cell)) : DataFrame :=
  let n := List.length names in
  let all (c : Cell) := repeat c n in
  {| index := map (fun i => LInt (Z.of_nat i)) (seq 0 n);
     columns :=
       [("Unit", map CStr names); ("Fuel", all (CStr "NG"));
        ("Zone", map CStr zones); ("Technology", all (CStr "GAS"));
        ("PowerCapacity", all (CNum P));
        ("PartLoadMin", all (CNum (F64.dec 4 10)));
        ("RampUpRate", all (CNum (F64.dec 2 100)));
        ("RampDownRate", all (CNum (F64.dec 2 100)));
        ("StartUpTime", all (CNum (F64.of_Z 1)));
        ("MinUpTime", all (CNum (F64.of_Z 2)));
        ("MinDownTime", all (CNum (F64.of_Z 2)));
        ("NoLoadCost", all (CNum (F64.of_Z 0)));
        ("StartUpCost", all (CNum (F64.of_Z 100)));
        ("Efficiency", all (CNum (F64.dec 55 100)));
        ("CO2Intensity", all (CNum (F64.dec 2 10)))] ++ more |}.

Definition RampingCost (n : nat) : list (string * list Cell) :=
  [("RampingCost", repeat (CNum (F64.of_Z 0)) n)].

(** Three units, two of them named [A]. *)
Definition twice_A : DataFrame :=
  units ["A"; "B"; "A"] ["BE"; "NL"; "DE"] c100 (RampingCost 3).

(** The same, the power capacities missing. *)
Definition twice_A_no_capacity : DataFrame :=
  units ["A"; "B"; "A"] ["BE"; "NL"; "DE"] F64.nan (RampingCost 3).

(** Three units, two of them named [A], no column [RampingCost]. *)
Definition twice_A_no_RampingCost : DataFrame :=
  units ["A"; "B"; "A"] ["BE"; "NL"; "DE"] c100 [].

(** Two units, no column [RampingCost]. *)
Definition no_RampingCost : DataFrame :=
  units ["A"; "B"] ["BE"; "NL"] c100 [].

Definition config : Config := [("HorizonLength", CNum (F64.of_Z 3))].

(** Two units with all the columns [check_units] reads. *)
Definition two_units : DataFrame :=
  units ["A"; "B"] ["BE"; "NL"] c100 (RampingCost 2).

(** A solar unit with the availability factors 1.2 and 0.5. *)
Definition sun_plants : DataFrame :=
  {| index := [LInt 0];
     columns := [("Unit", [CStr "PV1"]); ("Technology", [CStr "PHOT"])] |}.

Definition sun_factors : NumFrame :=
  {| nindex := [LInt 0; LInt 1];
     ncolumns := [("PV1", [F64.dec 12 10; F64.dec 5 10])] |}.

(** [float(x)] for a format that reads no text as a number. *)
Definition no_text (s : string) : option float := None.

End Example.

(* ===================================================================== *)
(** * Further notions *)
(* ===================================================================== *)

(** ** Runs *)

(** When the computation ends the process, the status is 1 and the last
    record logged satisfies [P]. *)
Definition exits_after S A (P : entry -> Prop) (m : M S A) : Prop :=
  forall s c, result (m s) = SysExit c ->
              c = 1%Z /\ exists l e, logged (m s) = l ++ [e] /\ P e.

(** A record at error or critical level. *)
Definition loud (e : entry) : Prop := lvl e = ERROR \/ lvl e = CRITICAL.

(** A computation that, when it returns, returns [a]. *)
Definition returns_only S A (a : A) (m : M S A) : Prop :=
  forall s b, result (m s) = Return b -> b = a.

(** The first of the names [ks] that is no column of the table. *)
Definition first_missing (plants : DataFrame) (ks : list string)
  : option string :=
  find (fun k => negb (has_column plants k)) ks.

(** Column [key] holds numbers, none of which is [bad]. *)
Definition within (plants : DataFrame) (key : string) (bad : float -> bool)
  : Prop :=
  exists xs, column plants key = Some (map CNum xs) /\
             forall x, In x xs -> bad x = false.

(** A text that is not empty. *)
Definition text (c : Cell) : bool :=
  match c with
  | CStr "" => false
  | CStr _ => true
  | CNum _ => false
  end.

(** Column [key] is there and holds texts only, none empty. *)
Definition text_column (plants : DataFrame) (key : string) : bool :=
  match column plants key with
  | Some cs => forallb text cs
  | None => false
  end.

(** The headers of a numeric table. *)
Definition headers (data : NumFrame) : list string := map fst (ncolumns data).

(** ** [check_MinMaxFlows] *)

(** The entry of an array in row [i] and column [j]. *)
Definition entry_at (a : Flows.Array) (i j : nat) : option float :=
  match nth_error a i with
  | Some row => nth_error row j
  | None => None
  end.

(** Two arrays of the same shape. *)
Definition same_shape (a b : Flows.Array) : Prop :=
  Forall2 (fun r r' : list float => List.length r = List.length r') a b.

(** The minimum flow at [(i, j)] is above the maximum flow there. *)
Definition min_above_max (s : Flows.Tables) (i j : nat) : bool :=
  match entry_at (fst s) i j, entry_at (snd s) i j with
  | Some lo, Some hi => F64.gtb lo hi
  | _, _ => false
  end.

(** The maximum flow at [(i, j)] is below zero. *)
Definition negative_max (s : Flows.Tables) (i j : nat) : bool :=
  match entry_at (snd s) i j with
  | Some hi => F64.ltb hi Flows.zero
  | None => false
  end.

(** [(i, j)] comes before [(i', j')] in row-major order. *)
Definition before (i j i' j' : nat) : Prop :=
  (i < i')%nat \/ (i = i' /\ (j < j')%nat).

(** [(i, j)] is the first place in row-major order where [p] holds. *)
Definition first_place (p : nat -> nat -> bool) (i j : nat) : Prop :=
  p i j = true /\ forall i' j', before i' j' i j -> p i' j' = false.

(** An array of truth values, read at [(i, j)]. *)
Definition grid (a : list (list bool)) (i j : nat) : bool :=
  nth j (nth i a []) false.

(** ** [check_sto] *)

(** What [check_sto] logs first: the deprecation warning, when the table
    has a column [StorageInitial]. *)
Definition deprecation (plants : DataFrame) : list entry :=
  if has_column plants "StorageInitial"
  then [Log WARNING sto_deprecated []] else [].

(** Lines 127-137: the body of the loop over the units. *)
Definition sto_row (key : string) (u : Label) : M DataFrame unit :=
  name <- unitname Sto.self u ;;
  c <- loc Sto.self u key ;;
  when (is_str c)
    (logging CRITICAL sto_non_numeric [VStr key] ;; sys_exit 1) ;;
  missing <- np_isnan c ;;
  when missing
    (n <- concat name ;;
     logging CRITICAL sto_missing_value [n; VStr key] ;; sys_exit 1).

(** ** [check_chp] *)

(** The name of a unit in messages: its cell in column [Unit], or, when
    there is no such column, its row label as text. *)
Definition name_of (plants : DataFrame) (u : Label) : option pyval :=
  if has_column plants "Unit"
  then option_map VCell (cell_at plants u "Unit")
  else Some (VRepr u).

(** The records of the checks on the heat storage (lines 234-251). *)
Definition storage_site (w : site) : bool :=
  match w with
  | chp_storage_low | chp_storage_high | chp_selfdischarge_negative
  | chp_selfdischarge_high | chp_selfdischarge_too_high => true
  | _ => false
  end.

(** The body of the efficiency loop, with the variable [unitname] it
    leaves behind. *)
Definition chp_body (v : option pyval) (u : Label)
  : M DataFrame (option pyval) :=
  n <- CHP.check_unit u ;; ret (Some n).

(** A record of the checks on the heat storage starts with the name held
    in [name]. *)
Definition carries (name : option pyval) (e : entry) : Prop :=
  storage_site (at_site e) = true ->
  exists n, name = Some n /\ hd_error (args e) = Some n.

(** ** [check_units] *)

(** What [check_units] logs about [Nunits]. *)
Definition Nunits_default (plants : DataFrame) : list entry :=
  if has_column plants "Nunits" then [] else [Log INFO units_nunits_default []].

(** Lines 282-288 and 291-299: the bodies of the loops over the units. *)
Definition numeric_row (key : string) (u : Label) : M DataFrame unit :=
  c <- loc Units.self u key ;;
  when (is_str c)
    (logging CRITICAL units_non_numeric [VStr key] ;; sys_exit 1) ;;
  missing <- np_isnan c ;;
  when missing
    (logging CRITICAL units_missing_value [VRepr u; VStr key] ;;
     sys_exit 1).

Definition text_row (key : string) (u : Label) : M DataFrame unit :=
  c <- loc Units.self u key ;;
  match c with
  | CNum _ =>
      logging CRITICAL units_numeric_text [VStr key] ;; sys_exit 1
  | CStr "" =>
      logging CRITICAL units_empty_text [VRepr u; VStr key] ;;
      sys_exit 1
  | CStr _ => ret tt
  end.

(** What [check_units] asks of the columns before it looks at the ranges:
    [Nunits], if there, holds whole numbers; the fifteen mandatory columns
    are there; the columns of [NonNaNKeys] (and [Nunits]) hold numbers in
    every row; the columns of [StrKeys] hold texts, none empty; no unit
    name comes twice. *)
Definition well_formed (plants : DataFrame) : Prop :=
  whole_Nunits plants = true /\
  forallb (has_column plants) Units.keys = true /\
  (forall k, In k (Units.NonNaNKeys
                   ++ Units.optional (has_column plants "Nunits")) ->
             index plants = [] \/ numeric_column plants k = true) /\
  (forall k, In k Units.StrKeys -> text_column plants k = true) /\
  (exists names, column plants "Unit" = Some (map CStr names) /\
                 NoDup names).

(** What [check_units] asks of the values (lines 316-350). *)
Definition in_range (config : Config) (plants : DataFrame) : Prop :=
  (forall k, In k Units.lower ->
             within plants k (fun x => F64.ltb x Units.zero)) /\
  (forall k, In k (Units.lower_hard
                   ++ Units.optional (has_column plants "Nunits")) ->
             within plants k (fun x => F64.leb x Units.zero)) /\
  (forall k, In k Units.higher ->
             within plants k (fun x => F64.gtb x Units.one)) /\
  exists h, assoc "HorizonLength" config = Some (CNum h) /\
            forall k, In k Units.higher_time ->
              within plants k (fun x => F64.geb x (F64.mul h Units.c24)).

Definition accepted (config : Config) (plants : DataFrame) : Prop :=
  well_formed plants /\ in_range config plants.

(** The names of the units whose value is [bad]. *)
Definition offenders (bad : float -> bool) (Unit : list Cell)
           (xs : list float) : list Cell :=
  map fst (filter (fun ux => bad (snd ux)) (combine Unit xs)).

(** ** [check_heat_demand] *)

(** The name [u] is the name of a unit. *)
Definition names_unit (Unit : list Cell) (u : string) : bool :=
  existsb (label_eqb (LStr u)) (map label_of_cell Unit).

(** The unit table after line 361: labelled by the unit names. *)
Definition by_name (plants : DataFrame) (Unit : list Cell) : DataFrame :=
  {| index := map label_of_cell Unit; columns := columns plants |}.

(** The number of units of a plant: its cell in column [Nunits], one when
    there is no such column (lines 364-367). *)
Definition Nunits_of (plants : DataFrame) (u : Label) : option Cell :=
  if has_column plants "Nunits" then cell_at plants u "Nunits"
  else Some (CNum Heat.one).

(** The largest heat output of an [extraction] unit (lines 375-381). *)
Definition extraction_Qmax (P r MaxHeat Nunits : float) : float :=
  F64.mul (F64.pymin (F64.div P r)
                     (if F64.isnan MaxHeat then F64.inf else MaxHeat))
          Nunits.

(** What [check_heat_demand] logs for the demand [series] of a unit [u]
    that can give between [Qmin] and [Qmax] (lines 372-373, 393-396). *)
Definition demand_records (u : string) (series : list float)
           (Qmin Qmax : float) : list entry :=
  (if forallb (fun x => F64.eqb x Heat.zero) series
   then [Log CRITICAL heat_always_zero [VStr u]] else [])
  ++ (if F64.gtb (F64.nanmax series) Qmax
      then [Log WARNING heat_above_capacity
                [VStr u; VFloat (F64.nanmax series); VFloat Qmax]]
      else [])
  ++ (if F64.ltb (F64.nanmin series) Qmin
      then [Log WARNING heat_below_minimum
                [VStr u; VFloat (F64.nanmin series); VFloat Qmin]]
      else []).

(** ** [check_df] *)





(** ** [check_AvailabilityFactors] *)

(** The count in the record about empty values (line 44) is the length of
    the series. *)
Definition counts_the_series (AF_ : NumFrame) (e : entry) : Prop :=
  at_site e = AF_empty_values ->
  exists k t col,
    args e = [VCell (CStr k); t; VNat (List.length col)] /\
    ncolumn AF_ k = Some col /\ existsb F64.isnan col = true.

(* ===================================================================== *)
(** * More tables used as examples *)
(* ===================================================================== *)

Module Sample.

(** A table without a column. *)
Definition without (k : string) (df : DataFrame) : DataFrame :=
  {| index := index df;
     columns := filter (fun kc => negb (fst kc =? k)) (columns df) |}.

(** Flows on one line over two time steps. *)
Definition flows (lo1 lo2 hi1 hi2 : Z) : Flows.Tables :=
  ([[F64.of_Z lo1; F64.of_Z lo2]], [[F64.of_Z hi1; F64.of_Z hi2]]).

(** A storage unit as [check_sto] reads it from the raw data. *)
Definition storage : DataFrame :=
  {| index := [LInt 0];
     columns := [("Unit", [CStr "S1"]);
                 ("STOCapacity", [CNum (F64.of_Z 100)]);
                 ("STOSelfDischarge", [CNum (F64.of_Z 0)]);
                 ("STOMaxChargingPower", [CNum (F64.of_Z 10)]);
                 ("STOChargingEfficiency", [CNum (F64.dec 9 10)])] |}.

(** A table of CHP units that has no unit. *)
Definition no_chp : DataFrame :=
  {| index := [];
     columns := [("CHPType", []); ("CHPPowerToHeat", []);
                 ("CHPPowerLossFactor", [])] |}.

(** A [back-pressure] unit without [CHPMaxHeat]. *)
Definition backpressure : DataFrame :=
  Example.chp "back-pressure" Example.c100 Example.c2 (F64.of_Z 0)
              Example.c0_4 F64.nan [].

(** A unit of an unknown CHP type, under the default index. *)
Definition condensing : DataFrame :=
  {| index := [LInt 0];
     columns := [("Unit", [CStr "CHP1"]);
                 ("PowerCapacity", [CNum Example.c100]);
                 ("Efficiency", [CNum Example.c0_4]);
                 ("CHPType", [CStr "condensing"]);
                 ("CHPPowerToHeat", [CNum Example.c2]);
                 ("CHPPowerLossFactor", [CNum (F64.of_Z 0)]);
                 ("CHPMaxHeat", [CNum F64.nan])] |}.

(** Two [extraction] units with a heat storage; the storage of the first
    is small for its thermal power of 50. *)
Definition two_chp : DataFrame :=
  {| index := [LStr "CHP1"; LStr "CHP2"];
     columns := [("Unit", [CStr "CHP1"; CStr "CHP2"]);
                 ("PowerCapacity", [CNum Example.c100; CNum Example.c100]);
                 ("Efficiency", [CNum Example.c0_4; CNum Example.c0_4]);
                 ("CHPType", [CStr "extraction"; CStr "extraction"]);
                 ("CHPPowerToHeat", [CNum Example.c2; CNum Example.c2]);
                 ("CHPPowerLossFactor",
                  [CNum Example.c0_15; CNum Example.c0_15]);
                 ("CHPMaxHeat", [CNum F64.nan; CNum F64.nan]);
                 ("STOCapacity", [CNum (F64.of_Z 1); CNum (F64.of_Z 100)])] |}.

(** Two units, the first with a negative power capacity. *)
Definition negative_capacity : DataFrame :=
  {| index := index Example.two_units;
     columns := ("Unit", [CStr "A"; CStr "B"])
                :: ("Fuel", [CStr "NG"; CStr "NG"])
                :: ("Zone", [CStr "BE"; CStr "NL"])
                :: ("Technology", [CStr "GAS"; CStr "GAS"])
                :: ("PowerCapacity", [CNum (F64.of_Z (-5)); CNum Example.c100])
                :: skipn 5 (columns Example.two_units) |}.

(** Two units, one and a half of the first. *)
Definition half_units : DataFrame :=
  Example.units ["A"; "B"] ["BE"; "NL"] Example.c100
                (Example.RampingCost 2
                 ++ [("Nunits", [CNum (F64.dec 15 10); CNum (F64.of_Z 1)])]).

(** A heat demand for a name that is no unit. *)
Definition stray_demand : NumFrame :=
  {| nindex := [LInt 0; LInt 1];
     ncolumns := [("CHP9", [F64.of_Z 10; F64.of_Z 20])] |}.

(** Eight gas units whose capacities add up to 5 from left to right and
    to 4 pairwise. *)
Definition eight : list Row.t :=
  map (fun P => Example.gas (F64.of_Z P))
      [10000000000000000; 1; -10000000000000000; 1; 1; 1; 1; 1]%Z.


(** Availability factors of the solar unit, one of three missing. *)
Definition sun_gap : NumFrame :=
  {| nindex := [LInt 0; LInt 1; LInt 2];
     ncolumns := [("PV1", [F64.dec 5 10; F64.nan; F64.dec 5 10])] |}.

Definition wind (P : float) : Row.t :=
  {| Row.Technology := "WTON"; Row.Fuel := "WIN"; Row.PowerCapacity := P;
     Row.Nunits := F64.of_Z 1; Row.STOCapacity := F64.nan |}.

(** A world in which [cPickle] is there, every path exists and is a file,
    and every pickle holds [vars]. *)
Definition world (vars : list Env.Var) : Env.World :=
  {| Env.cPickle := true;
     Env.exists_ := fun _ => true;
     Env.isfile := fun _ => true;
     Env.join := fun a b => (a ++ "/" ++ b)%string;
     Env.unpickle := fun _ => Some vars |}.

(** The variables of the given names. *)
Definition named (ns : list string) : list Env.Var :=
  map (fun n => [("name", CStr n)]) ns.

Definition all_variables : list Env.Var :=
  named (Env.list_sets ++ Env.list_param).

End Sample.

(* ===================================================================== *)
(** * Reasoning about runs *)
(* ===================================================================== *)

Section RunFacts.
Variable S : Type.

Lemma after_nil A (r : run S A) : after [] r = r.
Proof. destruct r; reflexivity. Qed.

Lemma bind_return A B (m : M S A) (f : A -> M S B) s a s' l :
  m s = Run (Return a) s' l -> bind m f s = after l (f a s').
Proof.
  intros E. unfold bind, after. rewrite E. destruct (f a s'); reflexivity.
Qed.

Lemma bind_pure A B (m : M S A) (f : A -> M S B) s a :
  m s = Run (Return a) s [] -> bind m f s = f a s.
Proof. intros E. erewrite bind_return by exact E. apply after_nil. Qed.

Lemma bind_exit A B (m : M S A) (f : A -> M S B) s c s' l :
  m s = Run (SysExit c) s' l -> bind m f s = Run (SysExit c) s' l.
Proof. intros E. unfold bind. rewrite E. reflexivity. Qed.

Lemma bind_raise A B (m : M S A) (f : A -> M S B) s e s' l :
  m s = Run (Raise e) s' l -> bind m f s = Run (Raise e) s' l.
Proof. intros E. unfold bind. rewrite E. reflexivity. Qed.

Lemma bind_ret A B (a : A) (f : A -> M S B) s : bind (ret a) f s = f a s.
Proof. apply bind_pure. reflexivity. Qed.

Lemma bind_gets A B (g : S -> A) (f : A -> M S B) s :
  bind (gets g) f s = f (g s) s.
Proof. apply bind_pure. reflexivity. Qed.

Lemma bind_logging B v w a (f : unit -> M S B) s :
  bind (logging v w a) f s = after [Log v w a] (f tt s).
Proof. apply bind_return. reflexivity. Qed.

Lemma bind_lookup A B e (g : S -> option A) (f : A -> M S B) s a :
  g s = Some a -> bind (lookup e g) f s = f a s.
Proof. intros E. apply bind_pure. unfold lookup. rewrite E. reflexivity. Qed.

Lemma bind_lookup_none A B e (g : S -> option A) (f : A -> M S B) s :
  g s = None -> bind (lookup e g) f s = Run (Raise e) s [].
Proof.
  intros E. apply bind_raise. unfold lookup. rewrite E. reflexivity.
Qed.

Lemma bind_assoc A B C (m : M S A) (f : A -> M S B) (g : B -> M S C) s :
  bind (bind m f) g s = bind m (fun a => bind (f a) g) s.
Proof.
  unfold bind. destruct (m s) as [[a | c | e] s' l]; try reflexivity.
  destruct (f a s') as [[b | c | e] s'' l']; try reflexivity.
  destruct (g b s'') as [r s3 l3]. rewrite app_assoc. reflexivity.
Qed.

Lemma logged_after A l (r : run S A) : logged (after l r) = l ++ logged r.
Proof. reflexivity. Qed.

Lemma result_after A l (r : run S A) : result (after l r) = result r.
Proof. reflexivity. Qed.

Lemma store_after A l (r : run S A) : store (after l r) = store r.
Proof. reflexivity. Qed.

End RunFacts.

Section Completes.
Variable S : Type.

(** A sequence that returns: its first part returned, and the log is
    the two logs in order. *)
Lemma bind_returns A B (m : M S A) (f : A -> M S B) s b :
  result (bind m f s) = Return b ->
  exists a s' l, m s = Run (Return a) s' l /\
                 result (f a s') = Return b /\
                 logged (bind m f s) = l ++ logged (f a s').
Proof.
  unfold bind. destruct (m s) as [[a | c | e] s' l]; try discriminate.
  destruct (f a s') as [r s'' l'] eqn:E. simpl. intros ->.
  exists a, s', l. rewrite E. auto.
Qed.

Lemma logged_bind_ret A B (m : M S A) (g : A -> B) s :
  logged (bind m (fun a => ret (g a)) s) = logged (m s).
Proof.
  unfold bind. destruct (m s) as [[a | c | e] s' l]; try reflexivity.
  simpl. apply app_nil_r.
Qed.

Lemma for_acc_segment X V (body : V -> X -> M S V) :
  (forall v x, readonly (body v x)) ->
  forall xs v s r x,
    result (for_acc xs v body s) = Return r -> In x xs ->
    exists v0 pre post,
      logged (for_acc xs v body s) = pre ++ logged (body v0 x s) ++ post.
Proof.
  intros Hro. induction xs as [| y xs IH]; intros v s r x Hr Hin.
  - destruct Hin.
  - simpl in Hr |- *.
    destruct (bind_returns _ _ _ Hr) as (v' & s' & l & Hb & Hr' & Hl).
    assert (s' = s) by (generalize (Hro v y s); rewrite Hb; auto). subst s'.
    rewrite Hl. destruct Hin as [-> | Hin].
    + exists v, [], (logged (for_acc xs v' body s)).
      rewrite Hb. reflexivity.
    + destruct (IH v' s r x Hr' Hin) as (v0 & pre & post & E).
      exists v0, (l ++ pre), post. rewrite E, app_assoc. reflexivity.
Qed.
End Completes.


Lemma bind_returns_ro S A B (m : M S A) (f : A -> M S B) s b :
  readonly m ->
  result (bind m f s) = Return b ->
  exists a l, m s = Run (Return a) s l /\
              result (f a s) = Return b /\
              logged (bind m f s) = l ++ logged (f a s).
Proof.
  intros Hro Hr. destruct (bind_returns _ _ _ Hr) as (a & s' & l & Hm & H).
  assert (s' = s) by (generalize (Hro s); rewrite Hm; auto). subst s'.
  exists a, l. auto.
Qed.

Section Readonly.
Variable S : Type.

Lemma readonly_ret A (a : A) : readonly (@ret S A a).
Proof. intro s. reflexivity. Qed.

Lemma readonly_bind A B (m : M S A) (f : A -> M S B) :
  readonly m -> (forall a, readonly (f a)) -> readonly (bind m f).
Proof.
  intros Hm Hf s. unfold bind. specialize (Hm s).
  destruct (m s) as [[a | c | e] s' l]; simpl in Hm; subst; try reflexivity.
  specialize (Hf a s). destruct (f a s). exact Hf.
Qed.

Lemma readonly_logging v w a : readonly (@logging S v w a).
Proof. intro s. reflexivity. Qed.

Lemma readonly_sys_exit A c : readonly (@sys_exit S A c).
Proof. intro s. reflexivity. Qed.

Lemma readonly_raise A e : readonly (@raise S A e).
Proof. intro s. reflexivity. Qed.

Lemma readonly_gets A (g : S -> A) : readonly (gets g).
Proof. intro s. reflexivity. Qed.

Lemma readonly_lookup A e (g : S -> option A) : readonly (lookup e g).
Proof. intro s. unfold lookup. destruct (g s); reflexivity. Qed.

Lemma readonly_for X (xs : list X) (body : X -> M S unit) :
  (forall x, readonly (body x)) -> readonly (for_ xs body).
Proof.
  intros Hb. induction xs as [| x xs IH]; simpl.
  - apply readonly_ret.
  - apply readonly_bind; [apply Hb | intros _; exact IH].
Qed.

Lemma readonly_for_acc X V (xs : list X) (body : V -> X -> M S V) :
  (forall v x, readonly (body v x)) -> forall v, readonly (for_acc xs v body).
Proof.
  intros Hb. induction xs as [| x xs IH]; intros v; simpl.
  - apply readonly_ret.
  - apply readonly_bind; [apply Hb | intros v'; apply IH].
Qed.

Lemma readonly_map_M X Y (f : X -> M S Y) (xs : list X) :
  (forall x, readonly (f x)) -> readonly (map_M f xs).
Proof.
  intros Hf. induction xs as [| x xs IH]; simpl.
  - apply readonly_ret.
  - apply readonly_bind; [apply Hf | intros y].
    apply readonly_bind; [exact IH | intros ys; apply readonly_ret].
Qed.
End Readonly.

(** Decomposes a goal [readonly m] along the syntax of [m]. *)
Ltac readonly_step :=
  match goal with
  | |- readonly (bind _ _) => apply readonly_bind; [ | intro ]
  | |- readonly (ret _) => apply readonly_ret
  | |- readonly (logging _ _ _) => apply readonly_logging
  | |- readonly (sys_exit _) => apply readonly_sys_exit
  | |- readonly (raise _) => apply readonly_raise
  | |- readonly (gets _) => apply readonly_gets
  | |- readonly (lookup _ _) => apply readonly_lookup
  | |- readonly (for_ _ _) => apply readonly_for; intro
  | |- readonly (for_acc _ _ _) => apply readonly_for_acc; intros
  | |- readonly (map_M _ _) => apply readonly_map_M; intro
  | |- readonly (if ?b then _ else _) => destruct b
  | |- readonly (match ?c with _ => _ end) => destruct c
  | |- readonly (let x := _ in _) => cbv zeta
  | |- readonly (?f _ _ _ _ _) => unfold f
  | |- readonly (?f _ _ _ _) => unfold f
  | |- readonly (?f _ _ _) => unfold f
  | |- readonly (?f _ _) => unfold f
  | |- readonly (?f _) => unfold f
  | |- readonly ?f => unfold f
  end.

Ltac readonly_tac := repeat readonly_step.

(** ** What is logged *)

Section LogsOnly.
Variable S : Type.
Variable P : entry -> Prop.

Lemma logs_ret A (a : A) : logs_only P (@ret S A a).
Proof. intro s. constructor. Qed.

Lemma logs_bind A B (m : M S A) (f : A -> M S B) :
  logs_only P m -> (forall a, logs_only P (f a)) -> logs_only P (bind m f).
Proof.
  intros Hm Hf s. unfold bind. specialize (Hm s).
  destruct (m s) as [[a | c | e] s' l]; cbn in Hm |- *; try exact Hm.
  specialize (Hf a s'). destruct (f a s') as [r s'' l']. cbn in Hf |- *.
  apply Forall_app. auto.
Qed.

Lemma logs_logging v w a : P (Log v w a) -> logs_only P (@logging S v w a).
Proof. intros H s. cbn. constructor; [exact H | constructor]. Qed.

Lemma logs_sys_exit A c : logs_only P (@sys_exit S A c).
Proof. intro s. constructor. Qed.

Lemma logs_raise A e : logs_only P (@raise S A e).
Proof. intro s. constructor. Qed.

Lemma logs_gets A (g : S -> A) : logs_only P (gets g).
Proof. intro s. constructor. Qed.

Lemma logs_lookup A e (g : S -> option A) : logs_only P (lookup e g).
Proof. intro s. unfold lookup. destruct (g s); constructor. Qed.

Lemma logs_for X (xs : list X) (body : X -> M S unit) :
  (forall x, In x xs -> logs_only P (body x)) -> logs_only P (for_ xs body).
Proof.
  induction xs as [| x xs IH]; intros Hb; cbn [for_].
  - apply logs_ret.
  - apply logs_bind; [apply Hb; left; reflexivity | intros _].
    apply IH. intros y Hy. apply Hb. right. exact Hy.
Qed.

Lemma logs_for_acc X V (xs : list X) (body : V -> X -> M S V) :
  (forall v x, In x xs -> logs_only P (body v x)) ->
  forall v, logs_only P (for_acc xs v body).
Proof.
  induction xs as [| x xs IH]; intros Hb v; cbn [for_acc].
  - apply logs_ret.
  - apply logs_bind; [apply Hb; left; reflexivity | intros v'].
    apply IH. intros w y Hy. apply Hb. right. exact Hy.
Qed.

Lemma logs_map_M X Y (f : X -> M S Y) (xs : list X) :
  (forall x, logs_only P (f x)) -> logs_only P (map_M f xs).
Proof.
  intros Hf. induction xs as [| x xs IH]; cbn [map_M].
  - apply logs_ret.
  - apply logs_bind; [apply Hf | intros y].
    apply logs_bind; [exact IH | intros ys; apply logs_ret].
Qed.
End LogsOnly.

(** Decomposes a goal [logs_only P m] along the syntax of [m]; the records
    themselves are left to be checked. *)
Ltac logs_step :=
  match goal with
  | |- logs_only _ (bind _ _) => apply logs_bind; [ | intro ]
  | |- logs_only _ (ret _) => apply logs_ret
  | |- logs_only _ (logging _ _ _) => apply logs_logging
  | |- logs_only _ (sys_exit _) => apply logs_sys_exit
  | |- logs_only _ (raise _) => apply logs_raise
  | |- logs_only _ (gets _) => apply logs_gets
  | |- logs_only _ (lookup _ _) => apply logs_lookup
  | |- logs_only _ (for_ _ _) => apply logs_for; intros ? ?
  | |- logs_only _ (for_acc _ _ _) => apply logs_for_acc; intros ? ? ?
  | |- logs_only _ (map_M _ _) => apply logs_map_M; intro
  | |- logs_only _ (if ?b then _ else _) => destruct b
  | |- logs_only _ (match ?c with _ => _ end) => destruct c
  | |- logs_only _ (let x := _ in _) => cbv zeta
  | |- logs_only _ (?f _ _ _ _ _) => unfold f
  | |- logs_only _ (?f _ _ _ _) => unfold f
  | |- logs_only _ (?f _ _ _) => unfold f
  | |- logs_only _ (?f _ _) => unfold f
  | |- logs_only _ (?f _) => unfold f
  | |- logs_only _ ?f => unfold f
  end.

(** As [logs_step], keeping the outcome of every test taken. *)
Ltac logs_case :=
  match goal with
  | |- logs_only _ (if ?b then _ else _) => destruct b eqn:?
  | |- logs_only _ (match ?c with _ => _ end) => destruct c eqn:?
  | _ => logs_step
  end.

Section Returns.
Variables S X : Type.

Lemma for_returns (body : X -> M S unit) :
  (forall x, readonly (body x)) ->
  forall xs s x, result (for_ xs body s) = Return tt -> In x xs ->
                 result (body x s) = Return tt.
Proof.
  intros Hro. induction xs as [| y xs IH]; intros s x Hr Hin; [destruct Hin |].
  cbn [for_] in Hr.
  destruct (@bind_returns_ro _ _ _ _ _ _ _ (Hro y) Hr) as ([] & l & Hy & Hr' & _).
  destruct Hin as [-> | Hin].
  - rewrite Hy. reflexivity.
  - apply IH; assumption.
Qed.
End Returns.

(** ** Loops and lookups *)

Section LoopFacts.
Variables S X : Type.

Lemma bind_ext A B (m : M S A) (f g : A -> M S B) s :
  (forall a s', f a s' = g a s') -> bind m f s = bind m g s.
Proof.
  intros H. unfold bind. destruct (m s) as [[a | c | e] s' l]; try reflexivity.
  rewrite H. reflexivity.
Qed.

Lemma for_app (xs ys : list X) (body : X -> M S unit) s :
  for_ (xs ++ ys) body s = (for_ xs body ;; for_ ys body) s.
Proof.
  revert s. induction xs as [| x xs IH]; intros s; cbn [for_ app].
  - rewrite bind_ret. reflexivity.
  - rewrite bind_assoc. apply bind_ext. intros _ s'. apply IH.
Qed.

Lemma for_pass (xs : list X) (body : X -> M S unit) s :
  (forall x, In x xs -> body x s = Run (Return tt) s []) ->
  for_ xs body s = Run (Return tt) s [].
Proof.
  induction xs as [| x xs IH]; intros H; cbn [for_].
  - reflexivity.
  - rewrite (bind_pure _ _ (H x (or_introl eq_refl))).
    apply IH. intros y Hy. apply H. right. exact Hy.
Qed.

Lemma map_M_pure Y (f : X -> M S Y) (g : X -> Y) (xs : list X) s :
  (forall x, In x xs -> f x s = Run (Return (g x)) s []) ->
  map_M f xs s = Run (Return (map g xs)) s [].
Proof.
  induction xs as [| x xs IH]; intros H; cbn [map_M map].
  - reflexivity.
  - erewrite bind_pure by (apply H; left; reflexivity).
    erewrite bind_pure by (apply IH; intros y Hy; apply H; right; exact Hy).
    reflexivity.
Qed.
End LoopFacts.

Lemma label_eqb_refl u : label_eqb u u = true.
Proof.
  destruct u as [n | x | s | t]; cbn.
  - apply Z.eqb_refl.
  - destruct x as [[|] | [|] | | [|] m e]; cbn; try reflexivity;
      rewrite Pos.eqb_refl, Z.eqb_refl; reflexivity.
  - apply String.eqb_refl.
  - apply Z.eqb_refl.
Qed.

Lemma position_in u idx :
  In u idx -> exists i, position u idx = Some i /\ (i < List.length idx)%nat.
Proof.
  induction idx as [| v idx IH]; intros Hin; [destruct Hin |].
  cbn [position]. destruct (label_eqb u v) eqn:E.
  - exists 0%nat. cbn. split; [reflexivity | lia].
  - destruct Hin as [-> | Hin]; [rewrite label_eqb_refl in E; discriminate |].
    destruct (IH Hin) as (i & -> & Hi). exists (S i). cbn. split; [reflexivity | lia].
Qed.

Lemma assoc_in A k (l : list (string * A)) v : assoc k l = Some v -> In (k, v) l.
Proof.
  induction l as [| [k' v'] l IH]; cbn; [discriminate |].
  destruct (String.eqb_spec k k') as [-> | _].
  - intros [= ->]. left. reflexivity.
  - intros H. right. apply IH, H.
Qed.

Lemma column_length df k cs :
  aligned df -> column df k = Some cs ->
  List.length cs = List.length (index df).
Proof.
  intros Ha Hc. apply assoc_in in Hc.
  unfold aligned in Ha. rewrite Forall_forall in Ha. apply (Ha _ Hc).
Qed.

Lemma cell_at_in df k cs u :
  aligned df -> column df k = Some cs -> In u (index df) ->
  exists c, cell_at df u k = Some c /\ In c cs.
Proof.
  intros Ha Hc Hin. destruct (@position_in u (index df) Hin) as (i & Hp & Hi).
  unfold cell_at. rewrite Hc, Hp.
  rewrite <- (@column_length df k cs Ha Hc) in Hi.
  destruct (nth_error cs i) as [c |] eqn:E.
  - exists c. split; [reflexivity | eapply nth_error_In, E].
  - apply nth_error_None in E. lia.
Qed.

Lemma label_eqb_eq u v : label_eqb u v = true -> u = v.
Proof.
  destruct u as [n | x | s | t], v as [m | y | s' | t']; cbn; try discriminate.
  - intros H. apply Z.eqb_eq in H. congruence.
  - destruct x as [[|] | [|] | | [|] m e], y as [[|] | [|] | | [|] m' e'];
      cbn; try discriminate; try reflexivity.
    all: intros H; repeat (apply andb_true_iff in H; destruct H as [H ?]).
    all: try (apply Pos.eqb_eq in H0 || apply Pos.eqb_eq in H).
    all: try (apply Z.eqb_eq in H1 || apply Z.eqb_eq in H0).
    all: congruence.
  - intros H. apply String.eqb_eq in H. congruence.
  - intros H. apply Z.eqb_eq in H. congruence.
Qed.

Lemma position_nth idx : NoDup idx -> forall i u,
  nth_error idx i = Some u -> position u idx = Some i.
Proof.
  induction 1 as [| v idx Hv Hnd IH]; intros [| i] u; cbn; try discriminate.
  - intros [= ->]. rewrite label_eqb_refl. reflexivity.
  - intros H. destruct (label_eqb u v) eqn:E.
    + apply label_eqb_eq in E. subst v. apply nth_error_In in H. contradiction.
    + rewrite (IH _ _ H). reflexivity.
Qed.

Section Loops2.
Variables S X Y : Type.

Lemma map_M_rows (f : X -> M S Y) s : forall (xs : list X) (ys : list Y),
  List.length xs = List.length ys ->
  (forall i x, nth_error xs i = Some x ->
               exists y, nth_error ys i = Some y /\
                         f x s = Run (Return y) s []) ->
  map_M f xs s = Run (Return ys) s [].
Proof.
  induction xs as [| x xs IH]; intros [| y ys] L H; cbn in L; try lia.
  - reflexivity.
  - cbn [map_M].
    destruct (H 0%nat x eq_refl) as (y' & [= <-] & Hy).
    erewrite bind_pure by exact Hy.
    erewrite bind_pure
      by (apply (IH ys); [lia | intros i x' Hx; apply (H (Datatypes.S i) x' Hx)]).
    reflexivity.
Qed.

Lemma map_M_map (f : Y -> M S X) (g : Y -> X) (xs : list Y) s :
  (forall x, f x s = Run (Return (g x)) s []) ->
  map_M f xs s = Run (Return (map g xs)) s [].
Proof.
  intros H. induction xs as [| x xs IH]; cbn [map_M map]; [reflexivity |].
  erewrite bind_pure by apply H. erewrite bind_pure by exact IH. reflexivity.
Qed.

Lemma for_find (p : X -> bool) (lg : X -> list entry) c
      (body : X -> M S unit) s (xs : list X) :
  (forall x, body x s = if p x then Run (SysExit c) s (lg x)
                        else Run (Return tt) s []) ->
  for_ xs body s = match find p xs with
                   | Some x => Run (SysExit c) s (lg x)
                   | None => Run (Return tt) s []
                   end.
Proof.
  intros H. induction xs as [| x xs IH]; cbn [for_ find]; [reflexivity |].
  specialize (H x). destruct (p x).
  - erewrite bind_exit by exact H. reflexivity.
  - erewrite bind_pure by exact H. exact IH.
Qed.
End Loops2.

Lemma for_map St A B (g : A -> B) (body : B -> M St unit) (xs : list A) s :
  for_ (map g xs) body s = for_ xs (fun x => body (g x)) s.
Proof.
  revert s. induction xs as [| x xs IH]; intros s; cbn [for_ map];
    [reflexivity |].
  unfold bind. destruct (body (g x) s) as [[[] | c | e] s' l]; try reflexivity.
  rewrite IH. reflexivity.
Qed.

Lemma select_filter A B (p : A -> bool) (g : A -> B) (rows : list A) :
  select (map p rows) (map g rows) = map g (filter p rows).
Proof.
  induction rows as [| r rows IH]; cbn; [reflexivity |].
  rewrite IH. destruct (p r); reflexivity.
Qed.

Lemma combine_map A B C (g : A -> B) (h : A -> C) (rows : list A) :
  combine (map g rows) (map h rows) = map (fun r => (g r, h r)) rows.
Proof. induction rows as [| r rows IH]; cbn; [ | rewrite IH]; reflexivity. Qed.

Lemma times_rows A (a b : A -> float) (l : list A) s :
  map_M Clustering.times (map (fun r => (CNum (a r), CNum (b r))) l) s
  = Run (Return (map (fun r => F64.mul (a r) (b r)) l)) s [].
Proof.
  induction l as [| r l IH]; cbn [map_M map]; [reflexivity |].
  erewrite bind_pure by reflexivity. erewrite bind_pure by exact IH.
  reflexivity.
Qed.

(** Comparisons that the source chains: [0 > x > c] asks for [x] below
    zero and above [c] at once. *)
Lemma chained_gt_false (x : float) (c : Z) :
  (0 <= c)%Z -> F64.gtb (F64.of_Z 0) x && F64.gtb x (F64.of_Z c) = false.
Proof.
  intros Hc. unfold F64.gtb, F64.ltb, SFltb.
  destruct c as [| p | p]; [ | | lia ]; destruct x as [[|] | [|] | | [|] m e];
    try reflexivity; cbn.
  all: unfold F64.of_Z, binary_normalize, binary_round, binary_round_aux.
  all: destruct (shl_align _ _ _) as [mz ez].
  all: destruct (shr_fexp _ _ _ _ _) as [mrs e'].
  all: destruct (shr_fexp _ _ _ _ _) as [mrs2 e2].
  all: destruct (shr_m mrs2); try reflexivity.
  all: destruct (Z.leb _ _); reflexivity.
Qed.

(* ===================================================================== *)
(** * [check_chp] *)
(* ===================================================================== *)

Lemma cell_at_has_column plants u k c :
  cell_at plants u k = Some c -> has_column plants k = true.
Proof.
  unfold cell_at, has_column.
  destruct (column plants k); [reflexivity | discriminate].
Qed.

(** One step of a run whose next read is known. *)
Ltac step :=
  first
    [ rewrite bind_assoc
    | rewrite bind_ret
    | rewrite bind_gets
    | rewrite bind_logging
    | erewrite bind_lookup by eassumption ].

(** What the loop body logs for a unit is part of what a completed
    [check_chp] logged. *)
Lemma check_unit_in_check_chp cfg plants u :
  In u (index plants) ->
  result (check_chp cfg plants) = Return true ->
  exists pre post,
    logged (check_chp cfg plants) =
    pre ++ logged (CHP.check_unit u plants) ++ post.
Proof.
  intros Hin Hr. unfold check_chp, CHP.check_chp in *.
  assert (R1 : readonly CHP.check_keys) by readonly_tac.
  assert (R2 : readonly CHP.check_numeric) by readonly_tac.
  assert (R3 : readonly CHP.check_text) by readonly_tac.
  destruct (@bind_returns_ro _ _ _ _ _ _ _ R1 Hr) as (? & l1 & _ & Hr1 & ->).
  destruct (@bind_returns_ro _ _ _ _ _ _ _ R2 Hr1) as (? & l2 & _ & Hr2 & ->).
  destruct (@bind_returns_ro _ _ _ _ _ _ _ R3 Hr2) as (? & l3 & _ & Hr3 & ->).
  unfold get_index at 1 in Hr3. unfold get_index at 1.
  rewrite bind_gets in Hr3 |- *. unfold CHP.self in Hr3 at 1. unfold CHP.self at 1.
  destruct (bind_returns _ _ _ Hr3) as (name & s & l & Hloop & _ & ->).
  assert (Hl : result (for_acc (index plants) None
                    (fun _ u => n <- CHP.check_unit u ;; ret (Some n)) plants)
               = Return name) by (rewrite Hloop; reflexivity).
  assert (R : forall (v : option pyval) x,
             readonly (n <- CHP.check_unit x ;; ret (Some n)))
    by (intros; readonly_tac).
  destruct (@for_acc_segment _ _ _ _ R _ _ _ _ _ Hl Hin) as (v0 & pre & post & E).
  rewrite Hloop in E. simpl in E. rewrite logged_bind_ret in E. subst l.
  eexists (l1 ++ l2 ++ l3 ++ pre), _.
  repeat rewrite <- app_assoc. reflexivity.
Qed.

(** C1 (as amended).  In a table with distinct row labels, on an
    [extraction] unit with an explicit [CHPMaxHeat], the loop body of [check_chp] (lines 185-225) compares the
    derived heat output [PowerCapacity / CHPPowerToHeat] with the explicit
    one.  When the explicit value is larger than the derived one, a warning
    is logged and the derived, smaller value enters the efficiency; in every
    other case the explicit value is kept and enters the efficiency, and no
    such warning comes before it.  When [check_chp] completes, these
    records are part of its log. *)
Theorem C1_extraction_keeps_smaller_MaxHeat :
  forall (config : Config) (plants : DataFrame) (u : Label) (name : Cell)
         (type : string) (P r lf eta h : float),
    NoDup (index plants) ->
    In u (index plants) ->
    cell_at plants u "Unit" = Some name ->
    cell_at plants u "PowerCapacity" = Some (CNum P) ->
    cell_at plants u "CHPMaxHeat" = Some (CNum h) ->
    cell_at plants u "CHPPowerToHeat" = Some (CNum r) ->
    cell_at plants u "CHPPowerLossFactor" = Some (CNum lf) ->
    cell_at plants u "CHPType" = Some (CStr type) ->
    cell_at plants u "Efficiency" = Some (CNum eta) ->
    lower type = "extraction" ->
    F64.isnan h = false ->
    let derived := F64.div P r in
    let larger := F64.ltb derived h in
    let Q := if larger then derived else h in
    (exists rest,
      logged (CHP.check_unit u plants) =
        (if larger
         then [Log WARNING chp_maxheat_above_intersection
                   [VCell (CNum h); VFloat derived]]
         else [])
        ++ Log DEBUG chp_efficiency
             [VLabel u; VFloat (CHP.TotalEfficiency P Q (CHP.Fuel P lf Q eta))]
        :: rest) /\
    (result (check_chp config plants) = Return true ->
     exists pre post,
       logged (check_chp config plants) =
       pre ++ logged (CHP.check_unit u plants) ++ post).
Proof.
  intros config plants u name type P r lf eta h _ Hin HU HP HH HR HL HT HE
         Htype Hh derived larger Q.
  split; [ | apply check_unit_in_check_chp; exact Hin ].
  unfold CHP.check_unit, unitname, contains, loc, CHP.self.
  repeat step. rewrite (cell_at_has_column _ _ _ HU).
  repeat step. unfold lower_of. repeat step. rewrite Htype.
  change (negb (mem_string "extraction" CHP.types)) with false.
  change ("extraction" =? "p2h") with false.
  change ("extraction" =? "back-pressure") with false.
  change ("extraction" =? "extraction") with true.
  unfold when at 1. repeat step.
  unfold num at 1. repeat step.
  unfold CHP.zero, CHP.ten. rewrite chained_gt_false by lia.
  unfold when at 1. repeat step.
  unfold num at 1. repeat step.
  unfold CHP.one. rewrite chained_gt_false by lia.
  cbn [andb negb].
  unfold when at 1. repeat step.
  unfold when at 1. repeat step.
  unfold CHP.extraction_MaxHeat. unfold num at 1. repeat step.
  cbn [isnull]. rewrite Hh. cbn [negb]. unfold num at 1. repeat step.
  fold derived. fold larger. subst Q.
  destruct larger; repeat step; unfold when at 1; unfold num at 1;
    repeat step; unfold num at 1; repeat step; unfold num at 1; repeat step;
    rewrite ?logged_after; cbn [app]; eexists; reflexivity.
Qed.

(** C1, witness: the example unit with [CHPMaxHeat = 60], above the
    derived 50. *)
Lemma C1_extraction_keeps_smaller_MaxHeat_witness :
  let plants := Example.extraction_MaxHeat 60 in
  let u := LStr "CHP1" in
  let derived := F64.div Example.c100 Example.c2 in
  let larger := F64.ltb derived (F64.of_Z 60) in
  let Q := if larger then derived else F64.of_Z 60 in
  (exists rest,
      logged (CHP.check_unit u plants) =
        (if larger
         then [Log WARNING chp_maxheat_above_intersection
                   [VCell (CNum (F64.of_Z 60)); VFloat derived]]
         else [])
        ++ Log DEBUG chp_efficiency
             [VLabel u;
              VFloat (CHP.TotalEfficiency Example.c100 Q
                        (CHP.Fuel Example.c100 Example.c0_15 Q Example.c0_4))]
        :: rest) /\
  (result (check_chp [] plants) = Return true ->
   exists pre post,
     logged (check_chp [] plants) =
     pre ++ logged (CHP.check_unit u plants) ++ post).
Proof.
  apply (@C1_extraction_keeps_smaller_MaxHeat
           [] (Example.extraction_MaxHeat 60) (LStr "CHP1") (CStr "CHP1")
           "extraction" Example.c100 Example.c2 Example.c0_15 Example.c0_4
           (F64.of_Z 60)).
  - repeat constructor. cbn. tauto.
  - simpl. left. reflexivity.
  - reflexivity.
  - reflexivity.
  - reflexivity.
  - reflexivity.
  - reflexivity.
  - reflexivity.
  - reflexivity.
  - reflexivity.
  - reflexivity.
Defined.

(** C1, as stated, fails.  With the explicit [CHPMaxHeat = 40] below the
    derived 50, the explicit 40 enters the efficiency and nothing is warned;
    with the explicit 60 above the derived 50, the derived 50 enters the
    efficiency and the warning is logged. *)
Lemma C1_counterexample :
  let derived := F64.div Example.c100 Example.c2 in
  let eta_tot Q :=
    CHP.TotalEfficiency Example.c100 Q
      (CHP.Fuel Example.c100 Example.c0_15 Q Example.c0_4) in
  let u := LStr "CHP1" in
  derived = F64.of_Z 50 /\
  F64.ltb (F64.of_Z 40) derived = true /\
  check_chp [] (Example.extraction_MaxHeat 40) =
    Run (Return true) (Example.extraction_MaxHeat 40)
        [Log DEBUG chp_efficiency [VLabel u; VFloat (eta_tot (F64.of_Z 40))]] /\
  F64.leb derived (F64.of_Z 60) = true /\
  check_chp [] (Example.extraction_MaxHeat 60) =
    Run (Return true) (Example.extraction_MaxHeat 60)
        [Log WARNING chp_maxheat_above_intersection
             [VCell (CNum (F64.of_Z 60)); VFloat derived];
         Log DEBUG chp_efficiency [VLabel u; VFloat (eta_tot derived)]] /\
  eta_tot (F64.of_Z 40) <> eta_tot derived /\
  eta_tot (F64.of_Z 60) <> eta_tot derived.
Proof.
  cbv zeta. repeat split; try (vm_compute; reflexivity);
    intros H; vm_compute in H; discriminate H.
Qed.

(** C8.  The unit [PowerCapacity=100, CHPPowerToHeat=2, Efficiency=0.4,
    CHPPowerLossFactor=0.15] without [CHPMaxHeat]: the derived heat output
    is 50, the fuel 268.75, the total efficiency lies between 0.558 and
    0.559, within the bounds 0 and 1.14 and not above 0.95; [check_chp]
    returns [True] having logged the efficiency at debug level only. *)
Theorem C8_extraction_example :
  let plants := Example.extraction in
  let MaxHeat := F64.of_Z 50 in
  let Fuel := F64.dec 26875 100 in
  let eta_tot := CHP.TotalEfficiency Example.c100 MaxHeat Fuel in
  CHP.extraction_MaxHeat (CNum Example.c100) Example.c2 (CNum F64.nan) plants
    = Run (Return (CNum MaxHeat)) plants [] /\
  CHP.Fuel Example.c100 Example.c0_15 MaxHeat Example.c0_4 = Fuel /\
  F64.ltb (F64.dec 558 1000) eta_tot = true /\
  F64.ltb eta_tot (F64.dec 559 1000) = true /\
  F64.ltb eta_tot CHP.zero = false /\
  F64.gtb eta_tot CHP.c1_14 = false /\
  CHP.c1_14 = F64.dec 114 100 /\
  F64.gtb eta_tot CHP.c0_95 = false /\
  CHP.c0_95 = F64.dec 95 100 /\
  check_chp [] plants =
    Run (Return true) plants
        [Log DEBUG chp_efficiency [VLabel (LStr "CHP1"); VFloat eta_tot]].
Proof. cbv zeta. repeat split; vm_compute; reflexivity. Qed.

(** The last branch of the self-discharge test (lines 249-251) is never
    taken: a value above 24 is above 1 and takes the branch before it. *)
Lemma above_24_is_above_1 (d : float) :
  F64.gtb d CHP.c24 = true -> F64.gtb d CHP.one = true.
Proof.
  unfold F64.gtb, F64.ltb, SFltb.
  destruct d as [[|] | [|] | | [|] m e]; try (vm_compute; congruence).
  change CHP.c24 with (S754_finite false 6755399441055744 (-48)).
  change CHP.one with (S754_finite false 4503599627370496 (-52)).
  cbn [SFcompare].
  destruct (Z.compare_spec (-48) e); destruct (Z.compare_spec (-52) e);
    try reflexivity; try lia; discriminate.
Qed.

Lemma selfdischarge_above_24 (name : pyval) (d : float) (plants : DataFrame) :
  is_text name = true ->
  F64.gtb d CHP.c24 = true ->
  CHP.selfdischarge (Some name) d plants =
  Run (Return tt) plants
      [Log WARNING chp_selfdischarge_high [name; VFloat (F64.mul d CHP.c100)]].
Proof.
  intros Hn Hd. pose proof (above_24_is_above_1 _ Hd) as H1.
  unfold CHP.selfdischarge. rewrite H1.
  assert (F64.ltb d CHP.zero = false) as ->.
  { destruct d as [[|] | [|] | | [|] m e]; try reflexivity;
      vm_compute in Hd; discriminate. }
  unfold CHP.stale, concat. rewrite Hn. reflexivity.
Qed.

(** Whatever the table, [check_chp] never logs the record of the branch
    for values above 24. *)
Lemma check_chp_never_too_high config :
  logs_only (fun e => at_site e <> chp_selfdischarge_too_high)
            (check_chp config).
Proof.
  unfold check_chp.
  repeat logs_case; try (cbn; discriminate).
  exfalso.
  match goal with
  | H1 : F64.gtb ?d CHP.one = false, H2 : F64.gtb ?d CHP.c24 = true |- _ =>
      rewrite (above_24_is_above_1 _ H2) in H1; discriminate H1
  end.
Qed.

(** C2, at the failing input: with a self-discharge of 30, above 24,
    [check_chp] logs the warning of the branch for values above 1 and
    returns [True]; and on no table does it log the record of the branch
    for values above 24. *)
Theorem C2_selfdischarge_30_only_warns :
  (let plants := Example.extraction_selfdischarge 30 in
   F64.gtb (F64.of_Z 30) CHP.c24 = true /\
   exists eta_tot,
     check_chp [] plants =
     Run (Return true) plants
         [Log DEBUG chp_efficiency [VLabel (LStr "CHP1"); VFloat eta_tot];
          Log WARNING chp_selfdischarge_high
              [VCell (CStr "CHP1"); VFloat (F64.of_Z 3000)]]) /\
  (forall config plants,
     ~ In chp_selfdischarge_too_high
          (map at_site (logged (check_chp config plants)))).
Proof.
  split.
  - cbv zeta. split; [ | eexists ]; vm_compute; reflexivity.
  - intros config plants Hin. apply in_map_iff in Hin.
    destruct Hin as (e & He & Hin).
    pose proof (check_chp_never_too_high config plants) as H.
    rewrite Forall_forall in H. exact (H e Hin He).
Qed.

(** Whatever the table, [check_chp] never logs the record of the range
    test on the power loss factor. *)
Lemma check_chp_never_lossfactor_range config :
  logs_only (fun e => at_site e <> chp_lossfactor_range) (check_chp config).
Proof.
  unfold check_chp.
  repeat logs_case; try (cbn; discriminate).
  all: exfalso.
  all: match goal with
       | H : F64.gtb CHP.zero ?x && F64.gtb ?x CHP.one && _ = true |- _ =>
           unfold CHP.zero, CHP.one in H;
           rewrite chained_gt_false in H by lia; discriminate H
       end.
Qed.

(** C3, at the failing inputs: with a power loss factor of 1.5, and with
    one of -0.1, an [extraction] unit passes [check_chp]; and on no table
    does [check_chp] log the record of the range test on the power loss
    factor. *)
Theorem C3_lossfactor_out_of_range_passes :
  F64.geb (F64.dec 15 10) CHP.one = true /\
  F64.ltb (F64.dec (-1) 10) CHP.zero = true /\
  (exists eta_tot,
     check_chp [] (Example.extraction_lossfactor 15) =
     Run (Return true) (Example.extraction_lossfactor 15)
         [Log DEBUG chp_efficiency [VLabel (LStr "CHP1"); VFloat eta_tot]]) /\
  (exists eta_tot,
     check_chp [] (Example.extraction_lossfactor (-1)) =
     Run (Return true) (Example.extraction_lossfactor (-1))
         [Log DEBUG chp_efficiency [VLabel (LStr "CHP1"); VFloat eta_tot]]) /\
  (forall config plants,
     ~ In chp_lossfactor_range
          (map at_site (logged (check_chp config plants)))).
Proof.
  split; [vm_compute; reflexivity | ].
  split; [vm_compute; reflexivity | ].
  split; [eexists; vm_compute; reflexivity | ].
  split; [eexists; vm_compute; reflexivity | ].
  intros config plants Hin. apply in_map_iff in Hin.
  destruct Hin as (e & He & Hin).
  pose proof (check_chp_never_lossfactor_range config plants) as H.
  rewrite Forall_forall in H. exact (H e Hin He).
Qed.

(* ===================================================================== *)
(** * What the checkers leave of their inputs *)
(* ===================================================================== *)

Lemma readonly_check_chp config : readonly (check_chp config).
Proof. unfold check_chp. readonly_tac. Qed.

Lemma readonly_check_units float_of_text config :
  readonly (check_units float_of_text config).
Proof. unfold check_units. readonly_tac. Qed.

Lemma readonly_check_sto config raw_data :
  readonly (check_sto config raw_data).
Proof. unfold check_sto. readonly_tac. Qed.

Lemma readonly_check_clustering : readonly check_clustering.
Proof. unfold check_clustering. readonly_tac. Qed.

Lemma readonly_check_AvailabilityFactors : readonly check_AvailabilityFactors.
Proof. unfold check_AvailabilityFactors. readonly_tac. Qed.

Lemma readonly_check_MinMaxFlows : readonly check_MinMaxFlows.
Proof. unfold check_MinMaxFlows. readonly_tac. Qed.

Lemma readonly_check_df StartDate StopDate name :
  readonly (check_df StartDate StopDate name).
Proof. unfold check_df. readonly_tac. Qed.

(** [check_heat_demand] after its first statement. *)
Lemma readonly_check_column Q u : readonly (Heat.check_column Q u).
Proof. readonly_tac. Qed.

(** C4 (as amended).  [check_chp], [check_units], [check_sto],
    [check_clustering], [check_AvailabilityFactors], [check_MinMaxFlows]
    and [check_df] leave the tables and series they were given as they
    were, however they end.  [check_heat_demand] leaves the heat demand
    and the columns of the unit table as they were, and replaces the index
    of the unit table by the values of its column [Unit] (the index stays
    when there is no such column). *)
Theorem C4_inputs_after_the_checks :
  (forall config, readonly (check_chp config)) /\
  (forall float_of_text config, readonly (check_units float_of_text config)) /\
  (forall config raw_data, readonly (check_sto config raw_data)) /\
  readonly check_clustering /\
  readonly check_AvailabilityFactors /\
  readonly check_MinMaxFlows /\
  (forall StartDate StopDate name,
      readonly (check_df StartDate StopDate name)) /\
  (forall plants data,
      let after_ := store (check_heat_demand (plants, data)) in
      snd after_ = data /\
      columns (fst after_) = columns plants /\
      index (fst after_) =
        match column plants "Unit" with
        | Some Unit => map label_of_cell Unit
        | None => index plants
        end).
Proof.
  repeat split;
    auto using readonly_check_chp, readonly_check_units, readonly_check_sto,
      readonly_check_clustering, readonly_check_AvailabilityFactors,
      readonly_check_MinMaxFlows, readonly_check_df.
  all: unfold check_heat_demand, Heat.check_heat_demand, getitem, Heat.plants.
  all: destruct (column plants "Unit") as [Unit |] eqn:E.
  all: try (erewrite bind_lookup_none by exact E; reflexivity).
  all: erewrite bind_lookup by exact E.
  all: unfold bind at 1; unfold modify at 1.
  all: match goal with
       | |- context [bind ?m ?f ?s] =>
           assert (R : readonly (bind m f)) by
             (readonly_tac; apply readonly_check_column);
           specialize (R s); destruct (bind m f s) as [res st lg];
           simpl in R; subst st; reflexivity
       end.
Qed.

(** C4, as stated, fails: [check_heat_demand] completes on a unit table
    under the default index and leaves it indexed by the unit names. *)
Lemma C4_counterexample :
  let after_ := check_heat_demand (Example.heat_plants, Example.heat_data) in
  result after_ = Return true /\
  index Example.heat_plants = [LInt 0] /\
  index (fst (store after_)) = [LStr "CHP1"] /\
  fst (store after_) <> Example.heat_plants.
Proof.
  cbv zeta. repeat split; try (vm_compute; reflexivity).
  intros H. apply (f_equal (@index)) in H. vm_compute in H. discriminate H.
Qed.

(* ===================================================================== *)
(** * [check_AvailabilityFactors] *)
(* ===================================================================== *)


Section AFRows.
Variables (plants : DataFrame) (AF_ : NumFrame).
Variables (units : list Cell) (techs : list string).
Hypothesis HU : column plants "Unit" = Some units.
Hypothesis HT : column plants "Technology" = Some (map CStr techs).

End AFRows.

Section AFLoop.
Variables (plants : DataFrame) (AF_ : NumFrame).
Variables (units : list Cell) (techs : list string).
Hypothesis HU : column plants "Unit" = Some units.
Hypothesis HT : column plants "Technology" = Some (map CStr techs).

End AFLoop.




(* ===================================================================== *)
(** * [check_units] *)
(* ===================================================================== *)

Section UnitsFacts.
Variable float_of_text : string -> option float.
Variable plants : DataFrame.
Hypothesis Haligned : aligned plants.

Lemma check_keys_pass ks :
  forallb (has_column plants) ks = true ->
  Units.check_keys ks plants = Run (Return tt) plants [].
Proof.
  intros H. rewrite forallb_forall in H. apply for_pass. intros k Hk.
  unfold contains. rewrite bind_gets. unfold Units.self.
  rewrite (H k Hk). reflexivity.
Qed.

Lemma check_numeric_pass ks :
  forallb (numeric_column plants) ks = true ->
  Units.check_numeric ks plants = Run (Return tt) plants [].
Proof.
  intros H. rewrite forallb_forall in H. apply for_pass. intros k Hk.
  unfold get_index. rewrite bind_gets. unfold Units.self.
  specialize (H k Hk). unfold numeric_column in H.
  destruct (column plants k) as [cs |] eqn:Ec; [ | discriminate].
  rewrite forallb_forall in H.
  apply for_pass. intros u Hu.
  destruct (@cell_at_in plants k cs u Haligned Ec Hu) as (c & Hc & Hin).
  unfold loc. erewrite bind_lookup by exact Hc.
  specialize (H c Hin). destruct c as [x | t]; [ | discriminate].
  cbn in H. apply negb_true_iff in H. cbn. unfold bind, when, ret. cbn.
  rewrite H. reflexivity.
Qed.

Lemma check_numeric_missing_column k ks :
  index plants <> [] -> has_column plants k = false ->
  Units.check_numeric (k :: ks) plants = Run (Raise KeyError) plants [].
Proof.
  intros Hidx Hk. unfold Units.check_numeric. cbn [for_].
  apply bind_raise. unfold get_index. rewrite bind_gets. unfold Units.self.
  destruct (index plants) as [| u idx]; [congruence |].
  cbn [for_]. apply bind_raise. apply bind_lookup_none.
  unfold cell_at. unfold has_column in Hk.
  destruct (column plants k); [discriminate | reflexivity].
Qed.

Lemma check_Nunits_pass :
  whole_Nunits plants = true ->
  Units.check_Nunits float_of_text plants =
  Run (Return (has_column plants "Nunits")) plants
      (if has_column plants "Nunits" then []
       else [Log INFO units_nunits_default []]).
Proof.
  unfold whole_Nunits, Units.check_Nunits, contains, getitem, has_column.
  rewrite bind_gets. unfold Units.self.
  destruct (column plants "Nunits") as [cs |] eqn:Ec; [ | reflexivity].
  intros H. erewrite bind_lookup by exact Ec.
  rewrite forallb_forall in H.
  erewrite bind_pure.
  2:{ apply map_M_pure with
          (g := fun c => match c with CNum x => x | CStr _ => F64.nan end).
      intros c Hc. specialize (H c Hc). destruct c; [reflexivity | discriminate]. }
  assert (E : existsb (fun x => negb (F64.is_integer x))
                (map (fun c => match c with CNum x => x | CStr _ => F64.nan end) cs)
              = false).
  { clear Ec. induction cs as [| c cs IH]; [reflexivity |]. cbn.
    rewrite IH by (intros; apply H; right; assumption).
    specialize (H c (or_introl eq_refl)). destruct c; [ | discriminate].
    cbn in H. rewrite H. reflexivity. }
  rewrite E. reflexivity.
Qed.
End UnitsFacts.

Lemma check_units_never_reports_RampingCost float_of_text config :
  logs_only (fun e => e <> RampingCost_missing)
            (check_units float_of_text config).
Proof.
  unfold check_units, RampingCost_missing.
  repeat logs_step; try discriminate.
  intros [= ->]. 
  match goal with H : In _ (_ ++ _) |- _ =>
    apply in_app_or in H; destruct H as [H | H]; cbn in H end.
  - intuition discriminate.
  - match type of H with In _ (Units.optional ?b) => destruct b end;
      cbn in H; intuition discriminate.
Qed.

Lemma check_units_needs_RampingCost float_of_text config plants b :
  index plants <> [] ->
  has_column plants "RampingCost" = false ->
  result (check_units float_of_text config plants) <> Return b.
Proof.
  intros Hidx Hramp Hr. unfold check_units, Units.check_units in Hr.
  assert (R0 : readonly (Units.prelude float_of_text)) by readonly_tac.
  destruct (@bind_returns_ro _ _ _ _ _ _ _ R0 Hr) as (N & l & Hp & _ & _).
  assert (Hp' : result (Units.prelude float_of_text plants) = Return N)
    by (rewrite Hp; reflexivity).
  clear Hr Hp. unfold Units.prelude in Hp'.
  assert (R1 : readonly (Units.check_Nunits float_of_text)) by readonly_tac.
  destruct (@bind_returns_ro _ _ _ _ _ _ _ R1 Hp') as (N' & l1 & _ & H1 & _).
  assert (R2 : readonly (Units.check_keys (Units.keys ++ Units.optional N')))
    by readonly_tac.
  destruct (@bind_returns_ro _ _ _ _ _ _ _ R2 H1) as ([] & l2 & _ & H2 & _).
  destruct (bind_returns _ _ _ H2) as ([] & s3 & l3 & H3 & _ & _).
  assert (H3' : result (Units.check_numeric (Units.NonNaNKeys ++ Units.optional N') plants)
                = Return tt) by (rewrite H3; reflexivity).
  unfold Units.check_numeric in H3'.
  eapply for_returns with (x := "RampingCost") in H3'.
  - unfold get_index in H3'. rewrite bind_gets in H3'. unfold Units.self in H3'.
    destruct (index plants) as [| u idx]; [congruence |].
    cbn [for_] in H3'. unfold loc in H3'. rewrite !bind_assoc in H3'.
    erewrite bind_lookup_none in H3'; [discriminate H3' |].
    unfold cell_at. unfold has_column in Hramp.
    destruct (column plants "RampingCost"); [discriminate | reflexivity].
  - intros key. readonly_tac.
  - apply in_or_app. left. cbn. tauto.
Qed.

(** C10.  [RampingCost] is among the columns whose values must be
    numbers and not among the columns whose presence is checked.  On a unit
    table with at least one row and no column [RampingCost], [check_units]
    never returns, and never logs that the mandatory field [RampingCost]
    is missing.  When moreover the row labels are distinct, the columns are
    as long as the index, the fifteen mandatory columns are there, the
    numeric columns looked at first hold numbers and [Nunits], if there,
    holds whole numbers, the run ends in the [KeyError] of the lookup
    [plants.loc[u, 'RampingCost']] of the missing-value loop. *)
Theorem C10_RampingCost_unguarded :
  forall (float_of_text : string -> option float) (config : Config)
         (plants : DataFrame),
    index plants <> [] ->
    has_column plants "RampingCost" = false ->
    (In "RampingCost" Units.NonNaNKeys /\ ~ In "RampingCost" Units.keys) /\
    (forall b, result (check_units float_of_text config plants) <> Return b) /\
    ~ In RampingCost_missing
         (logged (check_units float_of_text config plants)) /\
    (NoDup (index plants) ->
     aligned plants ->
     forallb (has_column plants) Units.keys = true ->
     forallb (numeric_column plants) before_RampingCost = true ->
     whole_Nunits plants = true ->
     check_units float_of_text config plants =
       Run (Raise KeyError) plants
           (if has_column plants "Nunits" then []
            else [Log INFO units_nunits_default []])).
Proof.
  intros f config plants Hidx Hramp. split; [ | split; [ | split ] ].
  - split; [cbn; tauto | cbn; intuition discriminate].
  - intros b. apply check_units_needs_RampingCost; assumption.
  - intros Hin.
    pose proof (check_units_never_reports_RampingCost f config plants) as H.
    rewrite Forall_forall in H. apply (H _ Hin). reflexivity.
  - intros _ Ha Hkeys Hnum HN.
    unfold check_units, Units.check_units, Units.prelude.
    rewrite !bind_assoc.
    erewrite bind_return by (apply check_Nunits_pass; exact HN).
    assert (Hopt : forallb (has_column plants)
                     (Units.optional (has_column plants "Nunits")) = true).
    { destruct (has_column plants "Nunits") eqn:EN; cbn;
        [rewrite EN |]; reflexivity. }
    rewrite !bind_assoc.
    erewrite bind_pure
      by (apply check_keys_pass; rewrite forallb_app, Hkeys, Hopt; reflexivity).
    rewrite !bind_assoc.
    change Units.NonNaNKeys
      with (before_RampingCost ++ ["RampingCost"; "CO2Intensity"]).
    rewrite <- app_assoc.
    unfold Units.check_numeric at 1. erewrite bind_raise.
    2:{ rewrite for_app. erewrite bind_pure
          by (apply check_numeric_pass; [exact Ha | exact Hnum]).
        apply check_numeric_missing_column; [exact Hidx | exact Hramp]. }
    unfold after. cbn. rewrite app_nil_r. reflexivity.
Qed.

(** C10, witness: two units without [RampingCost]. *)
Lemma C10_RampingCost_unguarded_witness :
  (forall b, result (check_units Example.no_text Example.config
                                 Example.no_RampingCost) <> Return b) /\
  ~ In RampingCost_missing
       (logged (check_units Example.no_text Example.config
                            Example.no_RampingCost)) /\
  check_units Example.no_text Example.config Example.no_RampingCost =
    Run (Raise KeyError) Example.no_RampingCost
        [Log INFO units_nunits_default []].
Proof.
  destruct (@C10_RampingCost_unguarded Example.no_text Example.config
              Example.no_RampingCost)
    as (_ & H1 & H2 & H3).
  - discriminate.
  - reflexivity.
  - split; [exact H1 | split; [exact H2 | ]].
    apply H3.
    + repeat constructor; cbn; intuition discriminate.
    + repeat constructor.
    + reflexivity.
    + reflexivity.
    + reflexivity.
Defined.

Lemma mem_string_In s l : mem_string s l = true <-> In s l.
Proof.
  unfold mem_string. rewrite existsb_exists. split.
  - intros (x & Hx & E). apply String.eqb_eq in E. subst. exact Hx.
  - intros H. exists s. split; [exact H | apply String.eqb_refl].
Qed.

Lemma same_text n seen :
  existsb (cell_same (CStr n)) (map CStr seen) = mem_string n seen.
Proof.
  unfold mem_string. induction seen as [| m seen IH]; cbn; [reflexivity |].
  rewrite IH. reflexivity.
Qed.

Lemma select_duplicated seen names :
  select (Units.duplicated_from (map CStr seen) (map CStr names))
         (map CStr names)
  = map CStr (repeated_from seen names).
Proof.
  revert seen. induction names as [| n names IH]; intros seen; cbn;
    [reflexivity |].
  rewrite same_text. change (CStr n :: map CStr seen) with (map CStr (n :: seen)).
  rewrite IH. destruct (mem_string n seen); reflexivity.
Qed.

Lemma In_repeated_from n names : forall seen,
  In n (repeated_from seen names) <->
  (In n seen /\ In n names) \/ (2 <= count_occ string_dec names n)%nat.
Proof.
  induction names as [| m names IH]; intros seen; cbn [repeated_from].
  - cbn. intuition lia.
  - pose proof (count_occ_In string_dec names n) as HC.
    destruct (string_dec m n) as [-> | Hne].
    + rewrite count_occ_cons_eq by reflexivity.
      destruct (mem_string n seen) eqn:E.
      * apply mem_string_In in E. cbn. intuition.
      * assert (Hs : ~ In n seen) by (rewrite <- mem_string_In; congruence).
        rewrite IH. cbn [In]. destruct HC as [HC1 HC2]. split.
        -- intros [[_ Hn] | Hc]; right; [specialize (HC1 Hn) |]; lia.
        -- intros [[Hn _] | Hc]; [contradiction |].
           left. split; [left; reflexivity | apply HC2; lia].
    + rewrite count_occ_cons_neq by exact Hne.
      destruct (mem_string m seen) eqn:E; cbn [In]; rewrite IH; cbn;
        intuition congruence.
Qed.

Lemma In_repeated n names :
  In n (repeated names) <-> (2 <= count_occ string_dec names n)%nat.
Proof. unfold repeated. rewrite In_repeated_from. cbn. intuition. Qed.

Lemma repeated_nil names : repeated names = [] <-> NoDup names.
Proof.
  rewrite (NoDup_count_occ string_dec). split.
  - intros E n. pose proof (In_repeated n names) as H. rewrite E in H.
    cbn in H. destruct H as [_ H].
    destruct (le_lt_dec (count_occ string_dec names n) 1); [assumption |].
    exfalso. apply H. lia.
  - intros H. destruct (repeated names) as [| n l] eqn:E; [reflexivity |].
    assert (Hin : In n (repeated names)) by (rewrite E; left; reflexivity).
    apply In_repeated in Hin. specialize (H n). lia.
Qed.

Lemma duplicated_from_length seen cs :
  List.length (Units.duplicated_from seen cs) = List.length cs.
Proof.
  revert seen. induction cs as [| c cs IH]; intros seen; cbn;
    [reflexivity | rewrite IH; reflexivity].
Qed.

Lemma select_split A (mask : list bool) (xs : list A) :
  List.length mask = List.length xs ->
  (List.length (select (map negb mask) xs) + List.length (select mask xs)
   = List.length xs)%nat.
Proof.
  revert xs. induction mask as [| b mask IH]; intros [| x xs] H; cbn in *;
    try lia.
  specialize (IH xs ltac:(lia)). destruct b; cbn; lia.
Qed.

Lemma unique_length names :
  (List.length (Units.unique (map CStr names)) =? List.length (map CStr names))%nat
  = match repeated names with [] => true | _ => false end.
Proof.
  unfold Units.unique, Units.duplicated.
  pose proof (select_split (Units.duplicated_from [] (map CStr names))
                (map CStr names) (duplicated_from_length _ _)) as H.
  pose proof (select_duplicated [] names) as E. cbn [map] in E.
  rewrite E in H. rewrite length_map in H. fold (repeated names) in H.
  destruct (repeated names) as [| n l]; cbn [List.length] in H.
  - apply Nat.eqb_eq. lia.
  - apply Nat.eqb_neq. lia.
Qed.

Lemma select_zones d names : forall zones,
  select (map (fun c => cell_eqb c (CStr d)) (map CStr names)) zones
  = zones_of d names zones.
Proof.
  unfold zones_of.
  induction names as [| n names IH]; intros [| z zones]; cbn; try reflexivity.
  rewrite IH. destruct (n =? d); reflexivity.
Qed.

Section Unique.
Variables (plants : DataFrame) (names : list string) (zones : list Cell).
Hypothesis HU : column plants "Unit" = Some (map CStr names).
Hypothesis HZ : column plants "Zone" = Some zones.

Lemma check_unique_run :
  Units.check_unique plants =
  match repeated names with
  | [] => Run (Return tt) plants []
  | d :: _ =>
      Run (SysExit 1) plants
          [Log ERROR units_duplicates
               [VCells (map CStr (repeated names)); VCell (CStr d);
                VCells (zones_of d names zones)]]
  end.
Proof.
  unfold Units.check_unique, getitem, getattr, Units.self.
  erewrite bind_lookup by exact HU.
  rewrite unique_length. unfold Units.duplicated.
  change (@nil Cell) with (map CStr []). rewrite select_duplicated.
  fold (repeated names).
  destruct (repeated names) as [| d l]; cbn [negb when]; [reflexivity |].
  cbn [map hd_error of_option]. rewrite bind_ret.
  unfold concat. cbn [is_text]. rewrite bind_ret.
  erewrite bind_lookup by exact HZ.
  rewrite select_zones. reflexivity.
Qed.
End Unique.

(** C9 (as amended).  On a unit table with distinct row labels that
    passes the checks of
    [check_units] that come first (lines 260-299), whose column [Unit]
    holds the names [names]: when a name comes more than once,
    [check_units] logs one more record, at error level, and ends the
    process with status 1; the record lists the repeated occurrences, so
    that a name is listed exactly when it comes at least twice, then the
    first name listed and the zones of the rows of that name.  When no
    name comes twice, the uniqueness check logs nothing and lets the run
    go on. *)
Theorem C9_duplicate_names :
  forall (float_of_text : string -> option float) (config : Config)
         (plants : DataFrame) (Nunits : bool)
         (names : list string) (zones : list Cell),
    NoDup (index plants) ->
    result (Units.prelude float_of_text plants) = Return Nunits ->
    column plants "Unit" = Some (map CStr names) ->
    column plants "Zone" = Some zones ->
    (~ NoDup names ->
     exists dups d,
       check_units float_of_text config plants =
       Run (SysExit 1) plants
           (logged (Units.prelude float_of_text plants) ++
            [Log ERROR units_duplicates
                 [VCells (map CStr dups); VCell (CStr d);
                  VCells (zones_of d names zones)]]) /\
       hd_error dups = Some d /\
       (forall n, In n dups <-> (2 <= count_occ string_dec names n)%nat)) /\
    (NoDup names -> Units.check_unique plants = Run (Return tt) plants []).
Proof.
  intros f config plants Nunits names zones _ Hpre HU HZ.
  pose proof (@check_unique_run plants names zones HU HZ) as Hrun.
  split; intros Hnames.
  - destruct (repeated names) as [| d l] eqn:E.
    + exfalso. apply Hnames, repeated_nil, E.
    + exists (repeated names), d. rewrite E. split; [ | split ].
      * unfold check_units, Units.check_units.
        assert (R : readonly (Units.prelude f)) by readonly_tac.
        specialize (R plants).
        destruct (Units.prelude f plants) as [res st lg] eqn:Ep.
        cbn in Hpre, R. subst res st.
        erewrite bind_return by exact Ep.
        erewrite bind_exit by exact Hrun. reflexivity.
      * reflexivity.
      * intros n. rewrite <- E. apply In_repeated.
  - apply repeated_nil in Hnames. rewrite Hnames in Hrun. exact Hrun.
Qed.

(** C9, witness: three units, two of them named [A]. *)
Lemma C9_duplicate_names_witness :
  exists dups d,
    check_units Example.no_text Example.config Example.twice_A =
    Run (SysExit 1) Example.twice_A
        (logged (Units.prelude Example.no_text Example.twice_A) ++
         [Log ERROR units_duplicates
              [VCells (map CStr dups); VCell (CStr d);
               VCells (zones_of d ["A"; "B"; "A"]
                                [CStr "BE"; CStr "NL"; CStr "DE"])]]) /\
    hd_error dups = Some d /\
    (forall n, In n dups <->
               (2 <= count_occ string_dec ["A"; "B"; "A"] n)%nat).
Proof.
  apply (proj1 (@C9_duplicate_names Example.no_text Example.config
                  Example.twice_A false ["A"; "B"; "A"]
                  [CStr "BE"; CStr "NL"; CStr "DE"]
                  ltac:(repeat constructor; cbn; intuition discriminate)
                  ltac:(vm_compute; reflexivity) eq_refl eq_refl)).
  intros H. apply NoDup_cons_iff in H. destruct H as [H _].
  apply H. right. left. reflexivity.
Defined.

(** C9, as stated, fails.  In these tables the name [A] comes twice.  In
    the first the power capacities are missing: [check_units] ends the
    process on the missing value and logs nothing about the names.  The
    second has the fifteen mandatory columns in order and no column
    [RampingCost]: the run ends in [KeyError], not by the process ending,
    and nothing is logged about the names. *)
Lemma C9_counterexample :
  let r := check_units Example.no_text Example.config
                       Example.twice_A_no_capacity in
  let r' := check_units Example.no_text Example.config
                        Example.twice_A_no_RampingCost in
  column Example.twice_A_no_capacity "Unit"
    = Some [CStr "A"; CStr "B"; CStr "A"] /\
  r = Run (SysExit 1) Example.twice_A_no_capacity
          [Log INFO units_nunits_default [];
           Log CRITICAL units_missing_value
               [VRepr (LInt 0); VStr "PowerCapacity"]] /\
  ~ In units_duplicates (map at_site (logged r)) /\
  column Example.twice_A_no_RampingCost "Unit"
    = Some [CStr "A"; CStr "B"; CStr "A"] /\
  r' = Run (Raise KeyError) Example.twice_A_no_RampingCost
           [Log INFO units_nunits_default []].
Proof.
  cbv zeta. repeat split; try (vm_compute; reflexivity).
  vm_compute. intuition discriminate.
Qed.

(* ===================================================================== *)
(** * [check_clustering] *)
(* ===================================================================== *)

(** The bound on the splits of [pairwise_sum] is never met: any bound
    from the length of the list on gives the same sum. *)
Lemma pairwise_sum_depth d d' a :
  (List.length a <= d)%nat -> (List.length a <= d')%nat ->
  F64.pairwise_sum d a = F64.pairwise_sum d' a.
Proof.
  revert d' a. induction d as [| d IH]; intros d' a H H'.
  - assert (E : List.length a = 0%nat) by lia.
    destruct d'; cbn [F64.pairwise_sum]; [reflexivity |].
    rewrite E. reflexivity.
  - destruct d' as [| d'].
    + assert (E : List.length a = 0%nat) by lia.
      cbn [F64.pairwise_sum]. rewrite E. reflexivity.
    + cbn [F64.pairwise_sum]. cbv zeta.
      destruct (F64.PW_BLOCKSIZE <? List.length a)%nat eqn:E; [ | reflexivity].
      apply Nat.ltb_lt in E. unfold F64.PW_BLOCKSIZE in E.
      set (n := List.length a) in *.
      set (n2 := (n / 2 - (n / 2) mod 8)%nat).
      assert (Hn2 : (0 < n2 < n)%nat).
      { subst n2.
        assert (n / 2 mod 8 < 8)%nat by (apply Nat.mod_upper_bound; lia).
        assert (n / 2 < n)%nat by (apply Nat.div_lt; lia).
        assert (64 <= n / 2)%nat by (apply Nat.div_le_lower_bound; lia).
        lia. }
      f_equal; apply IH;
        rewrite ?length_firstn, ?length_skipn; fold n; lia.
Qed.

(** Up to seven terms are added from left to right. *)
Lemma nansum_short xs :
  (List.length xs < 8)%nat ->
  F64.nansum xs
  = F64.add F64.zero (fold_left F64.add (map F64.fillna xs) F64.neg_zero).
Proof.
  intros H. unfold F64.nansum.
  assert (E : F64.pairwise_sum (List.length xs) (map F64.fillna xs)
              = F64.block (map F64.fillna xs)).
  { destruct (List.length xs) eqn:En; cbn [F64.pairwise_sum];
      [reflexivity |].
    rewrite length_map, En.
    destruct (F64.PW_BLOCKSIZE <? S n)%nat eqn:E; [ | reflexivity].
    apply Nat.ltb_lt in E. unfold F64.PW_BLOCKSIZE in E. lia. }
  rewrite E. f_equal.
  do 8 (destruct xs as [| ? xs]; [reflexivity |]).
  cbn [List.length] in H. lia.
Qed.

(** From eight terms on the order differs: these eight add up to 5 from
    left to right, and [sum] gives 4. *)
Lemma nansum_eight :
  let xs := map F64.of_Z
                [10000000000000000; 1; -10000000000000000; 1; 1; 1; 1; 1]%Z in
  fold_left F64.add xs F64.zero = F64.of_Z 5 /\
  F64.nansum xs = F64.of_Z 4.
Proof. cbv zeta. split; vm_compute; reflexivity. Qed.

Section OneTable.
Variable sel : Clustering.Tables -> DataFrame.
Variable s : Clustering.Tables.
Variable rows : list Row.t.
Hypothesis Hshows : shows (sel s) rows.

Lemma at_label_rows k (g : Row.t -> Cell) i u :
  column (sel s) k = Some (map g rows) ->
  nth_error (index (sel s)) i = Some u ->
  exists r, nth_error rows i = Some r /\
            Clustering.at_label sel k u s = Run (Return (g r)) s [].
Proof.
  intros Hk Hu. destruct Hshows as (Hnd & Hlen & _).
  destruct (nth_error rows i) as [r |] eqn:Er.
  - exists r. split; [reflexivity |].
    unfold Clustering.at_label, getattr, get_index.
    erewrite bind_lookup by exact Hk. rewrite bind_gets.
    unfold series_at. rewrite (position_nth Hnd _ Hu).
    rewrite nth_error_map, Er. reflexivity.
  - apply nth_error_None in Er.
    assert (i < List.length (index (sel s)))%nat
      by (apply nth_error_Some; congruence). lia.
Qed.

Lemma units_of_rows (tf : string * string) :
  Clustering.units_of sel (cells tf) s =
  Run (Return (map (fun r => (Row.Technology r =? fst tf) &&
                             (Row.Fuel r =? snd tf)) rows)) s [].
Proof.
  destruct Hshows as (_ & _ & HT & HF & _).
  unfold Clustering.units_of, getattr.
  erewrite bind_lookup by exact HT. erewrite bind_lookup by exact HF.
  rewrite combine_map, map_map. reflexivity.
Qed.

Lemma total_rows k (g : Row.t -> float) (p : Row.t -> bool) :
  column (sel s) k = Some (map (fun r => CNum (g r)) rows) ->
  Clustering.total sel k (map p rows) s =
  Run (Return (F64.nansum (map (fun r => F64.mul (g r) (Row.Nunits r))
                               (filter p rows)))) s [].
Proof.
  intros Hk. destruct Hshows as (_ & _ & _ & _ & _ & HN & _).
  unfold Clustering.total, getattr.
  erewrite bind_lookup by exact Hk. erewrite bind_lookup by exact HN.
  rewrite !select_filter, combine_map.
  erewrite bind_pure by apply times_rows. reflexivity.
Qed.

Lemma isstorage_rows :
  Clustering.isstorage sel s =
  Run (Return (map (fun r => mem_string (Row.Technology r)
                                        Clustering.List_tech_storage) rows))
      s [].
Proof.
  pose proof Hshows as (_ & Hlen & HT & _).
  unfold Clustering.isstorage, get_index. rewrite bind_gets.
  apply map_M_rows; [rewrite length_map; exact Hlen |].
  intros i u Hu.
  destruct (@at_label_rows "Technology" _ i u HT Hu) as (r & Hr & Hrun).
  exists (mem_string (Row.Technology r) Clustering.List_tech_storage).
  rewrite nth_error_map, Hr. split; [reflexivity |].
  erewrite bind_pure by exact Hrun. reflexivity.
Qed.
End OneTable.

Lemma techs_rows plants merged rows :
  shows plants rows ->
  Clustering.techs (plants, merged) =
  Run (Return (map cells (map Row.pair rows))) (plants, merged) [].
Proof.
  intros Hshows. pose proof Hshows as (_ & Hlen & HT & HF & _).
  unfold Clustering.techs, get_index. rewrite bind_gets.
  apply map_M_rows; [rewrite !length_map; exact Hlen |].
  intros i u Hu. unfold Clustering.plants in Hu. cbn [fst] in Hu.
  destruct (@at_label_rows Clustering.plants (plants, merged) rows Hshows
              "Technology" _ i u HT Hu) as (r & Hr & Ht).
  destruct (@at_label_rows Clustering.plants (plants, merged) rows Hshows
              "Fuel" _ i u HF Hu) as (r' & Hr' & Hf).
  rewrite Hr in Hr'. injection Hr' as <-.
  exists (cells (Row.pair r)). rewrite !nth_error_map, Hr.
  split; [reflexivity |].
  erewrite bind_pure by exact Ht. erewrite bind_pure by exact Hf. reflexivity.
Qed.

Lemma pair_same_cells p q : Clustering.pair_same (cells p) (cells q) = pair_eqb p q.
Proof. reflexivity. Qed.

Lemma drop_duplicates_cells ps : forall seen,
  Clustering.drop_duplicates_from (map cells seen) (map cells ps)
  = map cells (distinct_from seen ps).
Proof.
  induction ps as [| p ps IH]; intros seen; cbn; [reflexivity |].
  assert (E : existsb (Clustering.pair_same (cells p)) (map cells seen)
              = existsb (pair_eqb p) seen).
  { clear. induction seen as [| q seen IH]; cbn; [reflexivity |].
    rewrite IH, pair_same_cells. reflexivity. }
  rewrite E. destruct (existsb (pair_eqb p) seen).
  - apply IH.
  - cbn. f_equal. apply (IH (p :: seen)).
Qed.

Lemma pair_eqb_eq p q : pair_eqb p q = true <-> p = q.
Proof.
  destruct p as [a b], q as [c d]. unfold pair_eqb. cbn.
  rewrite andb_true_iff, !String.eqb_eq. split; [intros [-> ->] | intros [= -> ->]]; auto.
Qed.

Lemma In_distinct_from p ps : forall seen,
  In p (distinct_from seen ps) <-> In p ps /\ ~ In p seen.
Proof.
  induction ps as [| q ps IH]; intros seen; cbn; [tauto |].
  destruct (existsb (pair_eqb q) seen) eqn:E.
  - apply existsb_exists in E. destruct E as (x & Hx & E).
    apply pair_eqb_eq in E. subst x. rewrite IH.
    split; [tauto |]. intros [[-> | H] Hn]; [contradiction | tauto].
  - assert (Hq : ~ In q seen).
    { intros H. apply not_true_iff_false in E. apply E.
      apply existsb_exists. exists q. split; [exact H | apply pair_eqb_eq; reflexivity]. }
    cbn. rewrite IH. cbn.
    destruct (string_dec (fst p) (fst q)) as [E1 | N1];
      [destruct (string_dec (snd p) (snd q)) as [E2 | N2] | ].
    + assert (q = p) by (destruct p, q; cbn in *; congruence). subst q. tauto.
    + assert (q <> p) by congruence. tauto.
    + assert (q <> p) by congruence. tauto.
Qed.

Section Both.
Variables (plants merged : DataFrame) (rows rows' : list Row.t).
Hypothesis Hold : shows plants rows.
Hypothesis Hnew : shows merged rows'.

Let s : Clustering.Tables := (plants, merged).

Lemma check_pair_run tf :
  Clustering.check_pair (cells tf) s =
  if exceeds rows rows' tf
  then Run (SysExit 1) s
           [Log ERROR clustering_capacity
                [VCell (CStr (fst tf)); VCell (CStr (snd tf));
                 VFloat (installed rows tf); VFloat (installed rows' tf)]]
  else Run (Return tt) s [].
Proof.
  unfold Clustering.check_pair.
  erewrite bind_pure
    by (apply (@units_of_rows Clustering.plants s rows); exact Hold).
  erewrite bind_pure
    by (apply (@units_of_rows Clustering.plants_merged s rows'); exact Hnew).
  erewrite bind_pure.
  2:{ apply (@total_rows Clustering.plants s rows Hold "PowerCapacity"
                         Row.PowerCapacity).
      apply Hold. }
  erewrite bind_pure.
  2:{ apply (@total_rows Clustering.plants_merged s rows' Hnew "PowerCapacity"
                         Row.PowerCapacity).
      apply Hnew. }
  fold (installed rows tf). fold (installed rows' tf).
  fold (exceeds rows rows' tf).
  destruct (exceeds rows rows' tf); reflexivity.
Qed.

Lemma check_clustering_run :
  check_clustering s =
  match find (exceeds rows rows') (distinct_from [] (map Row.pair rows)) with
  | Some tf =>
      Run (SysExit 1) s
          [Log ERROR clustering_capacity
               [VCell (CStr (fst tf)); VCell (CStr (snd tf));
                VFloat (installed rows tf); VFloat (installed rows' tf)]]
  | None =>
      let TotalStorage :=
        stored (fun t => mem_string t Clustering.List_tech_storage) rows in
      let TotalStorage_merged :=
        stored (fun t => mem_string t Clustering.List_tech_storage) rows' in
      Run (Return true) s
          (if Clustering.differs TotalStorage TotalStorage_merged
           then [Log ERROR clustering_storage
                     [VFloat TotalStorage; VFloat TotalStorage_merged]]
           else [])
  end.
Proof.
  unfold check_clustering, Clustering.check_clustering.
  erewrite bind_pure by (apply techs_rows; exact Hold).
  unfold Clustering.drop_duplicates.
  change (@nil (Cell * Cell)) with (map cells []).
  rewrite drop_duplicates_cells.
  pose proof (for_find (exceeds rows rows')
                (fun tf => [Log ERROR clustering_capacity
                     [VCell (CStr (fst tf)); VCell (CStr (snd tf));
                      VFloat (installed rows tf); VFloat (installed rows' tf)]])
                1 (fun tf => Clustering.check_pair (cells tf)) s
                (distinct_from [] (map Row.pair rows)) check_pair_run) as Hloop.
  destruct (find (exceeds rows rows') (distinct_from [] (map Row.pair rows)))
    as [tf |].
  - erewrite bind_exit by (rewrite for_map; exact Hloop). reflexivity.
  - erewrite bind_pure by (rewrite for_map; exact Hloop).
    erewrite bind_pure
      by (apply (@isstorage_rows Clustering.plants s rows); exact Hold).
    erewrite bind_pure
      by (apply (@isstorage_rows Clustering.plants_merged s rows'); exact Hnew).
    erewrite bind_pure.
    2:{ apply (@total_rows Clustering.plants s rows Hold "STOCapacity"
                           Row.STOCapacity).
        apply Hold. }
    erewrite bind_pure.
    2:{ apply (@total_rows Clustering.plants_merged s rows' Hnew "STOCapacity"
                           Row.STOCapacity).
        apply Hnew. }
    cbv zeta. unfold stored.
    destruct (Clustering.differs _ _); reflexivity.
Qed.
End Both.

Lemma units_table_shows rows : shows (Example.units_table rows) rows.
Proof.
  unfold shows, Example.units_table. cbn [index]. repeat split.
  - apply Finite.Injective_map_NoDup; [ | apply seq_NoDup].
    intros i j [= H]. apply Nat2Z.inj, H.
  - rewrite length_map, length_seq. reflexivity.
Qed.

Lemma isStorage_list t :
  t <> "P2GS" -> isStorage t = mem_string t Clustering.List_tech_storage.
Proof.
  intros H. apply String.eqb_neq in H.
  unfold isStorage, Clustering.List_tech_storage, mem_string. cbn [existsb].
  rewrite H.
  destruct (t =? "HDAM"), (t =? "HPHS"), (t =? "CAES"), (t =? "BATS"),
    (t =? "BEVS"), (t =? "THMS"); reflexivity.
Qed.

Lemma stored_isStorage rows :
  (forall r, In r rows -> Row.Technology r <> "P2GS") ->
  stored isStorage rows
  = stored (fun t => mem_string t Clustering.List_tech_storage) rows.
Proof.
  intros H. unfold stored. f_equal. f_equal. apply filter_ext_in.
  intros r Hr. apply isStorage_list, H, Hr.
Qed.

Lemma In_distinct p ps : In p (distinct_from [] ps) <-> In p ps.
Proof. rewrite In_distinct_from. cbn. tauto. Qed.

(** C6 (as amended).  For tables that hold units under distinct labels:
    for every pair of technology and fuel of the original table the
    totals [P_old] and [P_new] are the sums of [PowerCapacity * Nunits]
    over the rows of that pair in either table, and [check_clustering]
    ends the process with status 1 exactly when
    [|P_old - P_new| / (P_old + 0.0001) > 0.01] for such a pair, having
    logged that pair and its two totals.  With two original GAS/NG units
    of 100 and 50 the total is 150; a clustered unit of 150 passes, one of
    140 is fatal. *)
Theorem C6_capacity_by_technology_and_fuel :
  forall (plants merged : DataFrame) (rows rows' : list Row.t),
    shows plants rows ->
    shows merged rows' ->
    let r := check_clustering (plants, merged) in
    let exceeds tf :=
      F64.gtb (F64.div (F64.abs (F64.sub (installed rows tf) (installed rows' tf)))
                       (F64.add (installed rows tf) (F64.dec 1 10000)))
              (F64.dec 1 100) in
    ((exists u, In u rows /\ exceeds (Row.pair u) = true) <->
     result r = SysExit 1) /\
    (forall status, result r = SysExit status ->
       status = 1%Z /\
       exists u, In u rows /\ exceeds (Row.pair u) = true /\
         logged r = [Log ERROR clustering_capacity
                         [VCell (CStr (Row.Technology u));
                          VCell (CStr (Row.Fuel u));
                          VFloat (installed rows (Row.pair u));
                          VFloat (installed rows' (Row.pair u))]]) /\
    (let old := Example.units_table Example.original in
     installed Example.original ("GAS", "NG") = F64.of_Z 150 /\
     check_clustering (old, Example.units_table (Example.clustered 150))
       = Run (Return true) (old, Example.units_table (Example.clustered 150)) [] /\
     check_clustering (old, Example.units_table (Example.clustered 140))
       = Run (SysExit 1) (old, Example.units_table (Example.clustered 140))
             [Log ERROR clustering_capacity
                  [VCell (CStr "GAS"); VCell (CStr "NG");
                   VFloat (F64.of_Z 150); VFloat (F64.of_Z 140)]]).
Proof.
  intros plants merged rows rows' Hold Hnew r exceeds_.
  pose proof (@check_clustering_run plants merged rows rows' Hold Hnew) as Hrun.
  change exceeds_ with (exceeds rows rows') in *.
  subst r. split; [ | split ].
  - split.
    + intros (u & Hu & Hex).
      destruct (find (exceeds rows rows') (distinct_from [] (map Row.pair rows)))
        as [tf |] eqn:Ef.
      * rewrite Hrun. reflexivity.
      * exfalso. pose proof (find_none _ _ Ef (Row.pair u)) as Hn.
        rewrite Hn in Hex; [discriminate |].
        apply In_distinct, in_map, Hu.
    + intros Hres.
      destruct (find (exceeds rows rows') (distinct_from [] (map Row.pair rows)))
        as [tf |] eqn:Ef.
      * apply find_some in Ef. destruct Ef as [Hin Hex].
        apply In_distinct, in_map_iff in Hin. destruct Hin as (u & <- & Hu).
        exists u. auto.
      * rewrite Hrun in Hres. discriminate Hres.
  - intros status Hres.
    destruct (find (exceeds rows rows') (distinct_from [] (map Row.pair rows)))
      as [tf |] eqn:Ef.
    + rewrite Hrun in Hres |- *. cbn in Hres. injection Hres as <-.
      split; [reflexivity |].
      apply find_some in Ef. destruct Ef as [Hin Hex].
      apply In_distinct, in_map_iff in Hin. destruct Hin as (u & <- & Hu).
      exists u. auto.
    + rewrite Hrun in Hres. discriminate Hres.
  - cbv zeta. repeat split; vm_compute; reflexivity.
Qed.

(** C6, witness: the example with a clustered capacity of 140. *)
Lemma C6_capacity_by_technology_and_fuel_witness :
  let rows := Example.original in
  let rows' := Example.clustered 140 in
  let r := check_clustering (Example.units_table rows,
                             Example.units_table rows') in
  (exists u, In u rows /\
     F64.gtb (F64.div (F64.abs (F64.sub (installed rows (Row.pair u))
                                         (installed rows' (Row.pair u))))
                      (F64.add (installed rows (Row.pair u))
                               (F64.dec 1 10000)))
             (F64.dec 1 100) = true) <->
  result r = SysExit 1.
Proof.
  cbv zeta.
  refine (proj1 (@C6_capacity_by_technology_and_fuel
                   (Example.units_table Example.original)
                   (Example.units_table (Example.clustered 140))
                   Example.original (Example.clustered 140) _ _)).
  - unfold shows. repeat split; try reflexivity.
    repeat constructor; cbn; intuition discriminate.
  - unfold shows. repeat split; try reflexivity.
    repeat constructor; cbn; intuition discriminate.
Defined.

(** C6, as stated, fails: a capacity of 1 clustered into 1.0100005
    differs by more than 1 % of the original, and [check_clustering]
    passes. *)
Lemma C6_counterexample :
  let P_old := F64.of_Z 1 in
  let P_new := F64.dec 10100005 10000000 in
  let rows := [Example.gas P_old] in
  let rows' := [Example.gas P_new] in
  installed rows ("GAS", "NG") = P_old /\
  installed rows' ("GAS", "NG") = P_new /\
  F64.gtb (relative_difference P_old P_new) (F64.dec 1 100) = true /\
  check_clustering (Example.units_table rows, Example.units_table rows')
  = Run (Return true)
        (Example.units_table rows, Example.units_table rows') [].
Proof. cbv zeta. repeat split; vm_compute; reflexivity. Qed.

(** C7 (as amended).  For tables that hold units under distinct labels,
    none of technology [P2GS]: when no pair of technology and fuel fails
    the capacity test and the totals of [STOCapacity * Nunits] over the
    storage rows, [S_old] and [S_new], are such that
    [|S_old - S_new| / (S_old + 0.0001) > 0.01], [check_clustering] logs
    one record, at error level, with the two totals, does not end the
    process and returns [True]. *)
Theorem C7_storage_mismatch_is_not_fatal :
  forall (plants merged : DataFrame) (rows rows' : list Row.t),
    shows plants rows ->
    shows merged rows' ->
    (forall u, In u (rows ++ rows') -> Row.Technology u <> "P2GS") ->
    (forall u, In u rows ->
       Clustering.differs (installed rows (Row.pair u))
                          (installed rows' (Row.pair u)) = false) ->
    let TotalStorage := stored isStorage rows in
    let TotalStorage_merged := stored isStorage rows' in
    F64.gtb (F64.div (F64.abs (F64.sub TotalStorage TotalStorage_merged))
                     (F64.add TotalStorage (F64.dec 1 10000)))
            (F64.dec 1 100) = true ->
    check_clustering (plants, merged) =
    Run (Return true) (plants, merged)
        [Log ERROR clustering_storage
             [VFloat TotalStorage; VFloat TotalStorage_merged]].
Proof.
  intros plants merged rows rows' Hold Hnew Hp Hpairs TS TSm Hd.
  rewrite (@check_clustering_run plants merged rows rows' Hold Hnew).
  destruct (find (exceeds rows rows') (distinct_from [] (map Row.pair rows)))
    as [tf |] eqn:Ef.
  - apply find_some in Ef. destruct Ef as [Hin Hex].
    apply In_distinct, in_map_iff in Hin. destruct Hin as (u & <- & Hu).
    unfold exceeds in Hex. rewrite (Hpairs u Hu) in Hex. discriminate Hex.
  - cbv zeta. subst TS TSm.
    rewrite <- !stored_isStorage
      by (intros u Hu; apply Hp, in_or_app; auto).
    change (Clustering.differs (stored isStorage rows) (stored isStorage rows') = true) in Hd.
    rewrite Hd. reflexivity.
Qed.

(** C7, witness: a reservoir of 100 clustered into one of 200. *)
Lemma C7_storage_mismatch_is_not_fatal_witness :
  let rows := [Example.hydro (F64.of_Z 100)] in
  let rows' := [Example.hydro (F64.of_Z 200)] in
  check_clustering (Example.units_table rows, Example.units_table rows') =
  Run (Return true) (Example.units_table rows, Example.units_table rows')
      [Log ERROR clustering_storage
           [VFloat (stored isStorage rows); VFloat (stored isStorage rows')]].
Proof.
  cbv zeta.
  apply (@C7_storage_mismatch_is_not_fatal
           (Example.units_table [Example.hydro (F64.of_Z 100)])
           (Example.units_table [Example.hydro (F64.of_Z 200)])
           [Example.hydro (F64.of_Z 100)] [Example.hydro (F64.of_Z 200)]).
  - unfold shows. repeat split; try reflexivity.
    repeat constructor; cbn; intuition discriminate.
  - unfold shows. repeat split; try reflexivity.
    repeat constructor; cbn; intuition discriminate.
  - intros u [<- | [<- | []]]; discriminate.
  - intros u [<- | []]. vm_compute. reflexivity.
  - vm_compute. reflexivity.
Defined.

(** C7, as stated, fails.  A storage capacity of 1 clustered into
    1.0100005 differs by more than 1 % of the original, and
    [check_clustering] logs nothing.  A [P2GS] storage of 100 clustered
    into 200 is not counted at all, and [check_clustering] logs
    nothing. *)
Lemma C7_counterexample :
  let S_old := F64.of_Z 1 in
  let S_new := F64.dec 10100005 10000000 in
  let rows := [Example.hydro S_old] in
  let rows' := [Example.hydro S_new] in
  let gas := [Example.power_to_gas (F64.of_Z 100)] in
  let gas' := [Example.power_to_gas (F64.of_Z 200)] in
  isStorage "HDAM" = true /\
  stored isStorage rows = S_old /\
  stored isStorage rows' = S_new /\
  exceeds rows rows' ("HDAM", "WAT") = false /\
  F64.gtb (relative_difference S_old S_new) (F64.dec 1 100) = true /\
  check_clustering (Example.units_table rows, Example.units_table rows')
  = Run (Return true)
        (Example.units_table rows, Example.units_table rows') [] /\
  isStorage "P2GS" = true /\
  stored isStorage gas = F64.of_Z 100 /\
  stored isStorage gas' = F64.of_Z 200 /\
  exceeds gas gas' ("P2GS", "HYD") = false /\
  F64.gtb (relative_difference (F64.of_Z 100) (F64.of_Z 200)) (F64.dec 1 100)
    = true /\
  check_clustering (Example.units_table gas, Example.units_table gas')
  = Run (Return true)
        (Example.units_table gas, Example.units_table gas') [].
Proof. cbv zeta. repeat split; vm_compute; reflexivity. Qed.

(** Eight units that add up to 4 as [sum] adds them: clustered into one
    unit of 5, the sum from left to right, they fail the test. *)
Lemma check_clustering_eight_units :
  let old := Example.units_table Sample.eight in
  let new := Example.units_table (Example.clustered 5) in
  installed Sample.eight ("GAS", "NG") = F64.of_Z 4 /\
  check_clustering (old, new)
  = Run (SysExit 1) (old, new)
        [Log ERROR clustering_capacity
             [VCell (CStr "GAS"); VCell (CStr "NG");
              VFloat (F64.of_Z 4); VFloat (F64.of_Z 5)]].
Proof. cbv zeta. split; vm_compute; reflexivity. Qed.

(* ===================================================================== *)
(** * Runs on small tables *)
(* ===================================================================== *)

(** A unit table with all its columns in range passes [check_units]; the
    absence of [Nunits] is logged at info level. *)
Example check_units_passes :
  check_units Example.no_text Example.config Example.two_units =
  Run (Return true) Example.two_units [Log INFO units_nunits_default []].
Proof. vm_compute. reflexivity. Qed.

(** Availability factors 1.2 and 0.5: an error record counts one value
    above 1 and none below 0, and the check goes on. *)
Example availability_out_of_range :
  check_AvailabilityFactors (Example.sun_plants, Example.sun_factors) =
  Run (Return tt) (Example.sun_plants, Example.sun_factors)
      [Log ERROR AF_out_of_range
           [VCell (CStr "PV1"); VCell (CStr "PHOT"); VNat 1; VNat 0]].
Proof. vm_compute. reflexivity. Qed.

(** A minimum flow of 10 above the maximum of 5 is fatal and reported at
    line 0, time step 0. *)
Example flows_min_above_max_is_fatal :
  check_MinMaxFlows ([[F64.of_Z 10]], [[F64.of_Z 5]]) =
  Run (SysExit 1) ([[F64.of_Z 10]], [[F64.of_Z 5]])
      [Log CRITICAL flows_min_above_max [VNat 0; VNat 0]].
Proof. vm_compute. reflexivity. Qed.

(** A [back-pressure] unit with the power loss factor 0.15 is fatal
    (line 203). *)
Example backpressure_lossfactor_is_fatal :
  check_chp [] (Example.chp "back-pressure" Example.c100 Example.c2
                            Example.c0_15 Example.c0_4 (F64.of_Z 40) []) =
  Run (SysExit 1)
      (Example.chp "back-pressure" Example.c100 Example.c2
                   Example.c0_15 Example.c0_4 (F64.of_Z 40) [])
      [Log CRITICAL chp_lossfactor_backpressure
           [VLabel (LStr "CHP1"); VFloat Example.c0_15]].
Proof. vm_compute. reflexivity. Qed.

(* ===================================================================== *)
(** * Further properties *)
(* ===================================================================== *)

(** ** Runs, loops and tables *)

Lemma returns_only_ret S A (a : A) : returns_only a (@ret S A a).
Proof. intros s b [= <-]. reflexivity. Qed.

Lemma returns_only_bind S A B (b : B) (m : M S A) (f : A -> M S B) :
  (forall a, returns_only b (f a)) -> returns_only b (bind m f).
Proof.
  intros Hf s b' Hr. apply bind_returns in Hr.
  destruct Hr as (a & s' & l & _ & Hr & _). exact (Hf a s' b' Hr).
Qed.

(** Settles [returns_only a m] for a sequence [m] that ends in
    [ret a]. *)
Ltac returns_tac :=
  repeat (apply returns_only_bind; intro); apply returns_only_ret.

Lemma nil_or_not A (l : list A) : l = [] \/ l <> [].
Proof. destruct l; [left; reflexivity | right; discriminate]. Qed.

Lemma find_ext_in A (p q : A -> bool) (l : list A) :
  (forall x, In x l -> p x = q x) -> find p l = find q l.
Proof.
  induction l as [| x l IH]; intros H; cbn; [reflexivity |].
  rewrite (H x (or_introl eq_refl)), IH; [reflexivity |].
  intros y Hy. apply H. right. exact Hy.
Qed.

Lemma find_first A (p : A -> bool) (l : list A) : forall x,
  find p l = Some x ->
  exists pre post, l = pre ++ x :: post /\ p x = true /\
                   forall y, In y pre -> p y = false.
Proof.
  induction l as [| y l IH]; intros x Hx; [discriminate |].
  cbn in Hx. destruct (p y) eqn:Ey.
  - injection Hx as <-. exists [], l. repeat split; [exact Ey |].
    intros ? [].
  - destruct (IH x Hx) as (pre & post & -> & Hp & Hpre).
    exists (y :: pre), post. repeat split; [exact Hp |].
    intros z [<- | Hz]; [exact Ey | apply Hpre, Hz].
Qed.

Lemma filter_none A (p : A -> bool) (l : list A) :
  (forall x, In x l -> p x = false) -> filter p l = [].
Proof.
  induction l as [| x l IH]; intros H; cbn; [reflexivity |].
  rewrite (H x (or_introl eq_refl)). apply IH.
  intros y Hy. apply H. right. exact Hy.
Qed.

Lemma first_missing_none plants ks :
  first_missing plants ks = None <-> forallb (has_column plants) ks = true.
Proof.
  unfold first_missing. induction ks as [| k ks IH]; cbn; [tauto |].
  destruct (has_column plants k); cbn; [exact IH | split; discriminate].
Qed.

Lemma has_column_keys plants ks k :
  forallb (has_column plants) ks = true -> In k ks -> has_column plants k = true.
Proof. intros H. rewrite forallb_forall in H. apply H. Qed.

(** Every cell of a column is read under some label. *)
Lemma cell_at_all df k cs c :
  aligned df -> NoDup (index df) -> column df k = Some cs -> In c cs ->
  exists u, In u (index df) /\ cell_at df u k = Some c.
Proof.
  intros Ha Hnd Hc Hin. apply In_nth_error in Hin. destruct Hin as (i & Hi).
  assert (Hlt : (i < List.length (index df))%nat).
  { rewrite <- (@column_length df k cs Ha Hc). apply nth_error_Some. congruence. }
  destruct (nth_error (index df) i) as [u |] eqn:Eu.
  - exists u. split; [eapply nth_error_In, Eu |].
    unfold cell_at. rewrite Hc, (position_nth Hnd _ Eu). exact Hi.
  - apply nth_error_None in Eu. lia.
Qed.

Lemma aligned_empty df k cs :
  aligned df -> index df = [] -> column df k = Some cs -> cs = [].
Proof.
  intros Ha Hidx Hc. pose proof (@column_length df k cs Ha Hc) as H.
  rewrite Hidx in H. destruct cs; [reflexivity | discriminate H].
Qed.

(** A loop over the rows that reads one cell per row. *)
Section Rows.
Variable plants : DataFrame.
Variable key : string.
Variable ok : Cell -> bool.
Variable body : Label -> M DataFrame unit.
Hypothesis Haligned : aligned plants.
Hypothesis Hnodup : NoDup (index plants).
Hypothesis Hro : forall u, readonly (body u).
Hypothesis Hbody : forall u c,
  In u (index plants) -> cell_at plants u key = Some c ->
  if ok c then body u plants = Run (Return tt) plants []
  else result (body u plants) <> Return tt.
Hypothesis Hnone : forall u,
  cell_at plants u key = None -> result (body u plants) <> Return tt.

Lemma rows_pass cs :
  column plants key = Some cs -> forallb ok cs = true ->
  for_ (index plants) body plants = Run (Return tt) plants [].
Proof.
  intros Hc H. rewrite forallb_forall in H. apply for_pass. intros u Hu.
  destruct (@cell_at_in plants key cs u Haligned Hc Hu) as (c & Hcell & Hin).
  generalize (Hbody u Hu Hcell). rewrite (H c Hin). auto.
Qed.

Lemma rows_return :
  index plants <> [] ->
  result (for_ (index plants) body plants) = Return tt ->
  exists cs, column plants key = Some cs /\ forallb ok cs = true.
Proof.
  intros Hidx Hr.
  assert (Hrow : forall u, In u (index plants) ->
                           result (body u plants) = Return tt)
    by (intros u Hu; eapply for_returns; [exact Hro | exact Hr | exact Hu]).
  destruct (column plants key) as [cs |] eqn:Hc.
  - exists cs. split; [reflexivity |]. apply forallb_forall. intros c Hin.
    destruct (@cell_at_all plants key cs c Haligned Hnodup Hc Hin)
      as (u & Hu & Hcell).
    generalize (Hbody u Hu Hcell). destruct (ok c); [reflexivity |].
    intros Hno. destruct (Hno (Hrow u Hu)).
  - destruct (index plants) as [| u idx]; [congruence |].
    exfalso. apply (Hnone u).
    + unfold cell_at. rewrite Hc. reflexivity.
    + apply Hrow. left. reflexivity.
Qed.
End Rows.

Section LogsAt.
Variable St : Type.
Variable P : entry -> Prop.

Lemma logs_bind_at A B (m : M St A) (f : A -> M St B) s :
  readonly m -> Forall P (logged (m s)) ->
  (forall a, result (m s) = Return a -> Forall P (logged (f a s))) ->
  Forall P (logged (bind m f s)).
Proof.
  intros Hro Hm Hf. unfold bind. specialize (Hro s).
  destruct (m s) as [[a | c | e] s' l]; cbn in Hm, Hro |- *; try exact Hm.
  subst s'. specialize (Hf a eq_refl). destruct (f a s) as [r s'' l'].
  cbn in Hf |- *. apply Forall_app. auto.
Qed.

Lemma logs_for_at X (body : X -> M St unit) s xs :
  (forall x, readonly (body x)) ->
  (forall x, In x xs -> Forall P (logged (body x s))) ->
  Forall P (logged (for_ xs body s)).
Proof.
  intros Hro. induction xs as [| x xs IH]; intros H; cbn [for_].
  - constructor.
  - apply logs_bind_at; [apply Hro | apply H; left; reflexivity | intros _ _].
    apply IH. intros y Hy. apply H. right. exact Hy.
Qed.
End LogsAt.

Lemma other_site (P : entry -> Prop) (w : site) l :
  (forall e, at_site e <> w -> P e) ->
  Forall (fun e => at_site e <> w) l -> Forall P l.
Proof. intros H. apply Forall_impl. exact H. Qed.

(** ** How the checkers end the process *)

Section ExitsAfter.
Variable St : Type.
Variable P : entry -> Prop.

Lemma exits_ret A (a : A) : exits_after P (@ret St A a).
Proof. intros s c H. discriminate H. Qed.

Lemma exits_logging v w a : exits_after P (@logging St v w a).
Proof. intros s c H. discriminate H. Qed.

Lemma exits_raise A e : exits_after P (@raise St A e).
Proof. intros s c H. discriminate H. Qed.

Lemma exits_gets A (g : St -> A) : exits_after P (gets g).
Proof. intros s c H. discriminate H. Qed.

Lemma exits_modify (g : St -> St) : exits_after P (modify g).
Proof. intros s c H. discriminate H. Qed.

Lemma exits_lookup A e (g : St -> option A) : exits_after P (lookup e g).
Proof. intros s c H. unfold lookup in H. destruct (g s); discriminate H. Qed.

(** [logging...; sys.exit(1)]. *)
Lemma exits_fatal A v w a :
  P (Log v w a) ->
  exits_after P (bind (logging v w a) (fun _ => @sys_exit St A 1)).
Proof.
  intros H s c Hr. cbn in Hr. injection Hr as <-. split; [reflexivity |].
  exists [], (Log v w a). split; [reflexivity | exact H].
Qed.

Lemma exits_bind A B (m : M St A) (f : A -> M St B) :
  exits_after P m -> (forall a, exits_after P (f a)) ->
  exits_after P (bind m f).
Proof.
  intros Hm Hf s c. unfold bind. specialize (Hm s).
  destruct (m s) as [[a | c' | e] s' l]; cbn in Hm |- *.
  - specialize (Hf a s' c). destruct (f a s') as [r s'' l']. cbn in Hf |- *.
    intros Hr. destruct (Hf Hr) as (-> & l0 & e0 & -> & He).
    split; [reflexivity |]. exists (l ++ l0), e0.
    rewrite app_assoc. auto.
  - intros Hr. injection Hr as ->. apply Hm. reflexivity.
  - discriminate.
Qed.

Lemma exits_for X (xs : list X) (body : X -> M St unit) :
  (forall x, exits_after P (body x)) -> exits_after P (for_ xs body).
Proof.
  intros Hb. induction xs as [| x xs IH]; cbn [for_].
  - apply exits_ret.
  - apply exits_bind; [apply Hb | intros _; exact IH].
Qed.

Lemma exits_for_acc X V (xs : list X) (body : V -> X -> M St V) :
  (forall v x, exits_after P (body v x)) ->
  forall v, exits_after P (for_acc xs v body).
Proof.
  intros Hb. induction xs as [| x xs IH]; intros v; cbn [for_acc].
  - apply exits_ret.
  - apply exits_bind; [apply Hb | intros v'; apply IH].
Qed.

Lemma exits_map_M X Y (f : X -> M St Y) (xs : list X) :
  (forall x, exits_after P (f x)) -> exits_after P (map_M f xs).
Proof.
  intros Hf. induction xs as [| x xs IH]; cbn [map_M].
  - apply exits_ret.
  - apply exits_bind; [apply Hf | intros y].
    apply exits_bind; [exact IH | intros ys; apply exits_ret].
Qed.
End ExitsAfter.

(** Decomposes a goal [exits_after P m] along the syntax of [m]; what is
    left is [P] of the records logged before [sys.exit]. *)
Ltac exits_step :=
  match goal with
  | |- exits_after _ (bind (logging _ _ _) (fun _ => sys_exit _)) =>
      apply exits_fatal
  | |- exits_after _ (bind _ _) => apply exits_bind; [ | intro ]
  | |- exits_after _ (ret _) => apply exits_ret
  | |- exits_after _ (logging _ _ _) => apply exits_logging
  | |- exits_after _ (raise _) => apply exits_raise
  | |- exits_after _ (gets _) => apply exits_gets
  | |- exits_after _ (modify _) => apply exits_modify
  | |- exits_after _ (lookup _ _) => apply exits_lookup
  | |- exits_after _ (for_ _ _) => apply exits_for; intro
  | |- exits_after _ (for_acc _ _ _) => apply exits_for_acc; intros
  | |- exits_after _ (map_M _ _) => apply exits_map_M; intro
  | |- exits_after _ (if ?b then _ else _) => destruct b
  | |- exits_after _ (match ?c with _ => _ end) => destruct c
  | |- exits_after _ (let x := _ in _) => cbv zeta
  | |- exits_after _ (?f _ _ _ _ _) => unfold f
  | |- exits_after _ (?f _ _ _ _) => unfold f
  | |- exits_after _ (?f _ _ _) => unfold f
  | |- exits_after _ (?f _ _) => unfold f
  | |- exits_after _ (?f _) => unfold f
  | |- exits_after _ ?f => unfold f
  end.

Ltac exits_tac := repeat exits_step; try (cbn; auto; fail).

(** X1.  A checker ends the process only with status 1, and only right
    after it has logged a record at error or critical level: [check_chp]
    and [check_units] after a record at one of these levels, [check_sto]
    and [check_MinMaxFlows] after a critical one, [check_clustering] only
    after the record of a capacity mismatch (line 72), [check_heat_demand]
    only after the record of line 391, [check_df] only after the record
    of duplicated headers; [check_AvailabilityFactors] never ends the
    process. *)
Theorem X1_exit_discipline :
  forall (float_of_text : string -> option float) (config : Config)
         (raw_data : bool) (StartDate StopDate : option Label)
         (name : string),
    exits_after loud (check_chp config) /\
    exits_after loud (check_units float_of_text config) /\
    exits_after (fun e => lvl e = CRITICAL) (check_sto config raw_data) /\
    exits_after (fun e => lvl e = ERROR /\ at_site e = clustering_capacity)
                check_clustering /\
    exits_after (fun _ => False) check_AvailabilityFactors /\
    exits_after (fun e => lvl e = CRITICAL) check_MinMaxFlows /\
    exits_after (fun e => lvl e = ERROR /\ at_site e = heat_no_powertoheat)
                check_heat_demand /\
    exits_after (fun e => lvl e = ERROR /\ at_site e = df_duplicate_headers)
                (check_df StartDate StopDate name).
Proof.
  intros float_of_text config raw_data StartDate StopDate name.
  split; [unfold check_chp, loud; exits_tac |].
  split; [unfold check_units, loud; exits_tac |].
  split; [unfold check_sto; exits_tac |].
  split; [unfold check_clustering; exits_tac |].
  split; [unfold check_AvailabilityFactors; exits_tac |].
  split; [unfold check_MinMaxFlows; exits_tac |].
  split; [unfold check_heat_demand; exits_tac |].
  unfold check_df; exits_tac.
Qed.

(** ** [isVRE], [isStorage] *)

(** X2.  The technologies that [check_AvailabilityFactors] takes for
    renewable are those of [isVRE]; the storage technologies of
    [check_clustering] are those of [isStorage] other than [P2GS], which
    [isStorage] takes for storage and the list of [check_clustering] does
    not hold; and no technology is both renewable and storage. *)
Theorem X2_technology_lists :
  forall t : string,
    isVRE t = mem_string t AF.RES /\
    mem_string t Clustering.List_tech_storage
    = isStorage t && negb (t =? "P2GS") /\
    isStorage "P2GS" = true /\
    isVRE t && isStorage t = false.
Proof.
  intros t. split; [ | split; [ | split]].
  - unfold isVRE, AF.RES, mem_string. cbn [existsb].
    destruct (t =? "HROR"), (t =? "PHOT"), (t =? "WTON"), (t =? "WTOF");
      reflexivity.
  - unfold isStorage, Clustering.List_tech_storage, mem_string. cbn [existsb].
    destruct (String.eqb_spec t "P2GS") as [-> | _]; [reflexivity |].
    destruct (t =? "HDAM"), (t =? "HPHS"), (t =? "CAES"), (t =? "BATS"),
      (t =? "BEVS"), (t =? "THMS"); reflexivity.
  - reflexivity.
  - unfold isVRE, mem_string. cbn [existsb].
    destruct (String.eqb_spec t "HROR") as [-> | _]; [reflexivity |].
    destruct (String.eqb_spec t "PHOT") as [-> | _]; [reflexivity |].
    destruct (String.eqb_spec t "WTON") as [-> | _]; [reflexivity |].
    destruct (String.eqb_spec t "WTOF") as [-> | _]; reflexivity.
Qed.

(** ** [check_AvailabilityFactors] *)



Lemma check_row_counts i s :
  Forall (counts_the_series (snd s)) (logged (AF.check_row i s)).
Proof.
  assert (Hother : forall e, at_site e <> AF_empty_values ->
                             counts_the_series (snd s) e)
    by (intros e He Hs; contradiction).
  unfold AF.check_row, AF.field.
  apply logs_bind_at; [apply readonly_lookup | apply logs_lookup | intros u _].
  apply logs_bind_at; [apply readonly_lookup | apply logs_lookup | intros t _].
  rewrite bind_gets.
  apply logs_bind_at; [readonly_tac | | intros _ _].
  { apply (@other_site _ _ _ Hother).
    match goal with
    | |- Forall _ (logged (?m s)) =>
        assert (H : logs_only (fun e => at_site e <> AF_empty_values) m)
          by (repeat logs_step; discriminate);
          apply H
    end. }
  destruct (AF.in_AF u (snd s)) eqn:Ein.
  - destruct u as [x | k]; [discriminate Ein |]. unfold AF.AF_column.
    destruct (ncolumn (snd s) k) as [col |] eqn:Ec.
    + erewrite bind_lookup by exact Ec.
      apply logs_bind_at; [readonly_tac | | intros _ _].
      * destruct (existsb F64.isnan col) eqn:En; cbn; constructor;
          [ | constructor].
        intros _. exists k, (VCell t), col. auto.
      * apply (@other_site _ _ _ Hother).
        match goal with
        | |- Forall _ (logged (?m s)) =>
            assert (H : logs_only (fun e => at_site e <> AF_empty_values) m)
              by (repeat logs_step; discriminate);
              apply H
        end.
    + erewrite bind_lookup_none by exact Ec. constructor.
  - apply (@other_site _ _ _ Hother).
    match goal with
    | |- Forall _ (logged (?m s)) =>
        assert (H : logs_only (fun e => at_site e <> AF_empty_values) m)
          by (repeat logs_step; discriminate);
          apply H
    end.
Qed.

(** X4.  The record about empty values (line 44) is logged for a unit
    whose series has a missing value, and the count it reports is the
    length of that series: [Series.count()] of the truth values of
    [isna] counts them all. *)
Theorem X4_empty_values_counts_the_series :
  forall (plants : DataFrame) (AF_ : NumFrame) (e : entry),
    In e (logged (check_AvailabilityFactors (plants, AF_))) ->
    at_site e = AF_empty_values ->
    exists k t col,
      args e = [VCell (CStr k); t; VNat (List.length col)] /\
      ncolumn AF_ k = Some col /\ existsb F64.isnan col = true.
Proof.
  intros plants AF_ e Hin.
  assert (H : Forall (counts_the_series AF_)
                (logged (check_AvailabilityFactors (plants, AF_)))).
  { unfold check_AvailabilityFactors, AF.check_AvailabilityFactors, get_index.
    rewrite bind_gets. apply logs_for_at.
    - intros i. readonly_tac.
    - intros i _. apply (check_row_counts i (plants, AF_)). }
  rewrite Forall_forall in H. exact (H e Hin).
Qed.


(** ** [check_clustering] *)

Lemma installed_more rows' more tf :
  (forall r, In r more -> Row.pair r <> tf) ->
  installed (rows' ++ more) tf = installed rows' tf.
Proof.
  intros H. unfold installed. rewrite filter_app.
  rewrite (@filter_none _ _ more), app_nil_r; [reflexivity |].
  intros r Hr. specialize (H r Hr). unfold Row.pair in H.
  destruct (String.eqb_spec (Row.Technology r) (fst tf)) as [E1 | _];
    [ | reflexivity].
  destruct (String.eqb_spec (Row.Fuel r) (snd tf)) as [E2 | _];
    [ | reflexivity].
  exfalso. apply H. destruct tf; cbn in *; congruence.
Qed.

Lemma stored_more p rows' more :
  (forall r, In r more -> p (Row.Technology r) = false) ->
  stored p (rows' ++ more) = stored p rows'.
Proof.
  intros H. unfold stored. rewrite filter_app.
  rewrite (@filter_none _ _ more), app_nil_r; [reflexivity | exact H].
Qed.

(** X5.  Units of a technology and fuel that the original table does not
    have, and that are no storage, are not looked at: added to the
    clustered table they change neither how [check_clustering] ends nor
    what it logs. *)
Theorem X5_clustering_ignores_new_pairs :
  forall (plants merged merged' : DataFrame) (rows rows' more : list Row.t),
    shows plants rows ->
    shows merged rows' ->
    shows merged' (rows' ++ more) ->
    (forall r, In r more -> ~ In (Row.pair r) (map Row.pair rows)) ->
    (forall r, In r more ->
               mem_string (Row.Technology r) Clustering.List_tech_storage
               = false) ->
    result (check_clustering (plants, merged'))
    = result (check_clustering (plants, merged)) /\
    logged (check_clustering (plants, merged'))
    = logged (check_clustering (plants, merged)).
Proof.
  intros plants merged merged' rows rows' more Hold Hnew Hnew' Hpairs Hsto.
  rewrite (check_clustering_run Hold Hnew), (check_clustering_run Hold Hnew').
  assert (E : forall tf, In tf (distinct_from [] (map Row.pair rows)) ->
                         installed (rows' ++ more) tf = installed rows' tf).
  { intros tf Htf. apply installed_more. intros r Hr Heq.
    apply (Hpairs r Hr). rewrite Heq. apply In_distinct, Htf. }
  rewrite (@find_ext_in _ (exceeds rows (rows' ++ more)) (exceeds rows rows'))
    by (intros tf Htf; unfold exceeds; rewrite (E tf Htf); reflexivity).
  destruct (find (exceeds rows rows') (distinct_from [] (map Row.pair rows)))
    as [tf |] eqn:Ef.
  - apply find_some in Ef. destruct Ef as [Htf _]. cbn [result logged].
    rewrite (E tf Htf). split; reflexivity.
  - cbv zeta. rewrite (stored_more _ _ _ Hsto). split; reflexivity.
Qed.

Lemma differs_same x : Clustering.differs x x = false.
Proof.
  unfold Clustering.differs, F64.gtb, F64.ltb, F64.div, F64.abs, F64.sub, F64.add.
  assert (Hsub : SFsub F64.prec F64.emax x x = S754_nan \/
                 SFsub F64.prec F64.emax x x = S754_zero false).
  { destruct x as [[|] | [|] | | s m e]; cbn; auto.
    right. rewrite Z.sub_diag. reflexivity. }
  destruct Hsub as [-> | ->]; [reflexivity |].
  cbn [SFabs].
  destruct (SFadd F64.prec F64.emax x Clustering.c0_0001) as [s | s | | s m e];
    reflexivity.
Qed.

(** X6.  A clustering that changes nothing passes: on a table compared
    with itself [check_clustering] returns [True] and logs nothing,
    whatever the capacities, missing or infinite ones included. *)
Theorem X6_clustering_same_table :
  forall (plants : DataFrame) (rows : list Row.t),
    shows plants rows ->
    check_clustering (plants, plants) = Run (Return true) (plants, plants) [].
Proof.
  intros plants rows H. rewrite (check_clustering_run H H).
  assert (E : find (exceeds rows rows) (distinct_from [] (map Row.pair rows))
              = None).
  { induction (distinct_from [] (map Row.pair rows)) as [| tf l IH];
      [reflexivity |].
    cbn. unfold exceeds at 1. rewrite differs_same. exact IH. }
  rewrite E. cbv zeta. rewrite differs_same. reflexivity.
Qed.

(** ** [check_MinMaxFlows] *)

Lemma find_true_none row : forall j0,
  Flows.find_true j0 row = None <-> forall j, nth j row false = false.
Proof.
  induction row as [| b row IH]; intros j0; cbn [Flows.find_true].
  - split; [intros _ [| j]; reflexivity | reflexivity].
  - destruct b.
    + split; [discriminate | intros H; specialize (H 0%nat); discriminate H].
    + rewrite IH. split.
      * intros H [| j]; [reflexivity | apply H].
      * intros H j. apply (H (S j)).
Qed.

Lemma find_true_some row : forall j0 j,
  Flows.find_true j0 row = Some j <->
  exists k, j = (j0 + k)%nat /\ nth k row false = true /\
            forall k', (k' < k)%nat -> nth k' row false = false.
Proof.
  induction row as [| b row IH]; intros j0 j; cbn [Flows.find_true].
  - split; [discriminate | intros (k & _ & H & _); destruct k; discriminate H].
  - destruct b.
    + split.
      * intros [= <-]. exists 0%nat. repeat split; [lia | intros; lia].
      * intros (k & -> & Hk & Hfirst). destruct k as [| k]; [f_equal; lia |].
        specialize (Hfirst 0%nat ltac:(lia)). discriminate Hfirst.
    + rewrite IH. split.
      * intros (k & -> & Hk & Hfirst). exists (S k). repeat split; [lia | exact Hk |].
        intros [| k'] Hlt; [reflexivity | apply Hfirst; lia].
      * intros (k & -> & Hk & Hfirst). destruct k as [| k]; [discriminate Hk |].
        exists k. repeat split; [lia | exact Hk |].
        intros k' Hlt. apply (Hfirst (S k')). lia.
Qed.

Lemma first_where_none a : forall i0,
  Flows.first_where i0 a = None <-> forall i j, grid a i j = false.
Proof.
  unfold grid. induction a as [| row a IH]; intros i0; cbn [Flows.first_where].
  - split; [intros _ [| i] [| j]; reflexivity | reflexivity].
  - destruct (Flows.find_true 0 row) as [j |] eqn:E.
    + split; [discriminate |]. intros H.
      apply find_true_some in E. destruct E as (k & _ & Hk & _).
      specialize (H 0%nat k). cbn in H. congruence.
    + rewrite IH. rewrite find_true_none in E. split.
      * intros H [| i] j; [apply E | apply H].
      * intros H i j. apply (H (S i) j).
Qed.

Lemma first_where_some a : forall i0 i j,
  Flows.first_where i0 a = Some (i, j) <->
  exists k, i = (i0 + k)%nat /\ first_place (grid a) k j.
Proof.
  unfold first_place, before, grid.
  induction a as [| row a IH]; intros i0 i j; cbn [Flows.first_where].
  - split; [discriminate |]. intros (k & _ & H & _).
    destruct k, j; discriminate H.
  - destruct (Flows.find_true 0 row) as [j1 |] eqn:E.
    + apply find_true_some in E. destruct E as (k1 & -> & Hk1 & Hfirst1).
      cbn [Nat.add]. split.
      * intros [= <- <-]. exists 0%nat. split; [lia |]. split; [exact Hk1 |].
        intros i' j' [Hlt | [-> Hlt]]; [lia | apply Hfirst1, Hlt].
      * intros (k & -> & Hk & Hfirst). destruct k as [| k].
        -- cbn in Hk.
           assert (j = k1) as ->.
           { destruct (Nat.lt_trichotomy j k1) as [Hlt | [-> | Hlt]];
               [ | reflexivity | ].
             - rewrite (Hfirst1 j Hlt) in Hk. discriminate Hk.
             - specialize (Hfirst 0%nat k1 (or_intror (conj eq_refl Hlt))).
               cbn in Hfirst. congruence. }
           rewrite Nat.add_0_r. reflexivity.
        -- specialize (Hfirst 0%nat k1 (or_introl (Nat.lt_0_succ k))).
           cbn in Hfirst. congruence.
    + rewrite find_true_none in E. rewrite IH. split.
      * intros (k & -> & Hk & Hfirst). exists (S k). split; [lia |].
        split; [exact Hk |].
        intros [| i'] j' Hb; [apply E |]. apply Hfirst. lia.
      * intros (k & -> & Hk & Hfirst). destruct k as [| k].
        -- cbn in Hk. rewrite E in Hk. discriminate Hk.
        -- exists k. split; [lia |]. split; [exact Hk |].
           intros i' j' Hb. apply (Hfirst (S i') j'). lia.
Qed.

Lemma nth_error_combine A B (a : list A) : forall (b : list B) i,
  nth_error (combine a b) i =
  match nth_error a i, nth_error b i with
  | Some x, Some y => Some (x, y)
  | _, _ => None
  end.
Proof.
  induction a as [| x a IH]; intros [| y b] [| i]; cbn; try reflexivity.
  - destruct (nth_error a i); reflexivity.
  - apply IH.
Qed.

Lemma nth_map_error A B (f : A -> B) d (l : list A) : forall i,
  nth i (map f l) d = match nth_error l i with Some x => f x | None => d end.
Proof.
  induction l as [| x l IH]; intros [| i]; cbn; try reflexivity. apply IH.
Qed.

Lemma grid_map2 (f : float -> float -> bool) (a b : Flows.Array) i j :
  grid (map (fun rows => map (fun ab => f (fst ab) (snd ab))
                             (combine (fst rows) (snd rows)))
            (combine a b)) i j
  = match entry_at a i j, entry_at b i j with
    | Some x, Some y => f x y
    | _, _ => false
    end.
Proof.
  unfold grid, entry_at.
  rewrite nth_map_error with (d := []), nth_error_combine.
  destruct (nth_error a i) as [r |]; [ | destruct j; reflexivity].
  destruct (nth_error b i) as [r' |].
  - cbn [fst snd]. rewrite nth_map_error with (d := false), nth_error_combine.
    destruct (nth_error r j), (nth_error r' j); reflexivity.
  - destruct (nth_error r j); destruct j; reflexivity.
Qed.

Lemma grid_map1 (f : float -> bool) (b : Flows.Array) i j :
  grid (map (map f) b) i j
  = match entry_at b i j with Some y => f y | None => false end.
Proof.
  unfold grid, entry_at. rewrite nth_map_error with (d := []).
  destruct (nth_error b i) as [r |]; [ | destruct j; reflexivity].
  apply nth_map_error.
Qed.

Lemma first_place_ext (p q : nat -> nat -> bool) i j :
  (forall i j, p i j = q i j) -> first_place p i j -> first_place q i j.
Proof.
  intros E [H1 H2]. split; [rewrite <- E; exact H1 |].
  intros i' j' Hb. rewrite <- E. apply H2, Hb.
Qed.

Lemma fatal_at_none w a s :
  (forall i j, grid a i j = false) ->
  Flows.fatal_at w a s = Run (Return tt) s [].
Proof.
  intros H. unfold Flows.fatal_at.
  rewrite (proj2 (@first_where_none a 0) H). reflexivity.
Qed.

Lemma fatal_at_first w a s i j :
  first_place (grid a) i j ->
  Flows.fatal_at w a s = Run (SysExit 1) s [Log CRITICAL w [VNat i; VNat j]].
Proof.
  intros H. unfold Flows.fatal_at.
  rewrite (proj2 (@first_where_some a 0 i j)); [reflexivity |].
  exists i. split; [reflexivity | exact H].
Qed.

Lemma fatal_at_returns w a s :
  result (Flows.fatal_at w a s) = Return tt -> forall i j, grid a i j = false.
Proof.
  unfold Flows.fatal_at. destruct (Flows.first_where 0 a) as [[i j] |] eqn:E.
  - discriminate.
  - intros _. apply (proj1 (@first_where_none a 0)). exact E.
Qed.

(** X7.  On two arrays of the same shape [check_MinMaxFlows] returns
    [True], having logged nothing, exactly when no minimum flow is above
    its maximum and no maximum flow is below zero. *)
Theorem X7_MinMaxFlows_passes :
  forall s : Flows.Tables,
    same_shape (fst s) (snd s) ->
    (check_MinMaxFlows s = Run (Return true) s [] <->
     forall i j, min_above_max s i j = false /\ negative_max s i j = false).
Proof.
  intros [lo hi] _. unfold check_MinMaxFlows, Flows.check_MinMaxFlows.
  rewrite !bind_gets. cbn [fst snd]. split.
  - intros H.
    assert (Hr : result ((Flows.fatal_at flows_min_above_max
         (map (fun rows => map (fun ab => F64.gtb (fst ab) (snd ab))
                               (combine (fst rows) (snd rows)))
              (combine lo hi)) ;;
       Flows.fatal_at flows_negative_max
         (map (map (fun x => F64.ltb x Flows.zero)) hi) ;; ret true) (lo, hi))
       = Return true) by (rewrite H; reflexivity).
    apply bind_returns in Hr. destruct Hr as ([] & s1 & l1 & H1 & Hr & _).
    assert (s1 = (lo, hi)).
    { unfold Flows.fatal_at in H1.
      destruct (Flows.first_where 0 _) as [[? ?] |]; [discriminate H1 |].
      injection H1 as <- _. reflexivity. }
    subst s1.
    apply bind_returns in Hr. destruct Hr as ([] & s2 & l2 & H2 & _ & _).
    intros i j. split.
    + unfold min_above_max. cbn [fst snd]. rewrite <- grid_map2.
      eapply fatal_at_returns. rewrite H1. reflexivity.
    + unfold negative_max. cbn [fst snd].
      rewrite <- (grid_map1 (fun x => F64.ltb x Flows.zero)).
      eapply fatal_at_returns. rewrite H2. reflexivity.
  - intros H.
    erewrite bind_pure.
    2:{ apply fatal_at_none. intros i j. rewrite grid_map2. apply (H i j). }
    erewrite bind_pure.
    2:{ apply fatal_at_none. intros i j. rewrite grid_map1. apply (H i j). }
    reflexivity.
Qed.

(** X8.  A minimum flow above its maximum is fatal: one critical record
    with the coordinates of the first such entry in row-major order, and
    exit status 1. *)
Theorem X8_MinMaxFlows_min_above_max :
  forall (s : Flows.Tables) (i j : nat),
    same_shape (fst s) (snd s) ->
    first_place (min_above_max s) i j ->
    check_MinMaxFlows s =
    Run (SysExit 1) s [Log CRITICAL flows_min_above_max [VNat i; VNat j]].
Proof.
  intros [lo hi] i j _ H. unfold check_MinMaxFlows, Flows.check_MinMaxFlows.
  rewrite !bind_gets. cbn [fst snd]. apply bind_exit.
  apply fatal_at_first. revert H. apply first_place_ext.
  intros i' j'. rewrite grid_map2. reflexivity.
Qed.

(** X9.  When no minimum flow is above its maximum, a maximum flow
    below zero is fatal: one critical record with the coordinates of the
    first such entry in row-major order, and exit status 1. *)
Theorem X9_MinMaxFlows_negative_max :
  forall (s : Flows.Tables) (i j : nat),
    same_shape (fst s) (snd s) ->
    (forall i' j', min_above_max s i' j' = false) ->
    first_place (negative_max s) i j ->
    check_MinMaxFlows s =
    Run (SysExit 1) s [Log CRITICAL flows_negative_max [VNat i; VNat j]].
Proof.
  intros [lo hi] i j _ Hmin H. unfold check_MinMaxFlows, Flows.check_MinMaxFlows.
  rewrite !bind_gets. cbn [fst snd].
  erewrite bind_pure.
  2:{ apply fatal_at_none. intros i' j'. rewrite grid_map2. apply (Hmin i' j'). }
  apply bind_exit.
  apply fatal_at_first. revert H. apply first_place_ext.
  intros i' j'. rewrite grid_map1. reflexivity.
Qed.

(** ** [check_sto] *)

Lemma unitname_runs (sel : DataFrame -> DataFrame) plants u :
  sel plants = plants -> aligned plants -> In u (index plants) ->
  exists n, unitname sel u plants = Run (Return n) plants [].
Proof.
  intros Hsel Ha Hu. unfold unitname, contains, loc. rewrite bind_gets, Hsel.
  unfold has_column. destruct (column plants "Unit") as [cs |] eqn:Ec.
  - destruct (@cell_at_in plants "Unit" cs u Ha Ec Hu) as (c & Hc & _).
    exists (VCell c). erewrite bind_lookup by (rewrite Hsel; exact Hc).
    reflexivity.
  - exists (VRepr u). reflexivity.
Qed.

Section StoFacts.
Variable config : Config.
Variable raw_data : bool.
Variable plants : DataFrame.

Lemma sto_keys_run :
  for_ (Sto.keys raw_data) (fun key =>
    b <- contains Sto.self key ;;
    when (negb b)
      (logging CRITICAL sto_missing_field [VStr key] ;; sys_exit 1)) plants
  = match first_missing plants (Sto.keys raw_data) with
    | Some k => Run (SysExit 1) plants [Log CRITICAL sto_missing_field [VStr k]]
    | None => Run (Return tt) plants []
    end.
Proof.
  unfold first_missing.
  apply for_find with (lg := fun k => [Log CRITICAL sto_missing_field [VStr k]]).
  intros k. unfold contains. rewrite bind_gets. unfold Sto.self.
  destruct (has_column plants k); reflexivity.
Qed.

Lemma sto_prefix :
  (b <- contains Sto.self "StorageInitial" ;;
   when b (logging WARNING sto_deprecated [])) plants
  = Run (Return tt) plants (deprecation plants).
Proof.
  unfold contains, deprecation. rewrite bind_gets. unfold Sto.self.
  destruct (has_column plants "StorageInitial"); reflexivity.
Qed.

Lemma check_sto_missing k :
  first_missing plants (Sto.keys raw_data) = Some k ->
  check_sto config raw_data plants =
  Run (SysExit 1) plants
      (deprecation plants ++ [Log CRITICAL sto_missing_field [VStr k]]).
Proof.
  intros Hk. unfold check_sto, Sto.check_sto.
  rewrite <- bind_assoc. erewrite bind_return by apply sto_prefix.
  erewrite bind_exit by (rewrite sto_keys_run, Hk; reflexivity).
  reflexivity.
Qed.

Lemma sto_row_number key u c :
  aligned plants -> In u (index plants) ->
  cell_at plants u key = Some c ->
  (sto_row key u plants = Run (Return tt) plants [] <-> number c = true) /\
  (result (sto_row key u plants) = Return tt -> number c = true).
Proof.
  intros Ha Hu Hc. unfold sto_row.
  destruct (@unitname_runs Sto.self plants u eq_refl Ha Hu) as (n & Hn).
  erewrite bind_pure by exact Hn.
  unfold loc. erewrite bind_lookup by exact Hc.
  destruct c as [x | t]; cbn [is_str number].
  - unfold when at 1. rewrite bind_ret. cbn [np_isnan]. rewrite bind_ret.
    destruct (F64.isnan x); cbn [when negb].
    + unfold concat. destruct (is_text n).
      * rewrite bind_ret, bind_logging. cbn. split; [split |]; discriminate.
      * cbn. split; [split |]; discriminate.
    + cbn. split; [split |]; reflexivity.
  - unfold when at 1. rewrite bind_assoc, bind_logging. cbn.
    split; [split |]; discriminate.
Qed.
End StoFacts.

Lemma readonly_sto_row key u : readonly (sto_row key u).
Proof. readonly_tac. Qed.

Lemma sto_rows_run plants key cs :
  aligned plants -> NoDup (index plants) -> column plants key = Some cs ->
  (forallb number cs = true ->
   for_ (index plants) (sto_row key) plants = Run (Return tt) plants []) /\
  (result (for_ (index plants) (sto_row key) plants) = Return tt ->
   forallb number cs = true).
Proof.
  intros Ha Hnd Hc. split.
  - intros H. rewrite forallb_forall in H. apply for_pass. intros u Hu.
    destruct (@cell_at_in plants key cs u Ha Hc Hu) as (c & Hcell & Hin).
    apply (proj1 (@sto_row_number plants key u c Ha Hu Hcell)), H, Hin.
  - intros Hr. apply forallb_forall. intros c Hin.
    destruct (@cell_at_all plants key cs c Ha Hnd Hc Hin) as (u & Hu & Hcell).
    apply (proj2 (@sto_row_number plants key u c Ha Hu Hcell)).
    eapply for_returns; [apply readonly_sto_row | exact Hr | exact Hu].
Qed.

Lemma check_sto_run config raw_data plants :
  aligned plants -> NoDup (index plants) ->
  first_missing plants (Sto.keys raw_data) = None ->
  if forallb (numeric_column plants) (Sto.NonNaNKeys raw_data)
  then check_sto config raw_data plants =
       Run (Return true) plants (deprecation plants)
  else forall b, result (check_sto config raw_data plants) <> Return b.
Proof.
  intros Ha Hnd Hk. unfold check_sto, Sto.check_sto.
  assert (Hcap : exists cs k, Sto.NonNaNKeys raw_data = [k] /\
                              column plants k = Some cs).
  { apply first_missing_none in Hk. rewrite forallb_forall in Hk.
    destruct raw_data; cbn in Hk |- *.
    - specialize (Hk "STOCapacity" (or_introl eq_refl)). unfold has_column in Hk.
      destruct (column plants "STOCapacity") as [cs |] eqn:E; [ | discriminate].
      exists cs, "STOCapacity". auto.
    - specialize (Hk "StorageCapacity" (or_introl eq_refl)).
      unfold has_column in Hk.
      destruct (column plants "StorageCapacity") as [cs |] eqn:E;
        [ | discriminate].
      exists cs, "StorageCapacity". auto. }
  destruct Hcap as (cs & k & -> & Hc).
  destruct (@sto_rows_run plants k cs Ha Hnd Hc) as [Hpass Hret].
  cbn [forallb]. unfold numeric_column. rewrite Hc, andb_true_r.
  destruct (forallb number cs) eqn:E.
  - rewrite <- bind_assoc. erewrite bind_return by apply sto_prefix.
    erewrite bind_pure by (rewrite sto_keys_run, Hk; reflexivity).
    cbn [for_]. unfold get_index. rewrite !bind_assoc, bind_gets.
    erewrite bind_pure by (apply Hpass; reflexivity).
    rewrite !bind_ret. unfold after. cbn. rewrite app_nil_r. reflexivity.
  - intros b Hr.
    rewrite <- bind_assoc in Hr. erewrite bind_return in Hr by apply sto_prefix.
    rewrite result_after in Hr.
    erewrite bind_pure in Hr by (rewrite sto_keys_run, Hk; reflexivity).
    cbn [for_] in Hr. unfold get_index in Hr.
    rewrite !bind_assoc, bind_gets in Hr.
    assert (Hro : readonly (for_ (index (Sto.self plants)) (sto_row k)))
      by (apply readonly_for; intro; apply readonly_sto_row).
    destruct (@bind_returns_ro _ _ _ _ _ _ _ Hro Hr) as ([] & l & Hrun & _).
    unfold Sto.self in Hrun.
    assert (false = true) by (apply Hret; rewrite Hrun; reflexivity).
    discriminate.
Qed.

(** X10.  On a table whose columns are as long as its index, under distinct
    row labels, [check_sto] returns [True] exactly when the four storage
    columns are there and the capacity column holds numbers only; it then
    has logged nothing but, possibly, the deprecation warning. *)
(** X10.  On a table whose columns are as long as its index, under distinct
    row labels, [check_sto] returns [True] exactly when the four storage
    columns are there and the capacity column holds numbers only; it then
    has logged nothing but, possibly, the deprecation warning. *)
Theorem X10_sto_passes :
  forall (config : Config) (raw_data : bool) (plants : DataFrame),
    aligned plants -> NoDup (index plants) ->
    ((exists b, result (check_sto config raw_data plants) = Return b)
     <-> forallb (has_column plants) (Sto.keys raw_data) &&
         forallb (numeric_column plants) (Sto.NonNaNKeys raw_data) = true) /\
    ((exists b, result (check_sto config raw_data plants) = Return b) ->
     check_sto config raw_data plants =
     Run (Return true) plants (deprecation plants)).
Proof.
  intros config raw_data plants Ha Hnd.
  destruct (first_missing plants (Sto.keys raw_data)) as [k |] eqn:Ek.
  - rewrite (@check_sto_missing config raw_data plants k Ek).
    assert (forallb (has_column plants) (Sto.keys raw_data) = false) as ->.
    { destruct (forallb (has_column plants) (Sto.keys raw_data)) eqn:E;
        [ | reflexivity].
      apply first_missing_none in E. congruence. }
    cbn. split; [split |]; [intros [b H] | | intros [b H]]; discriminate.
  - pose proof (@check_sto_run config raw_data plants Ha Hnd Ek) as H.
    rewrite (proj1 (first_missing_none _ _) Ek). cbn [andb].
    destruct (forallb (numeric_column plants) (Sto.NonNaNKeys raw_data)).
    + rewrite H. cbn. split; [split |]; eauto.
    + split; [split |].
      * intros [b Hb]. destruct (H b Hb).
      * discriminate.
      * intros [b Hb]. destruct (H b Hb).
Qed.

(** X11.  A storage column that is missing is fatal: after the
    deprecation warning, if any, one critical record names the first of
    the four columns that is missing, and the exit status is 1. *)
Theorem X11_sto_missing_column :
  forall (config : Config) (raw_data : bool) (plants : DataFrame)
         (k : string),
    first_missing plants (Sto.keys raw_data) = Some k ->
    check_sto config raw_data plants =
    Run (SysExit 1) plants
        (deprecation plants ++ [Log CRITICAL sto_missing_field [VStr k]]).
Proof.
  intros config raw_data plants k Hk. apply check_sto_missing. exact Hk.
Qed.

(** ** [check_chp] *)

Lemma chp_keys_run plants :
  CHP.check_keys plants
  = match first_missing plants CHP.keys with
    | Some k => Run (SysExit 1) plants [Log CRITICAL chp_missing_field [VStr k]]
    | None => Run (Return tt) plants []
    end.
Proof.
  unfold first_missing, CHP.check_keys.
  apply for_find with (lg := fun k => [Log CRITICAL chp_missing_field [VStr k]]).
  intros k. unfold contains. rewrite bind_gets. unfold CHP.self.
  destruct (has_column plants k); reflexivity.
Qed.

(** X12.  A table without one of the columns [CHPType], [CHPPowerToHeat]
    and [CHPPowerLossFactor] is fatal for [check_chp]: one critical record
    names the first of them that is missing, and the exit status is 1. *)
Theorem X12_chp_missing_column :
  forall (config : Config) (plants : DataFrame) (k : string),
    first_missing plants CHP.keys = Some k ->
    check_chp config plants =
    Run (SysExit 1) plants [Log CRITICAL chp_missing_field [VStr k]].
Proof.
  intros config plants k Hk. unfold check_chp, CHP.check_chp.
  apply bind_exit. rewrite chp_keys_run, Hk. reflexivity.
Qed.

(** X13.  On a table without rows that has the three mandatory columns
    [check_chp] returns [True] and logs nothing; no other column is
    asked for. *)
Theorem X13_chp_no_unit :
  forall (config : Config) (plants : DataFrame),
    index plants = [] ->
    forallb (has_column plants) CHP.keys = true ->
    check_chp config plants = Run (Return true) plants [].
Proof.
  intros config plants Hidx Hk. unfold check_chp, CHP.check_chp.
  erewrite bind_pure
    by (rewrite chp_keys_run, (proj2 (first_missing_none _ _) Hk); reflexivity).
  cbv [CHP.check_numeric CHP.check_text CHP.NonNaNKeys CHP.StrKeys get_index
       contains CHP.self].
  repeat first [ rewrite bind_assoc | rewrite bind_gets | rewrite bind_ret
               | rewrite Hidx | progress cbn [for_ for_acc]
               | match goal with
                 | |- context [when ?b _] => destruct b; unfold when at 1
                 end ];
    reflexivity.
Qed.

(** X14.  Whatever the table, [check_chp] never logs the record of the
    range test on [CHPPowerToHeat] (line 198): the test [0 > x > 10] of
    line 197 holds for no number. *)
Theorem X14_chp_never_powertoheat_range :
  forall (config : Config) (plants : DataFrame),
    ~ In chp_powertoheat_range (map at_site (logged (check_chp config plants))).
Proof.
  intros config plants Hin. apply in_map_iff in Hin.
  destruct Hin as (e & He & Hin).
  assert (H : logs_only (fun e => at_site e <> chp_powertoheat_range)
                        (check_chp config)).
  { unfold check_chp.
    repeat logs_case; try (cbn; discriminate).
    all: exfalso.
    all: match goal with
         | H : F64.gtb CHP.zero ?x && F64.gtb ?x CHP.ten = true |- _ =>
             unfold CHP.zero, CHP.ten in H;
             rewrite chained_gt_false in H by lia; discriminate H
         end. }
  specialize (H plants). rewrite Forall_forall in H. exact (H e Hin He).
Qed.

(** X15.  The columns [PowerCapacity] and [CHPMaxHeat] are read for every
    unit (lines 189-190) though their presence is not checked: on a table
    with at least one row that lacks one of them, [check_chp] never
    returns. *)
Theorem X15_chp_needs_MaxHeat_column :
  forall (config : Config) (plants : DataFrame) (b : bool),
    index plants <> [] ->
    has_column plants "PowerCapacity" && has_column plants "CHPMaxHeat" = false ->
    result (check_chp config plants) <> Return b.
Proof.
  intros config plants b Hidx Hcol Hr. unfold check_chp, CHP.check_chp in Hr.
  assert (R1 : readonly CHP.check_keys) by readonly_tac.
  assert (R2 : readonly CHP.check_numeric) by readonly_tac.
  assert (R3 : readonly CHP.check_text) by readonly_tac.
  destruct (@bind_returns_ro _ _ _ _ _ _ _ R1 Hr) as (? & l1 & _ & Hr1 & _).
  destruct (@bind_returns_ro _ _ _ _ _ _ _ R2 Hr1) as (? & l2 & _ & Hr2 & _).
  destruct (@bind_returns_ro _ _ _ _ _ _ _ R3 Hr2) as (? & l3 & _ & Hr3 & _).
  clear Hr Hr1 Hr2. unfold get_index in Hr3. rewrite bind_gets in Hr3.
  unfold CHP.self at 1 in Hr3.
  destruct (index plants) as [| u idx]; [congruence |].
  apply bind_returns in Hr3. destruct Hr3 as (name & s' & l & Hloop & _).
  assert (Hloop' : result (for_acc (u :: idx) None
              (fun (_ : option pyval) u => n <- CHP.check_unit u ;; ret (Some n))
              plants) = Return name) by (rewrite Hloop; reflexivity).
  cbn [for_acc] in Hloop'. rewrite bind_assoc in Hloop'.
  unfold CHP.check_unit in Hloop'. rewrite !bind_assoc in Hloop'.
  assert (Rn : readonly (unitname CHP.self u)) by readonly_tac.
  destruct (@bind_returns_ro _ _ _ _ _ _ _ Rn Hloop') as (n & ln & _ & H1 & _).
  cbv beta in H1. unfold loc in H1. rewrite !bind_assoc in H1.
  unfold has_column in Hcol.
  destruct (column plants "PowerCapacity") as [pc |] eqn:Epc.
  - destruct (cell_at plants u "PowerCapacity") as [c |] eqn:Ec.
    + erewrite bind_lookup in H1 by exact Ec. cbv beta in H1.
      rewrite !bind_assoc in H1.
      erewrite bind_lookup_none in H1; [discriminate H1 |].
      unfold cell_at, CHP.self.
      destruct (column plants "CHPMaxHeat"); [discriminate | reflexivity].
    + erewrite bind_lookup_none in H1; [discriminate H1 | exact Ec].
  - erewrite bind_lookup_none in H1; [discriminate H1 |].
    unfold cell_at, CHP.self. rewrite Epc. reflexivity.
Qed.

Lemma nan_efficiency P lf eta :
  CHP.TotalEfficiency P F64.nan (CHP.Fuel P lf F64.nan eta) = F64.nan.
Proof.
  unfold CHP.TotalEfficiency, CHP.Fuel, F64.div, F64.add, F64.mul, F64.nan.
  assert (E1 : SFmul F64.prec F64.emax lf S754_nan = S754_nan)
    by (destruct lf as [[|] | [|] | | [|] m e]; reflexivity).
  rewrite E1.
  assert (E2 : SFadd F64.prec F64.emax P S754_nan = S754_nan)
    by (destruct P as [[|] | [|] | | [|] m e]; reflexivity).
  rewrite E2. reflexivity.
Qed.

(** X16.  In a table with distinct row labels, for a [back-pressure]
    unit without [CHPMaxHeat] (and with a loss factor of zero) the total
    efficiency is not a number and passes both tests on it: the loop body
    of [check_chp] (lines 185-225) logs the debug record of the efficiency
    and nothing else. *)
Theorem X16_chp_backpressure_without_MaxHeat :
  forall (plants : DataFrame) (u : Label) (name : Cell) (type : string)
         (P r lf eta : float),
    NoDup (index plants) ->
    cell_at plants u "Unit" = Some name ->
    cell_at plants u "PowerCapacity" = Some (CNum P) ->
    cell_at plants u "CHPMaxHeat" = Some (CNum F64.nan) ->
    cell_at plants u "CHPPowerToHeat" = Some (CNum r) ->
    cell_at plants u "CHPPowerLossFactor" = Some (CNum lf) ->
    cell_at plants u "CHPType" = Some (CStr type) ->
    cell_at plants u "Efficiency" = Some (CNum eta) ->
    lower type = "back-pressure" ->
    F64.eqb lf CHP.zero = true ->
    CHP.check_unit u plants =
    Run (Return (VCell name)) plants
        [Log DEBUG chp_efficiency [VLabel u; VFloat F64.nan]].
Proof.
  intros plants u name type P r lf eta _ HU HP HH HR HL HT HE Htype Hlf.
  unfold CHP.check_unit, unitname, contains, loc, CHP.self.
  repeat step. rewrite (cell_at_has_column _ _ _ HU).
  repeat step. unfold lower_of. repeat step. rewrite Htype.
  change (negb (mem_string "back-pressure" CHP.types)) with false.
  change ("back-pressure" =? "p2h") with false.
  change ("back-pressure" =? "back-pressure") with true.
  change ("back-pressure" =? "extraction") with false.
  unfold when at 1. repeat step.
  unfold num at 1. repeat step.
  unfold CHP.zero, CHP.ten. rewrite chained_gt_false by lia.
  unfold when at 1. repeat step.
  unfold num at 1. repeat step.
  unfold CHP.one. rewrite chained_gt_false by lia.
  cbn [andb negb].
  unfold when at 1. repeat step.
  unfold F64.neb. fold CHP.zero. rewrite Hlf. cbn [negb].
  unfold when at 1. repeat step.
  unfold when at 1. unfold num at 1. repeat step.
  unfold num at 1. repeat step. unfold num at 1. repeat step.
  rewrite nan_efficiency.
  change (F64.ltb F64.nan (F64.of_Z 0) || F64.gtb F64.nan CHP.c1_14) with false.
  change (F64.gtb F64.nan CHP.c0_95) with false.
  unfold when. repeat step. reflexivity.
Qed.

(** X17.  The fatal messages of lines 195 and 204 put the row label [u]
    itself between texts.  In a table with distinct row labels, under a
    row label that is no text (the default index), a unit of an unknown
    CHP type, or a [back-pressure] unit with a loss factor other than
    zero, ends the loop body of [check_chp] in [TypeError], with nothing
    logged and the process not ended. *)
Theorem X17_chp_fatal_message_needs_text_label :
  forall (plants : DataFrame) (u : Label) (name MaxHeat PowerCapacity : Cell)
         (type : string) (r lf : float),
    NoDup (index plants) ->
    is_text (VLabel u) = false ->
    cell_at plants u "Unit" = Some name ->
    cell_at plants u "PowerCapacity" = Some PowerCapacity ->
    cell_at plants u "CHPMaxHeat" = Some MaxHeat ->
    cell_at plants u "CHPPowerToHeat" = Some (CNum r) ->
    cell_at plants u "CHPPowerLossFactor" = Some (CNum lf) ->
    cell_at plants u "CHPType" = Some (CStr type) ->
    mem_string (lower type) CHP.types = false \/
    (lower type = "back-pressure" /\ F64.neb lf CHP.zero = true) ->
    CHP.check_unit u plants = Run (Raise TypeError) plants [].
Proof.
  intros plants u name MaxHeat PowerCapacity type r lf _ Hu HU HP HH HR HL HT
         Hbad.
  unfold CHP.check_unit, unitname, contains, loc, CHP.self.
  repeat step. rewrite (cell_at_has_column _ _ _ HU).
  repeat step. unfold lower_of. repeat step.
  destruct Hbad as [Hbad | [Htype Hlf]].
  - rewrite Hbad. cbn [negb]. unfold when at 1, concat. rewrite Hu. reflexivity.
  - rewrite Htype.
    change (negb (mem_string "back-pressure" CHP.types)) with false.
    change ("back-pressure" =? "p2h") with false.
    change ("back-pressure" =? "back-pressure") with true.
    unfold when at 1. repeat step.
    unfold num at 1. repeat step.
    unfold CHP.zero, CHP.ten. rewrite chained_gt_false by lia.
    unfold when at 1. repeat step.
    unfold num at 1. repeat step.
    unfold CHP.one. rewrite chained_gt_false by lia.
    cbn [andb negb].
    unfold when at 1. repeat step.
    fold CHP.zero. rewrite Hlf.
    unfold when at 1, concat. rewrite Hu. reflexivity.
Qed.

Lemma unitname_run plants u :
  unitname CHP.self u plants =
  match name_of plants u with
  | Some n => Run (Return n) plants []
  | None => Run (Raise KeyError) plants []
  end.
Proof.
  unfold unitname, name_of, contains, loc, CHP.self. rewrite bind_gets.
  destruct (has_column plants "Unit"); [ | reflexivity].
  destruct (cell_at plants u "Unit") as [c |] eqn:E.
  - erewrite bind_lookup by exact E. reflexivity.
  - erewrite bind_lookup_none by exact E. reflexivity.
Qed.

Lemma check_unit_name plants u n :
  result (CHP.check_unit u plants) = Return n -> name_of plants u = Some n.
Proof.
  unfold CHP.check_unit. intros Hr.
  pose proof (unitname_run plants u) as Hn.
  destruct (name_of plants u) as [n0 |].
  - erewrite bind_pure in Hr by exact Hn. cbv beta in Hr. f_equal. symmetry.
    match type of Hr with
    | result (?m plants) = _ =>
        assert (H : returns_only n0 m)
          by (repeat (apply returns_only_bind; intro); apply returns_only_ret)
    end.
    exact (H plants n Hr).
  - erewrite bind_raise in Hr by exact Hn. discriminate Hr.
Qed.

Lemma readonly_chp_body v u : readonly (chp_body v u).
Proof. readonly_tac. Qed.

(** The variable [unitname] after the efficiency loop: the name of the
    last unit. *)
Lemma for_acc_last plants : forall xs v r,
  result (for_acc xs v chp_body plants) = Return r ->
  (xs = [] /\ r = v) \/
  exists xs' u n, xs = xs' ++ [u] /\ r = Some n /\ name_of plants u = Some n.
Proof.
  induction xs as [| x xs IH]; intros v r Hr; cbn [for_acc] in Hr.
  - left. injection Hr as <-. auto.
  - right.
    destruct (@bind_returns_ro _ _ _ _ _ _ _ (readonly_chp_body v x) Hr)
      as (v' & l & Hx & Hr' & _).
    assert (Hv : exists n, v' = Some n /\ name_of plants x = Some n).
    { unfold chp_body in Hx.
      assert (Hx' : result ((n <- CHP.check_unit x ;; ret (Some n)) plants)
                    = Return v') by (rewrite Hx; reflexivity).
      apply bind_returns in Hx'. destruct Hx' as (n & s' & l' & Hu & Hret & _).
      injection Hret as <-. exists n. split; [reflexivity |].
      apply check_unit_name. rewrite Hu. reflexivity. }
    destruct Hv as (n & -> & Hn).
    destruct (IH _ _ Hr') as [[-> ->] | (xs' & u & n' & -> & -> & Hn')].
    + exists [], x, n. auto.
    + exists (x :: xs'), u, n'. auto.
Qed.

Lemma logs_stale B name (f : pyval -> M DataFrame B) :
  (forall n, name = Some n -> logs_only (carries name) (f n)) ->
  logs_only (carries name) (bind (CHP.stale name) f).
Proof.
  intros Hf s. unfold bind, CHP.stale. destruct name as [n |].
  - unfold concat. destruct (is_text n); cbn; [ | constructor].
    specialize (Hf n eq_refl s). destruct (f n s). exact Hf.
  - cbn. constructor.
Qed.

Lemma chp_storage_names name :
  logs_only (carries name)
    (b <- contains CHP.self "CHPMaxHeat" ;;
     when b (idx <- get_index CHP.self ;; for_ idx CHP.check_MaxHeat) ;;
     b <- contains CHP.self "STOCapacity" ;;
     when b (idx <- get_index CHP.self ;;
             for_ idx (CHP.check_STOCapacity name)) ;;
     b <- contains CHP.self "STOSelfDischarge" ;;
     when b (idx <- get_index CHP.self ;;
             for_ idx (CHP.check_STOSelfDischarge name)) ;;
     ret true).
Proof.
  repeat first
    [ apply logs_stale; intros ? ?
    | logs_step ];
    try (intros Hs; discriminate Hs).
  all: intros _; eexists; split; [eassumption | reflexivity].
Qed.

Lemma chp_before_storage :
  logs_only (fun e => storage_site (at_site e) = false) CHP.check_keys /\
  logs_only (fun e => storage_site (at_site e) = false) CHP.check_numeric /\
  logs_only (fun e => storage_site (at_site e) = false) CHP.check_text /\
  forall xs v, logs_only (fun e => storage_site (at_site e) = false)
                         (for_acc xs v chp_body).
Proof.
  repeat split; intros; repeat logs_step; reflexivity.
Qed.

(** X18.  The checks on the heat storage (lines 234-251) name the unit
    by the variable [unitname], which the loops before them have left at
    the name of the last unit: in a table with distinct row labels, every
    record of these checks starts with the name of the last row of the
    table, whichever unit it is about. *)
Theorem X18_chp_storage_records_name_the_last_unit :
  forall (config : Config) (plants : DataFrame) (e : entry),
    NoDup (index plants) ->
    In e (logged (check_chp config plants)) ->
    storage_site (at_site e) = true ->
    exists idx u n,
      index plants = idx ++ [u] /\ name_of plants u = Some n /\
      hd_error (args e) = Some n.
Proof.
  intros config plants e _ Hin Hsite.
  destruct chp_before_storage as (L1 & L2 & L3 & L4).
  assert (R1 : readonly CHP.check_keys) by readonly_tac.
  assert (R2 : readonly CHP.check_numeric) by readonly_tac.
  assert (R3 : readonly CHP.check_text) by readonly_tac.
  assert (H : Forall (fun e => storage_site (at_site e) = true ->
                exists idx u n,
                  index plants = idx ++ [u] /\ name_of plants u = Some n /\
                  hd_error (args e) = Some n)
               (logged (check_chp config plants))).
  { unfold check_chp, CHP.check_chp.
    apply logs_bind_at; [exact R1 | | intros _ _].
    { eapply Forall_impl; [ | apply L1]. cbn. intros; congruence. }
    apply logs_bind_at; [exact R2 | | intros _ _].
    { eapply Forall_impl; [ | apply L2]. cbn. intros; congruence. }
    apply logs_bind_at; [exact R3 | | intros _ _].
    { eapply Forall_impl; [ | apply L3]. cbn. intros; congruence. }
    unfold get_index. rewrite bind_gets. unfold CHP.self at 1.
    change (fun (_ : option pyval) (u : Label) =>
              n <- CHP.check_unit u ;; ret (Some n)) with chp_body.
    apply logs_bind_at.
    - apply readonly_for_acc. intros. apply readonly_chp_body.
    - eapply Forall_impl; [ | apply L4]. cbn. intros; congruence.
    - intros name Hname.
      eapply Forall_impl; [ | apply (chp_storage_names name plants)].
      intros e' He' Hs. destruct (He' Hs) as (n & -> & Hhd).
      destruct (for_acc_last _ _ _ Hname) as [[_ [=]] | (idx & u & n' & Hidx & [= <-] & Hn)].
      exists idx, u, n. auto. }
  rewrite Forall_forall in H. exact (H e Hin Hsite).
Qed.

(** ** [check_units] *)

Lemma units_keys_run plants ks :
  Units.check_keys ks plants
  = match first_missing plants ks with
    | Some k => Run (SysExit 1) plants [Log CRITICAL units_missing_field [VStr k]]
    | None => Run (Return tt) plants []
    end.
Proof.
  unfold first_missing, Units.check_keys.
  apply for_find with (lg := fun k => [Log CRITICAL units_missing_field [VStr k]]).
  intros k. unfold contains. rewrite bind_gets. unfold Units.self.
  destruct (has_column plants k); reflexivity.
Qed.

Lemma numeric_row_run plants key u c :
  cell_at plants u key = Some c ->
  if number c then numeric_row key u plants = Run (Return tt) plants []
  else result (numeric_row key u plants) <> Return tt.
Proof.
  intros Hc. unfold numeric_row, loc. erewrite bind_lookup by exact Hc.
  destruct c as [x | t]; cbn [number is_str].
  - unfold when at 1. rewrite bind_ret. cbn [np_isnan]. rewrite bind_ret.
    destruct (F64.isnan x); cbn; [discriminate | reflexivity].
  - cbn. discriminate.
Qed.

Lemma numeric_row_none plants key u :
  cell_at plants u key = None -> result (numeric_row key u plants) <> Return tt.
Proof.
  intros Hc. unfold numeric_row, loc. erewrite bind_lookup_none by exact Hc.
  discriminate.
Qed.

Lemma text_row_run plants key u c :
  cell_at plants u key = Some c ->
  if text c then text_row key u plants = Run (Return tt) plants []
  else result (text_row key u plants) <> Return tt.
Proof.
  intros Hc. unfold text_row, loc. erewrite bind_lookup by exact Hc.
  destruct c as [x | [| a t]]; cbn; try discriminate. reflexivity.
Qed.

Lemma text_row_none plants key u :
  cell_at plants u key = None -> result (text_row key u plants) <> Return tt.
Proof.
  intros Hc. unfold text_row, loc. erewrite bind_lookup_none by exact Hc.
  discriminate.
Qed.

Lemma readonly_numeric_row key u : readonly (numeric_row key u).
Proof. readonly_tac. Qed.

Lemma readonly_text_row key u : readonly (text_row key u).
Proof. readonly_tac. Qed.

Section UnitsTable.
Variable float_of_text : string -> option float.
Variable config : Config.
Variable plants : DataFrame.
Hypothesis Haligned : aligned plants.
Hypothesis Hnodup : NoDup (index plants).

Lemma check_numeric_run ks :
  (forall k, In k ks -> index plants = [] \/ numeric_column plants k = true) ->
  Units.check_numeric ks plants = Run (Return tt) plants [].
Proof.
  intros H. apply for_pass. intros k Hk.
  unfold get_index. rewrite bind_gets. unfold Units.self at 1.
  destruct (H k Hk) as [Hidx | Hnum].
  - rewrite Hidx. reflexivity.
  - unfold numeric_column in Hnum.
    destruct (column plants k) as [cs |] eqn:Hc; [ | discriminate].
    apply (@rows_pass plants k number (numeric_row k) Haligned) with (cs := cs);
      [ | exact Hc | exact Hnum].
    intros u c _ Hcell. apply numeric_row_run. exact Hcell.
Qed.

Lemma check_numeric_returns ks :
  result (Units.check_numeric ks plants) = Return tt ->
  forall k, In k ks -> index plants = [] \/ numeric_column plants k = true.
Proof.
  intros Hr k Hk.
  destruct (nil_or_not (index plants)) as [Hidx | Hidx]; [left; exact Hidx | right].
  assert (Hkey : result (for_ (index plants) (numeric_row k) plants) = Return tt).
  { unfold Units.check_numeric in Hr.
    eapply for_returns with (x := k) in Hr; [ | | exact Hk].
    - unfold get_index in Hr. rewrite bind_gets in Hr. exact Hr.
    - intros key. readonly_tac. }
  destruct (@rows_return plants k number (numeric_row k) Haligned Hnodup
              (readonly_numeric_row k)) as (cs & Hc & Hall).
  - intros u c _ Hcell. apply numeric_row_run. exact Hcell.
  - intros u. apply numeric_row_none.
  - exact Hidx.
  - exact Hkey.
  - unfold numeric_column. rewrite Hc. exact Hall.
Qed.

Lemma check_text_run :
  (forall k, In k Units.StrKeys -> text_column plants k = true) ->
  Units.check_text plants = Run (Return tt) plants [].
Proof.
  intros H. apply for_pass. intros k Hk.
  unfold get_index. rewrite bind_gets. unfold Units.self at 1.
  specialize (H k Hk). unfold text_column in H.
  destruct (column plants k) as [cs |] eqn:Hc; [ | discriminate].
  apply (@rows_pass plants k text (text_row k) Haligned) with (cs := cs);
    [ | exact Hc | exact H].
  intros u c _ Hcell. apply text_row_run. exact Hcell.
Qed.

Lemma check_text_returns :
  (forall k, In k Units.StrKeys -> has_column plants k = true) ->
  result (Units.check_text plants) = Return tt ->
  forall k, In k Units.StrKeys -> text_column plants k = true.
Proof.
  intros Hcols Hr k Hk.
  assert (Hkey : result (for_ (index plants) (text_row k) plants) = Return tt).
  { unfold Units.check_text in Hr.
    eapply for_returns with (x := k) in Hr; [ | | exact Hk].
    - unfold get_index in Hr. rewrite bind_gets in Hr. exact Hr.
    - intros key. readonly_tac. }
  specialize (Hcols k Hk). unfold has_column in Hcols. unfold text_column.
  destruct (column plants k) as [cs |] eqn:Hc; [ | discriminate].
  destruct (nil_or_not (index plants)) as [Hidx | Hidx].
  - rewrite (@aligned_empty plants k cs Haligned Hidx Hc). reflexivity.
  - destruct (@rows_return plants k text (text_row k) Haligned Hnodup
                (readonly_text_row k)) as (cs' & Hc' & Hall).
    + intros u c _ Hcell. apply text_row_run. exact Hcell.
    + intros u. apply text_row_none.
    + exact Hidx.
    + exact Hkey.
    + congruence.
Qed.
End UnitsTable.

Lemma map_M_num_returns S (s : S) : forall (col : list Cell) xs,
  result (map_M num col s) = Return xs -> col = map CNum xs.
Proof.
  induction col as [| c col IH]; intros xs Hr; cbn [map_M] in Hr.
  - injection Hr as <-. reflexivity.
  - destruct c as [x | t]; [ | discriminate Hr].
    cbn [num] in Hr. rewrite bind_ret in Hr.
    apply bind_returns in Hr. destruct Hr as (ys & s' & l & Hm & Hr & _).
    injection Hr as <-.
    assert (Hs : s' = s).
    { assert (R : readonly (map_M (@num S) col))
        by (apply readonly_map_M; intros []; [apply readonly_ret | apply readonly_raise]).
      generalize (R s). rewrite Hm. auto. }
    subst s'. cbn [map]. f_equal. apply IH. rewrite Hm. reflexivity.
Qed.

Lemma map_M_num_run S (s : S) xs :
  map_M num (map CNum xs) s = Run (Return xs) s [].
Proof.
  induction xs as [| x xs IH]; cbn [map map_M]; [reflexivity |].
  cbn [num]. rewrite bind_ret. erewrite bind_pure by exact IH. reflexivity.
Qed.

Lemma existsb_map_false A (test : A -> bool) xs :
  existsb (fun b : bool => b) (map test xs) = false <->
  forall x, In x xs -> test x = false.
Proof.
  induction xs as [| y xs IH]; cbn; [tauto |].
  destruct (test y) eqn:E; cbn.
  - split; [discriminate |]. intros H. rewrite <- E. apply H. left. reflexivity.
  - rewrite IH. split.
    + intros H x [<- | Hin]; [exact E | apply H, Hin].
    + intros H x Hin. apply H. right. exact Hin.
Qed.

Lemma check_range_returns w extra key test plants :
  result (Units.check_range w extra key test plants) = Return tt ->
  within plants key test.
Proof.
  unfold Units.check_range, Units.where_, getitem. intros Hr.
  rewrite !bind_assoc in Hr.
  destruct (column (Units.self plants) key) as [col |] eqn:Ec.
  2:{ erewrite bind_lookup_none in Hr by exact Ec. discriminate Hr. }
  erewrite bind_lookup in Hr by exact Ec. cbv beta in Hr.
  rewrite !bind_assoc in Hr.
  assert (R : readonly (map_M (@num DataFrame) col))
    by (apply readonly_map_M; intros []; [apply readonly_ret | apply readonly_raise]).
  destruct (@bind_returns_ro _ _ _ _ _ _ _ R Hr) as (xs & l & Hm & Hr' & _).
  rewrite bind_ret in Hr'.
  exists xs. split.
  - unfold Units.self in Ec. rewrite Ec. f_equal.
    apply (@map_M_num_returns _ plants). rewrite Hm. reflexivity.
  - apply existsb_map_false.
    destruct (existsb (fun b : bool => b) (map test xs)); [ | reflexivity].
    unfold when in Hr'. unfold getitem in Hr'.
    destruct (column (Units.self plants) "Unit") as [U |] eqn:EU.
    + erewrite bind_lookup in Hr' by exact EU. discriminate Hr'.
    + erewrite bind_lookup_none in Hr' by exact EU. discriminate Hr'.
Qed.

Lemma check_range_pass w extra key test plants :
  within plants key test ->
  Units.check_range w extra key test plants = Run (Return tt) plants [].
Proof.
  intros (xs & Hc & Hx). unfold Units.check_range, Units.where_, getitem.
  rewrite !bind_assoc. erewrite bind_lookup by exact Hc.
  rewrite !bind_assoc. erewrite bind_pure by apply map_M_num_run.
  rewrite bind_ret. rewrite (proj2 (existsb_map_false test xs) Hx).
  reflexivity.
Qed.

Lemma readonly_check_range w extra key test :
  readonly (Units.check_range w extra key test).
Proof. readonly_tac. Qed.

Lemma check_ranges_return w (test : float -> bool) ks plants :
  result (for_ ks (fun key => Units.check_range w [] key test) plants)
  = Return tt ->
  forall k, In k ks -> within plants k test.
Proof.
  intros Hr k Hk. eapply check_range_returns.
  eapply (@for_returns _ _ (fun key => Units.check_range w [] key test)).
  - intros key. apply readonly_check_range.
  - exact Hr.
  - exact Hk.
Qed.

Lemma check_ranges_pass w (test : float -> bool) ks plants :
  (forall k, In k ks -> within plants k test) ->
  for_ ks (fun key => Units.check_range w [] key test) plants
  = Run (Return tt) plants [].
Proof.
  intros H. apply for_pass. intros k Hk. apply check_range_pass, H, Hk.
Qed.

Lemma check_horizon_returns config key plants :
  result (Units.check_horizon config key plants) = Return tt ->
  exists h, assoc "HorizonLength" config = Some (CNum h) /\
            within plants key (fun x => F64.geb x (F64.mul h Units.c24)).
Proof.
  unfold Units.check_horizon, getitem. intros Hr.
  destruct (column (Units.self plants) key) as [col |] eqn:Ec.
  2:{ erewrite bind_lookup_none in Hr by exact Ec. discriminate Hr. }
  erewrite bind_lookup in Hr by exact Ec.
  cbv beta in Hr. unfold of_option in Hr.
  destruct (assoc "HorizonLength" config) as [[h | t] |].
  - exists h. split; [reflexivity |].
    rewrite bind_ret in Hr. unfold num in Hr. rewrite bind_ret in Hr.
    cbv zeta in Hr. eapply check_range_returns. exact Hr.
  - rewrite bind_ret in Hr. discriminate Hr.
  - discriminate Hr.
Qed.

Lemma check_horizon_pass config key plants h :
  assoc "HorizonLength" config = Some (CNum h) ->
  within plants key (fun x => F64.geb x (F64.mul h Units.c24)) ->
  Units.check_horizon config key plants = Run (Return tt) plants [].
Proof.
  intros Hh Hw. unfold Units.check_horizon, getitem.
  destruct Hw as (xs & Hc & Hx).
  erewrite bind_lookup by exact Hc. rewrite Hh. unfold of_option.
  rewrite bind_ret. unfold num. rewrite bind_ret. cbv zeta.
  apply check_range_pass. exists xs. auto.
Qed.

Lemma readonly_check_horizon config key :
  readonly (Units.check_horizon config key).
Proof. readonly_tac. Qed.

Lemma check_Nunits_value f plants N :
  result (Units.check_Nunits f plants) = Return N ->
  N = has_column plants "Nunits".
Proof.
  unfold Units.check_Nunits, contains. rewrite bind_gets. unfold Units.self.
  destruct (has_column plants "Nunits").
  - intros Hr.
    match type of Hr with
    | result (?m plants) = _ =>
        assert (H : returns_only true m)
          by (repeat (apply returns_only_bind; intro); apply returns_only_ret)
    end.
    exact (H plants N Hr).
  - cbn. intros [= <-]. reflexivity.
Qed.

(** When [Nunits] holds numbers, the first check asks that they be
    whole. *)
Lemma check_Nunits_whole f plants N :
  index plants = [] /\ aligned plants \/ numeric_column plants "Nunits" = true ->
  result (Units.check_Nunits f plants) = Return N ->
  whole_Nunits plants = true.
Proof.
  intros Hnum. unfold Units.check_Nunits, contains, whole_Nunits.
  rewrite bind_gets. unfold Units.self, has_column.
  destruct (column plants "Nunits") as [cs |] eqn:Hc; [ | reflexivity].
  destruct Hnum as [[Hidx Ha] | Hnum].
  { rewrite (@aligned_empty plants "Nunits" cs Ha Hidx Hc). reflexivity. }
  unfold numeric_column in Hnum. rewrite Hc in Hnum.
  unfold getitem. erewrite bind_lookup by exact Hc.
  assert (Hcs : cs = map CNum (map (fun c => match c with
                                             | CNum x => x
                                             | CStr _ => F64.nan
                                             end) cs)).
  { clear Hc. induction cs as [| c cs IH]; [reflexivity |].
    cbn in Hnum. apply andb_true_iff in Hnum. destruct Hnum as [Hn Hrest].
    destruct c as [x | t]; [ | discriminate Hn].
    cbn [map]. f_equal. apply IH, Hrest. }
  set (xs := map _ cs) in Hcs.
  assert (Hrun : map_M (Units.to_float f) cs plants = Run (Return xs) plants []).
  { subst xs. apply map_M_pure. intros c Hin.
    rewrite forallb_forall in Hnum. specialize (Hnum c Hin).
    destruct c; [reflexivity | discriminate]. }
  erewrite bind_pure by exact Hrun.
  destruct (existsb (fun x => negb (F64.is_integer x)) xs) eqn:E.
  - cbn. discriminate.
  - intros _. rewrite Hcs. clear -E.
    induction xs as [| x xs IH]; [reflexivity |].
    cbn in E |- *. apply orb_false_iff in E. destruct E as [Ex Exs].
    apply negb_false_iff in Ex. rewrite Ex. cbn. apply IH, Exs.
Qed.



Lemma text_names plants :
  text_column plants "Unit" = true ->
  exists names, column plants "Unit" = Some (map CStr names).
Proof.
  unfold text_column. destruct (column plants "Unit") as [cs |]; [ | discriminate].
  intros H. exists (map (fun c => match c with CStr t => t | CNum _ => "" end) cs).
  f_equal. induction cs as [| c cs IH]; [reflexivity |].
  cbn in H. apply andb_true_iff in H. destruct H as [Hc Hcs].
  destruct c as [x | t]; [discriminate Hc |]. cbn [map]. f_equal. apply IH, Hcs.
Qed.

Lemma first_missing_optional plants :
  first_missing plants
    (Units.keys ++ Units.optional (has_column plants "Nunits"))
  = first_missing plants Units.keys.
Proof.
  unfold first_missing.
  assert (H : forall ks, find (fun k => negb (has_column plants k))
                (ks ++ Units.optional (has_column plants "Nunits"))
              = find (fun k => negb (has_column plants k)) ks).
  { induction ks as [| k ks IH]; cbn [app find].
    - destruct (has_column plants "Nunits") eqn:E; cbn; [ | reflexivity].
      rewrite E. reflexivity.
    - rewrite IH. reflexivity. }
  apply H.
Qed.

Lemma select_offenders (bad : float -> bool) : forall xs Unit,
  select (map bad xs) Unit = offenders bad Unit xs.
Proof.
  unfold offenders.
  induction xs as [| x xs IH]; intros [| u Unit]; cbn; try reflexivity.
  rewrite IH. destruct (bad x); reflexivity.
Qed.

Section UnitsContract.
Variable float_of_text : string -> option float.
Variable config : Config.
Variable plants : DataFrame.
Hypothesis Haligned : aligned plants.

Lemma prelude_run :
  well_formed plants ->
  Units.prelude float_of_text plants =
  Run (Return (has_column plants "Nunits")) plants (Nunits_default plants).
Proof.
  intros (A1 & A2 & A3 & A4 & _).
  assert (E : first_missing plants
                (Units.keys ++ Units.optional (has_column plants "Nunits"))
              = None)
    by (rewrite first_missing_optional; apply first_missing_none; exact A2).
  unfold Units.prelude.
  erewrite bind_return by (apply check_Nunits_pass; exact A1).
  cbv beta.
  erewrite bind_pure by (rewrite units_keys_run, E; reflexivity).
  cbv beta.
  erewrite bind_pure by (apply check_numeric_run; [exact Haligned | exact A3]).
  cbv beta.
  erewrite bind_pure by (apply check_text_run; [exact Haligned | exact A4]).
  unfold after, Nunits_default. cbn.
  destruct (has_column plants "Nunits"); reflexivity.
Qed.

Lemma unique_run :
  well_formed plants ->
  Units.check_unique plants = Run (Return tt) plants [].
Proof.
  intros (_ & A2 & _ & _ & names & HU & Hnames).
  assert (HZ : exists zones, column plants "Zone" = Some zones).
  { assert (H : has_column plants "Zone" = true)
      by (apply (@has_column_keys plants _ _ A2); cbn; tauto).
    unfold has_column in H. destruct (column plants "Zone") as [z |];
      [eauto | discriminate]. }
  destruct HZ as (zones & HZ).
  rewrite (@check_unique_run plants names zones HU HZ),
    (proj2 (repeated_nil names) Hnames).
  reflexivity.
Qed.

Lemma accepted_run :
  accepted config plants ->
  check_units float_of_text config plants =
  Run (Return true) plants (Nunits_default plants).
Proof.
  intros (Hwf & A6 & A7 & A8 & h & Hh & A9).
  unfold check_units, Units.check_units.
  erewrite bind_return by (apply prelude_run; exact Hwf).
  cbv beta.
  erewrite bind_pure by (apply unique_run; exact Hwf).
  cbv beta.
  erewrite bind_pure by (apply check_ranges_pass; exact A6).
  cbv beta.
  erewrite bind_pure by (apply check_ranges_pass; exact A7).
  cbv beta.
  erewrite bind_pure by (apply check_ranges_pass; exact A8).
  cbv beta.
  erewrite bind_pure
    by (apply for_pass; intros k Hk; apply check_horizon_pass with (h := h);
        [exact Hh | apply A9, Hk]).
  unfold after. cbn. rewrite app_nil_r. reflexivity.
Qed.

(** A negative value in the first column of the first range check. *)
Lemma negative_capacity_run Unit P :
  well_formed plants ->
  column plants "Unit" = Some Unit ->
  column plants "PowerCapacity" = Some (map CNum P) ->
  existsb (fun x => F64.ltb x Units.zero) P = true ->
  check_units float_of_text config plants =
  Run (SysExit 1) plants
      (Nunits_default plants
       ++ [Log CRITICAL units_negative
               [VStr "PowerCapacity";
                VCells (offenders (fun x => F64.ltb x Units.zero) Unit P)]]).
Proof.
  intros Hwf HU HP Hneg.
  unfold check_units, Units.check_units.
  erewrite bind_return by (apply prelude_run; exact Hwf).
  cbv beta.
  erewrite bind_pure by (apply unique_run; exact Hwf).
  cbv beta.
  erewrite bind_exit; [reflexivity |].
  unfold Units.lower. cbn [for_]. apply bind_exit.
  unfold Units.check_range, Units.where_, getitem.
  rewrite !bind_assoc. erewrite bind_lookup by exact HP.
  rewrite !bind_assoc. erewrite bind_pure by apply map_M_num_run.
  rewrite bind_ret.
  assert (E : existsb (fun b : bool => b)
                (map (fun x => F64.ltb x Units.zero) P) = true).
  { destruct (existsb (fun b : bool => b)
                (map (fun x => F64.ltb x Units.zero) P)) eqn:E;
      [reflexivity |].
    rewrite existsb_map_false in E.
    apply existsb_exists in Hneg. destruct Hneg as (x & Hx & Hb).
    rewrite (E x Hx) in Hb. discriminate Hb. }
  rewrite E. unfold when. erewrite bind_lookup by exact HU.
  rewrite select_offenders. reflexivity.
Qed.

Hypothesis Hnodup : NoDup (index plants).

Lemma returns_accepted b :
  result (check_units float_of_text config plants) = Return b ->
  accepted config plants.
Proof.
  intros Hr. unfold check_units, Units.check_units in Hr.
  assert (R0 : readonly (Units.prelude float_of_text)) by readonly_tac.
  destruct (@bind_returns_ro _ _ _ _ _ _ _ R0 Hr) as (N & l0 & Hp & Hr0 & _).
  assert (R1 : readonly (Units.check_unique)) by readonly_tac.
  destruct (@bind_returns_ro _ _ _ _ _ _ _ R1 Hr0) as ([] & l1 & Hu & Hr1 & _).
  assert (R2 : readonly (for_ Units.lower (fun key =>
            Units.check_range units_negative [] key
                              (fun x => F64.ltb x Units.zero))))
    by (apply readonly_for; intro; apply readonly_check_range).
  destruct (@bind_returns_ro _ _ _ _ _ _ _ R2 Hr1) as ([] & l2 & H2 & Hr2 & _).
  assert (R3 : readonly (for_ (Units.lower_hard ++ Units.optional N) (fun key =>
            Units.check_range units_not_positive [] key
                              (fun x => F64.leb x Units.zero))))
    by (apply readonly_for; intro; apply readonly_check_range).
  destruct (@bind_returns_ro _ _ _ _ _ _ _ R3 Hr2) as ([] & l3 & H3 & Hr3 & _).
  assert (R4 : readonly (for_ Units.higher (fun key =>
            Units.check_range units_above_one [] key
                              (fun x => F64.gtb x Units.one))))
    by (apply readonly_for; intro; apply readonly_check_range).
  destruct (@bind_returns_ro _ _ _ _ _ _ _ R4 Hr3) as ([] & l4 & H4 & Hr4 & _).
  assert (R5 : readonly (for_ Units.higher_time (Units.check_horizon config)))
    by (apply readonly_for; intro; apply readonly_check_horizon).
  destruct (@bind_returns_ro _ _ _ _ _ _ _ R5 Hr4) as ([] & l5 & H5 & Hr5 & _).
  clear Hr Hr0 Hr1 Hr2 Hr3 Hr4 Hr5.
  (* the prelude *)
  assert (Hp' : result ((Nunits <- Units.check_Nunits float_of_text ;;
       Units.check_keys (Units.keys ++ Units.optional Nunits) ;;
       Units.check_numeric (Units.NonNaNKeys ++ Units.optional Nunits) ;;
       Units.check_text ;; ret Nunits) plants) = Return N)
    by (unfold Units.prelude in Hp; rewrite Hp; reflexivity).
  assert (Rn : readonly (Units.check_Nunits float_of_text)) by readonly_tac.
  destruct (@bind_returns_ro _ _ _ _ _ _ _ Rn Hp') as (N' & ln & HN' & Hk & _).
  assert (HN : N' = has_column plants "Nunits")
    by (apply (@check_Nunits_value float_of_text); rewrite HN'; reflexivity).
  assert (Rk : readonly (Units.check_keys (Units.keys ++ Units.optional N')))
    by readonly_tac.
  destruct (@bind_returns_ro _ _ _ _ _ _ _ Rk Hk) as ([] & lk & Hkeys & Hnum & _).
  assert (Rm : readonly (Units.check_numeric
                           (Units.NonNaNKeys ++ Units.optional N')))
    by readonly_tac.
  destruct (@bind_returns_ro _ _ _ _ _ _ _ Rm Hnum) as ([] & lm & Hnumeric & Htx & _).
  assert (Rt : readonly Units.check_text) by readonly_tac.
  destruct (@bind_returns_ro _ _ _ _ _ _ _ Rt Htx) as ([] & lt & Htext & Hret & _).
  injection Hret as <-. subst N'.
  (* the columns are there *)
  assert (A2' : forallb (has_column plants)
                  (Units.keys ++ Units.optional (has_column plants "Nunits"))
                = true).
  { apply first_missing_none. rewrite units_keys_run in Hkeys.
    destruct (first_missing plants _); [discriminate Hkeys | reflexivity]. }
  rewrite forallb_app in A2'. apply andb_true_iff in A2'. destruct A2' as [A2 _].
  assert (A3 : forall k, In k (Units.NonNaNKeys
                   ++ Units.optional (has_column plants "Nunits")) ->
             index plants = [] \/ numeric_column plants k = true).
  { apply check_numeric_returns; [exact Haligned | exact Hnodup |].
    rewrite Hnumeric. reflexivity. }
  assert (A4 : forall k, In k Units.StrKeys -> text_column plants k = true).
  { apply check_text_returns; [exact Haligned | exact Hnodup | |].
    - intros k Hk'. apply (@has_column_keys plants _ _ A2).
      cbn in Hk' |- *. intuition.
    - rewrite Htext. reflexivity. }
  assert (A1 : whole_Nunits plants = true).
  { destruct (has_column plants "Nunits") eqn:E.
    - eapply check_Nunits_whole; [ | rewrite HN'; reflexivity].
      destruct (A3 "Nunits") as [Hidx | Hn]; [ | left; auto | right; exact Hn].
      apply in_or_app. right. left. reflexivity.
    - unfold whole_Nunits. unfold has_column in E.
      destruct (column plants "Nunits"); [discriminate | reflexivity]. }
  destruct (text_names _ (A4 "Unit" (or_introl eq_refl))) as (names & HU).
  assert (HZ : exists zones, column plants "Zone" = Some zones).
  { assert (H : has_column plants "Zone" = true)
      by (apply (@has_column_keys plants _ _ A2); cbn; tauto).
    unfold has_column in H. destruct (column plants "Zone") as [z |];
      [eauto | discriminate]. }
  destruct HZ as (zones & HZ).
  assert (Hnames : NoDup names).
  { apply repeated_nil. rewrite (@check_unique_run plants names zones HU HZ) in Hu.
    destruct (repeated names); [reflexivity | discriminate Hu]. }
  assert (H5' : result (for_ Units.higher_time (Units.check_horizon config) plants)
                = Return tt) by (rewrite H5; reflexivity).
  assert (Hup : result (Units.check_horizon config "MinUpTime" plants) = Return tt).
  { eapply for_returns; [intro; apply readonly_check_horizon | exact H5' |].
    left. reflexivity. }
  destruct (check_horizon_returns _ _ _ Hup) as (h & Hh & _).
  split; [repeat split; try assumption; exists names; auto |].
  split; [ | split; [ | split]].
  - apply (@check_ranges_return units_negative). rewrite H2. reflexivity.
  - apply (@check_ranges_return units_not_positive). rewrite H3. reflexivity.
  - apply (@check_ranges_return units_above_one). rewrite H4. reflexivity.
  - exists h. split; [exact Hh |]. intros k Hk'.
    assert (Hk'' : result (Units.check_horizon config k plants) = Return tt).
    { eapply for_returns; [intro; apply readonly_check_horizon | exact H5' | exact Hk']. }
    destruct (check_horizon_returns _ _ _ Hk'') as (h' & Hh' & Hw).
    rewrite Hh in Hh'. injection Hh' as <-. exact Hw.
Qed.
End UnitsContract.

(** The last loop of [check_units] reads [HorizonLength] from the
    configuration. *)
Lemma check_units_reads_HorizonLength float_of_text config plants b :
  result (check_units float_of_text config plants) = Return b ->
  exists h, assoc "HorizonLength" config = Some (CNum h).
Proof.
  intros Hr. unfold check_units, Units.check_units in Hr.
  assert (R0 : readonly (Units.prelude float_of_text)) by readonly_tac.
  destruct (@bind_returns_ro _ _ _ _ _ _ _ R0 Hr) as (N & l0 & _ & Hr0 & _).
  assert (R1 : readonly (Units.check_unique)) by readonly_tac.
  destruct (@bind_returns_ro _ _ _ _ _ _ _ R1 Hr0) as ([] & l1 & _ & Hr1 & _).
  assert (R2 : readonly (for_ Units.lower (fun key =>
            Units.check_range units_negative [] key
                              (fun x => F64.ltb x Units.zero))))
    by (apply readonly_for; intro; apply readonly_check_range).
  destruct (@bind_returns_ro _ _ _ _ _ _ _ R2 Hr1) as ([] & l2 & _ & Hr2 & _).
  assert (R3 : readonly (for_ (Units.lower_hard ++ Units.optional N) (fun key =>
            Units.check_range units_not_positive [] key
                              (fun x => F64.leb x Units.zero))))
    by (apply readonly_for; intro; apply readonly_check_range).
  destruct (@bind_returns_ro _ _ _ _ _ _ _ R3 Hr2) as ([] & l3 & _ & Hr3 & _).
  assert (R4 : readonly (for_ Units.higher (fun key =>
            Units.check_range units_above_one [] key
                              (fun x => F64.gtb x Units.one))))
    by (apply readonly_for; intro; apply readonly_check_range).
  destruct (@bind_returns_ro _ _ _ _ _ _ _ R4 Hr3) as ([] & l4 & _ & Hr4 & _).
  assert (R5 : readonly (for_ Units.higher_time (Units.check_horizon config)))
    by (apply readonly_for; intro; apply readonly_check_horizon).
  destruct (@bind_returns_ro _ _ _ _ _ _ _ R5 Hr4) as ([] & l5 & H5 & _ & _).
  assert (Hup : result (Units.check_horizon config "MinUpTime" plants) = Return tt).
  { assert (H5' : result (for_ Units.higher_time (Units.check_horizon config)
                               plants) = Return tt)
      by (rewrite H5; reflexivity).
    eapply for_returns; [intro; apply readonly_check_horizon | exact H5' |].
    left. reflexivity. }
  destruct (check_horizon_returns _ _ _ Hup) as (h & Hh & _).
  exists h. exact Hh.
Qed.

(** X19.  A column [Nunits] of numbers that are not all whole is fatal
    before anything else is looked at: one record at error level, exit
    status 1. *)
Theorem X19_units_Nunits_not_whole :
  forall (float_of_text : string -> option float) (config : Config)
         (plants : DataFrame) (xs : list float),
    column plants "Nunits" = Some (map CNum xs) ->
    existsb (fun x => negb (F64.is_integer x)) xs = true ->
    check_units float_of_text config plants =
    Run (SysExit 1) plants [Log ERROR units_nunits_not_integer []].
Proof.
  intros f config plants xs Hc Hx.
  unfold check_units, Units.check_units, Units.prelude, Units.check_Nunits.
  rewrite !bind_assoc. unfold contains. rewrite bind_gets.
  unfold Units.self, has_column. rewrite Hc.
  rewrite !bind_assoc. unfold getitem. erewrite bind_lookup by exact Hc.
  rewrite !bind_assoc.
  erewrite bind_pure.
  2:{ apply map_M_pure
        with (g := fun c => match c with CNum x => x | CStr _ => F64.nan end).
      intros c Hin. apply in_map_iff in Hin. destruct Hin as (x & <- & _).
      reflexivity. }
  rewrite map_map, map_id, Hx. reflexivity.
Qed.

(** X20.  When [Nunits], if there, holds whole numbers, a table without
    one of the fifteen mandatory columns is fatal for [check_units]: one
    critical record names the first of them that is missing, and the exit
    status is 1. *)
Theorem X20_units_missing_column :
  forall (float_of_text : string -> option float) (config : Config)
         (plants : DataFrame) (k : string),
    whole_Nunits plants = true ->
    first_missing plants Units.keys = Some k ->
    check_units float_of_text config plants =
    Run (SysExit 1) plants
        (Nunits_default plants ++ [Log CRITICAL units_missing_field [VStr k]]).
Proof.
  intros f config plants k Hw Hk.
  unfold check_units, Units.check_units, Units.prelude.
  rewrite !bind_assoc.
  erewrite bind_return by (apply check_Nunits_pass; exact Hw).
  cbv beta. rewrite !bind_assoc.
  erewrite bind_exit
    by (rewrite units_keys_run, first_missing_optional, Hk; reflexivity).
  reflexivity.
Qed.

(** X21.  On a table whose columns are as long as its index, under
    distinct row labels, [check_units] returns exactly when the table is
    well formed and its values are in range; it then returns [True] and
    has logged nothing but, without [Nunits], the record of its
    default.  Among the columns asked for, [RampingCost] need be there
    only when the table has a row; a missing value passes every range
    test. *)
Theorem X21_units_accepts :
  forall (float_of_text : string -> option float) (config : Config)
         (plants : DataFrame),
    aligned plants -> NoDup (index plants) ->
    ((exists b, result (check_units float_of_text config plants) = Return b)
     <-> accepted config plants) /\
    (accepted config plants ->
     check_units float_of_text config plants =
     Run (Return true) plants (Nunits_default plants)).
Proof.
  intros f config plants Ha Hnd. split; [split |].
  - intros [b Hb]. eapply returns_accepted; eassumption.
  - intros H. exists true. rewrite (accepted_run f Ha H). reflexivity.
  - apply accepted_run. exact Ha.
Qed.

(** X22.  [check_units] reads [config['HorizonLength']] in its last loop,
    whatever the table, were it without rows: with a configuration that
    lacks that key it never returns. *)
Theorem X22_units_needs_HorizonLength :
  forall (float_of_text : string -> option float) (config : Config)
         (plants : DataFrame) (b : bool),
    assoc "HorizonLength" config = None ->
    result (check_units float_of_text config plants) <> Return b.
Proof.
  intros f config plants b Hno Hr.
  destruct (check_units_reads_HorizonLength _ _ _ Hr) as (h & Hh).
  rewrite Hno in Hh. discriminate Hh.
Qed.

(** X23.  On a well-formed table, under distinct row labels, a negative
    [PowerCapacity] is fatal:
    one critical record lists the names of exactly the units whose
    capacity is negative, and the exit status is 1. *)
Theorem X23_units_negative_capacity :
  forall (float_of_text : string -> option float) (config : Config)
         (plants : DataFrame) (Unit : list Cell) (P : list float),
    aligned plants ->
    NoDup (index plants) ->
    well_formed plants ->
    column plants "Unit" = Some Unit ->
    column plants "PowerCapacity" = Some (map CNum P) ->
    existsb (fun x => F64.ltb x Units.zero) P = true ->
    check_units float_of_text config plants =
    Run (SysExit 1) plants
        (Nunits_default plants
         ++ [Log CRITICAL units_negative
                 [VStr "PowerCapacity";
                  VCells (offenders (fun x => F64.ltb x Units.zero) Unit P)]]).
Proof.
  intros f config plants Unit P Ha _ Hwf HU HP Hneg.
  apply negative_capacity_run; assumption.
Qed.

(** ** [check_heat_demand] *)

Lemma heat_unknown_columns (Q : option float * option float) s ks :
  (forall k, In k ks ->
             existsb (label_eqb (LStr k)) (index (Heat.plants s)) = false) ->
  for_acc ks Q Heat.check_column s =
  Run (Return Q) s (map (fun k => Log WARNING heat_no_plant [VStr k]) ks).
Proof.
  induction ks as [| k ks IH]; intros H; cbn [for_acc map]; [reflexivity |].
  erewrite bind_return.
  2:{ unfold Heat.check_column, get_index. rewrite bind_gets.
      rewrite (H k (or_introl eq_refl)). rewrite bind_logging. reflexivity. }
  cbv beta. change (store (ret Q s)) with s.
  change (logged (ret Q s)) with (@nil entry).
  rewrite IH by (intros k' Hk'; apply H; right; exact Hk').
  reflexivity.
Qed.

(** X24.  A heat demand whose headers name no unit is only warned
    about: [check_heat_demand] labels the unit table by the unit names,
    logs one warning for each header, in their order, and returns
    [True]. *)
Theorem X24_heat_demand_unknown_units :
  forall (plants : DataFrame) (data : NumFrame) (Unit : list Cell),
    column plants "Unit" = Some Unit ->
    (forall k, In k (headers data) -> names_unit Unit k = false) ->
    check_heat_demand (plants, data) =
    Run (Return true) (by_name plants Unit, data)
        (map (fun k => Log WARNING heat_no_plant [VStr k]) (headers data)).
Proof.
  intros plants data Unit HU Hno.
  unfold check_heat_demand, Heat.check_heat_demand, getitem.
  erewrite bind_lookup by exact HU.
  erewrite bind_return by reflexivity. rewrite after_nil.
  rewrite bind_gets.
  erewrite bind_return.
  2:{ apply heat_unknown_columns. intros k Hk. apply (Hno k Hk). }
  unfold after. cbn. rewrite app_nil_r. reflexivity.
Qed.


Lemma check_column_extraction plants data Unit u series type P r h n Q :
  ncolumn data u = Some series ->
  names_unit Unit u = true ->
  Nunits_of (by_name plants Unit) (LStr u) = Some (CNum n) ->
  cell_at (by_name plants Unit) (LStr u) "CHPType" = Some (CStr type) ->
  lower type = "extraction" ->
  cell_at (by_name plants Unit) (LStr u) "CHPMaxHeat" = Some (CNum h) ->
  cell_at (by_name plants Unit) (LStr u) "PowerCapacity" = Some (CNum P) ->
  cell_at (by_name plants Unit) (LStr u) "CHPPowerToHeat" = Some (CNum r) ->
  let s := (by_name plants Unit, data) in
  let Qmax := extraction_Qmax P r h n in
  Heat.check_column Q u s =
  if F64.isnan Qmax
  then Run (SysExit 1) s
           ((if forallb (fun x => F64.eqb x Heat.zero) series
             then [Log CRITICAL heat_always_zero [VStr u]] else [])
            ++ [Log ERROR heat_no_powertoheat [VStr u]])
  else Run (Return (Some Heat.zero, Some Qmax)) s
           (demand_records u series Heat.zero Qmax).
Proof.
  intros Hdata Hu HN HT Htype HM HP HR s Qmax.
  unfold Heat.check_column, get_index. rewrite bind_gets.
  unfold Heat.plants. cbn [fst s index by_name].
  unfold names_unit in Hu. rewrite Hu.
  unfold contains. rewrite bind_gets. cbn [fst s].
  assert (HN' : (if has_column (by_name plants Unit) "Nunits"
                 then loc Heat.plants (LStr u) "Nunits"
                 else ret (CNum Heat.one)) s = Run (Return (CNum n)) s []).
  { unfold Nunits_of in HN.
    destruct (has_column (by_name plants Unit) "Nunits").
    - unfold loc, lookup, Heat.plants. cbn [fst s]. rewrite HN. reflexivity.
    - injection HN as <-. reflexivity. }
  erewrite bind_pure by exact HN'.
  unfold loc, Heat.demand, Heat.plants.
  cbn [fst snd s].
  repeat step.
  assert (Hzero : forall (b : bool) A (k : M Heat.Tables A)
                         (r0 : run Heat.Tables A),
             k s = r0 ->
             (when b (logging CRITICAL heat_always_zero [VStr u]) ;; k) s
             = after (if b then [Log CRITICAL heat_always_zero [VStr u]]
                      else [])
                     r0).
  { intros b A k r0 <-. destruct b; unfold when.
    - rewrite bind_logging. reflexivity.
    - rewrite bind_ret, after_nil. reflexivity. }
  erewrite Hzero.
  2:{ repeat step. cbn [lower_of]. repeat step. cbv zeta.
      rewrite Htype. change ("extraction" =? "extraction") with true.
      change ("extraction" =? "p2h") with false. cbn [negb andb].
      repeat step.
      unfold num at 1. repeat step. unfold num at 1. repeat step.
      unfold Heat.capped. repeat step.
      cbn [isnull].
      assert (Hq : forall B (f : float -> M Heat.Tables B),
                 (q <- num (if F64.isnan h then CNum F64.inf else CNum h) ;;
                  f q) s
                 = f (if F64.isnan h then F64.inf else h) s).
      { intros B f. destruct (F64.isnan h); cbn [num]; rewrite bind_ret;
          reflexivity. }
      rewrite Hq. unfold num at 1. repeat step.
      cbn [snd fst Heat.bound of_option]. repeat step.
      fold (extraction_Qmax P r h n). fold Qmax.
      rewrite andb_true_r.
      reflexivity. }
  unfold demand_records.
  destruct (F64.isnan Qmax).
  - rewrite bind_assoc, bind_logging. reflexivity.
  - destruct (F64.gtb (F64.nanmax series) Qmax); unfold when at 1;
      repeat step; cbn [fst Heat.bound of_option]; repeat step;
      destruct (F64.ltb (F64.nanmin series) Heat.zero); unfold when;
      repeat step; reflexivity.
Qed.

(** X30.  A demand of one column, for an [extraction] unit (the unit
    names being distinct): the largest heat output is
    [min(PowerCapacity / CHPPowerToHeat, CHPMaxHeat) * Nunits], a missing
    [CHPMaxHeat] counting as infinite.  When it is not a number the run
    ends with status 1 after the error record of line 391; otherwise
    [check_heat_demand] returns [True], having logged at most a critical
    record for a demand that is always zero, a warning for a demand above
    that output and a warning for a demand below zero, in this order. *)
Theorem X30_heat_demand_extraction :
  forall (plants : DataFrame) (data : NumFrame) (Unit : list Cell)
         (u : string) (series : list float) (type : string)
         (P r h n : float),
    column plants "Unit" = Some Unit ->
    NoDup (index (by_name plants Unit)) ->
    ncolumns data = [(u, series)] ->
    names_unit Unit u = true ->
    Nunits_of (by_name plants Unit) (LStr u) = Some (CNum n) ->
    cell_at (by_name plants Unit) (LStr u) "CHPType" = Some (CStr type) ->
    lower type = "extraction" ->
    cell_at (by_name plants Unit) (LStr u) "CHPMaxHeat" = Some (CNum h) ->
    cell_at (by_name plants Unit) (LStr u) "PowerCapacity" = Some (CNum P) ->
    cell_at (by_name plants Unit) (LStr u) "CHPPowerToHeat" = Some (CNum r) ->
    let Qmax := extraction_Qmax P r h n in
    check_heat_demand (plants, data) =
    if F64.isnan Qmax
    then Run (SysExit 1) (by_name plants Unit, data)
             ((if forallb (fun x => F64.eqb x Heat.zero) series
               then [Log CRITICAL heat_always_zero [VStr u]] else [])
              ++ [Log ERROR heat_no_powertoheat [VStr u]])
    else Run (Return true) (by_name plants Unit, data)
             (demand_records u series Heat.zero Qmax).
Proof.
  intros plants data Unit u series type P r h n HU _ Hdata Hu HN HT Htype HM HP
         HR Qmax.
  assert (Hcol : ncolumn data u = Some series)
    by (unfold ncolumn; rewrite Hdata; cbn [assoc];
        rewrite String.eqb_refl; reflexivity).
  pose proof (@check_column_extraction plants data Unit u series type P r h n
                (None, None) Hcol Hu HN HT Htype HM HP HR) as H.
  cbv zeta in H. fold Qmax in H.
  unfold check_heat_demand, Heat.check_heat_demand, getitem.
  erewrite bind_lookup by exact HU.
  erewrite bind_return by reflexivity. rewrite after_nil.
  rewrite bind_gets.
  change (Heat.set_index Unit (plants, data)) with (by_name plants Unit, data).
  cbn [snd]. rewrite Hdata. cbn [map fst for_acc].
  destruct (F64.isnan Qmax).
  - apply bind_exit. apply bind_exit. exact H.
  - erewrite bind_return by (erewrite bind_return by exact H; reflexivity).
    unfold after. cbn. rewrite !app_nil_r. reflexivity.
Qed.

(** ** [check_df] *)






(** ** [check_simulation_environment] *)

Lemma require_run present report vars :
  Env.require present report vars =
  match find (fun v => negb (present v)) vars with
  | Some v => Env.fatal (report v)
  | None => Env.done
  end.
Proof.
  induction vars as [| v vars IH]; cbn; [reflexivity |].
  destruct (present v); cbn; [exact IH | reflexivity].
Qed.

Lemma require_returns present report vars :
  Env.ended (Env.require present report vars) = Env.Returned <->
  forall v, In v vars -> present v = true.
Proof.
  induction vars as [| v vars IH]; cbn.
  - split; [intros _ v [] | reflexivity].
  - destruct (present v) eqn:E.
    + rewrite IH. split.
      * intros H x [<- | Hx]; [exact E | apply H, Hx].
      * intros H x Hx. apply H. right. exact Hx.
    + cbn. split; [discriminate |]. intros H.
      rewrite (H v (or_introl eq_refl)) in E. discriminate E.
Qed.

Lemma among_In l var : Env.among l var = true <-> In (CStr var) l.
Proof.
  unfold Env.among. rewrite existsb_exists. split.
  - intros (c & Hc & E). destruct c as [x | t]; [discriminate E |].
    cbn in E. apply String.eqb_eq in E. subst t. exact Hc.
  - intros H. exists (CStr var). split; [exact H | apply String.eqb_refl].
Qed.

(** X27.  With the list of variables given directly
    ([store_type = 'list'], every variable having a name),
    [check_simulation_environment] returns exactly when each of the 12
    sets and 42 parameters is among the names, and then logs nothing;
    otherwise it ends the process with status 1 after one critical
    message that names the first of them, sets first, that is
    missing. *)
Theorem X27_environment_list :
  forall (w : Env.World) (vars : list Env.Var) (given : list Cell)
         (firstline : Z),
    Env.cPickle w = true ->
    Env.names vars = Some given ->
    let r := check_simulation_environment w (Env.AList vars) "list" firstline in
    (Env.ended r = Env.Returned <->
     forall v, In v (Env.list_sets ++ Env.list_param) -> In (CStr v) given) /\
    (Env.ended r = Env.Returned -> Env.critical r = []) /\
    (Env.ended r <> Env.Returned ->
     exists v pre post,
       r = Env.fatal (Env.list_missing v) /\
       Env.list_sets ++ Env.list_param = pre ++ v :: post /\
       ~ In (CStr v) given /\
       forall v', In v' pre -> In (CStr v') given).
Proof.
  intros w vars given firstline Hc Hn r. subst r.
  unfold check_simulation_environment, Env.check_simulation_environment.
  rewrite Hc, Hn. cbn [negb String.eqb Ascii.eqb Bool.eqb].
  split; [ | split].
  - rewrite require_returns. split; intros H v Hv.
    + apply among_In, H, Hv.
    + apply among_In, H, Hv.
  - rewrite require_run.
    destruct (find _ _); [discriminate | reflexivity].
  - rewrite require_run.
    destruct (find (fun v => negb (Env.among given v))
                   (Env.list_sets ++ Env.list_param)) as [v |] eqn:E;
      [ | intros H; destruct (H eq_refl)].
    intros _.
    destruct (find_first _ _ E) as (pre & post & Hl & Hv & Hpre).
    exists v, pre, post. repeat split.
    + exact Hl.
    + intros Hin. apply among_In in Hin. rewrite Hin in Hv. discriminate Hv.
    + intros v' Hv'. apply among_In. specialize (Hpre v' Hv').
      apply negb_false_iff in Hpre. exact Hpre.
Qed.

(** X28.  With a pickle file ([store_type = 'pickle']) in an existing
    directory, the function ends as it does on the list that the file
    holds. *)
Theorem X28_environment_pickle_as_list :
  forall (w : Env.World) (path : string) (vars : list Env.Var)
         (firstline : Z),
    Env.exists_ w path = true ->
    Env.isfile w (Env.join w path "Inputs.p") = true ->
    Env.unpickle w (Env.join w path "Inputs.p") = Some vars ->
    Env.ended (check_simulation_environment w (Env.APath path) "pickle" firstline)
    = Env.ended (check_simulation_environment w (Env.AList vars) "list" firstline).
Proof.
  intros w path vars firstline He Hf Hl.
  unfold check_simulation_environment, Env.check_simulation_environment.
  destruct (Env.cPickle w); [ | reflexivity].
  cbn [negb String.eqb Ascii.eqb Bool.eqb]. rewrite He, Hf, Hl.
  destruct (Env.names vars) as [given |]; [ | reflexivity].
  rewrite !require_run.
  destruct (find _ _); reflexivity.
Qed.

(** X29.  With spreadsheets ([store_type = 'excel']) the function
    returns, having logged nothing, exactly when the directory exists and
    holds the file of the sets and one file for each of the 42
    parameters. *)
Theorem X29_environment_excel :
  forall (w : Env.World) (path : string) (firstline : Z),
    Env.cPickle w = true ->
    (check_simulation_environment w (Env.APath path) "excel" firstline = Env.done
     <-> Env.exists_ w path = true /\
         Env.isfile w (Env.join w path "InputDispa-SET - Sets.xlsx") = true /\
         forall v, In v Env.list_param ->
                   Env.isfile w (Env.join w path (Env.file v)) = true).
Proof.
  intros w path firstline Hc.
  unfold check_simulation_environment, Env.check_simulation_environment.
  rewrite Hc. cbn [negb String.eqb Ascii.eqb Bool.eqb].
  destruct (Env.exists_ w path).
  2:{ split; [discriminate | intros [H _]; discriminate H]. }
  destruct (Env.isfile w (Env.join w path "InputDispa-SET - Sets.xlsx")).
  2:{ split; [discriminate | intros (_ & H & _); discriminate H]. }
  cbn [negb]. rewrite require_run. split.
  - intros H. repeat split. intros v Hv.
    destruct (find _ _) as [x |] eqn:E; [discriminate H |].
    pose proof (find_none _ _ E v Hv) as Hn. apply negb_false_iff in Hn.
    exact Hn.
  - intros (_ & _ & H).
    destruct (find _ _) as [x |] eqn:E; [ | reflexivity].
    apply find_some in E. destruct E as [Hx Hp].
    rewrite (H x Hx) in Hp. discriminate Hp.
Qed.

(* ===================================================================== *)
(** * The further properties on the example tables *)
(* ===================================================================== *)

Lemma aligned_two_units : aligned Example.two_units.
Proof. unfold aligned. vm_compute. repeat constructor. Qed.

Lemma NoDup_two_units : NoDup (index Example.two_units).
Proof.
  vm_compute. repeat constructor; cbn; intros H;
    repeat (destruct H as [H | H]; [discriminate H |]); exact H.
Qed.


(** X4, on a series of three availability factors, one of them missing:
    the record counts three. *)
Lemma X4_empty_values_counts_the_series_witness :
  exists k t col,
    [VCell (CStr "PV1"); VCell (CStr "PHOT"); VNat 3]
    = [VCell (CStr k); t; VNat (List.length col)] /\
    ncolumn Sample.sun_gap k = Some col /\ existsb F64.isnan col = true.
Proof.
  apply (@X4_empty_values_counts_the_series
           Example.sun_plants Sample.sun_gap
           (Log WARNING AF_empty_values
                [VCell (CStr "PV1"); VCell (CStr "PHOT"); VNat 3])).
  - vm_compute. left. reflexivity.
  - reflexivity.
Defined.

(** X5: a wind farm of 1000 added to the clustered table goes
    unnoticed. *)
Lemma X5_clustering_ignores_new_pairs_witness :
  let plants := Example.units_table Example.original in
  let merged := Example.units_table (Example.clustered 150) in
  let merged' := Example.units_table
                   (Example.clustered 150 ++ [Sample.wind (F64.of_Z 1000)]) in
  result (check_clustering (plants, merged'))
  = result (check_clustering (plants, merged)) /\
  logged (check_clustering (plants, merged'))
  = logged (check_clustering (plants, merged)).
Proof.
  apply (@X5_clustering_ignores_new_pairs
           (Example.units_table Example.original)
           (Example.units_table (Example.clustered 150))
           (Example.units_table
              (Example.clustered 150 ++ [Sample.wind (F64.of_Z 1000)]))
           Example.original (Example.clustered 150)
           [Sample.wind (F64.of_Z 1000)]).
  - apply units_table_shows.
  - apply units_table_shows.
  - apply units_table_shows.
  - intros r [<- | []]. cbn. intros [H | [H | []]]; discriminate H.
  - intros r [<- | []]. reflexivity.
Defined.

(** X6, on the two gas units. *)
Lemma X6_clustering_same_table_witness :
  let plants := Example.units_table Example.original in
  check_clustering (plants, plants) = Run (Return true) (plants, plants) [].
Proof.
  apply (@X6_clustering_same_table
           (Example.units_table Example.original) Example.original).
  apply units_table_shows.
Defined.

Lemma same_shape_flows lo1 lo2 hi1 hi2 :
  same_shape (fst (Sample.flows lo1 lo2 hi1 hi2))
             (snd (Sample.flows lo1 lo2 hi1 hi2)).
Proof. repeat constructor. Qed.

Lemma before_0_1 i j : before i j 0 1 -> i = 0%nat /\ j = 0%nat.
Proof. unfold before. lia. Qed.

(** X7, on minimum flows 1 and 2 under maximum flows 3 and 4. *)
Lemma X7_MinMaxFlows_passes_witness :
  check_MinMaxFlows (Sample.flows 1 2 3 4)
  = Run (Return true) (Sample.flows 1 2 3 4) [] <->
  forall i j, min_above_max (Sample.flows 1 2 3 4) i j = false /\
              negative_max (Sample.flows 1 2 3 4) i j = false.
Proof.
  apply (@X7_MinMaxFlows_passes (Sample.flows 1 2 3 4)).
  apply same_shape_flows.
Defined.

(** X8: the minimum 5 above the maximum 4 at the second time step. *)
Lemma X8_MinMaxFlows_min_above_max_witness :
  check_MinMaxFlows (Sample.flows 1 5 3 4) =
  Run (SysExit 1) (Sample.flows 1 5 3 4)
      [Log CRITICAL flows_min_above_max [VNat 0; VNat 1]].
Proof.
  apply (@X8_MinMaxFlows_min_above_max (Sample.flows 1 5 3 4) 0 1).
  - apply same_shape_flows.
  - split; [reflexivity |].
    intros i j H. apply before_0_1 in H. destruct H as [-> ->]. reflexivity.
Defined.

(** X9: the maximum -1 at the second time step. *)
Lemma X9_MinMaxFlows_negative_max_witness :
  check_MinMaxFlows (Sample.flows 0 (-3) 1 (-1)) =
  Run (SysExit 1) (Sample.flows 0 (-3) 1 (-1))
      [Log CRITICAL flows_negative_max [VNat 0; VNat 1]].
Proof.
  apply (@X9_MinMaxFlows_negative_max (Sample.flows 0 (-3) 1 (-1)) 0 1).
  - apply same_shape_flows.
  - intros [| [| i]] [| [| [| j]]]; reflexivity.
  - split; [reflexivity |].
    intros i j H. apply before_0_1 in H. destruct H as [-> ->]. reflexivity.
Defined.

Lemma aligned_storage : aligned Sample.storage.
Proof. repeat constructor. Qed.

Lemma NoDup_one (u : Label) : NoDup [u].
Proof. repeat constructor. intros []. Qed.

(** X10, on a storage unit with its four columns. *)
Lemma X10_sto_passes_witness :
  ((exists b, result (check_sto [] true Sample.storage) = Return b)
   <-> forallb (has_column Sample.storage) (Sto.keys true) &&
       forallb (numeric_column Sample.storage) (Sto.NonNaNKeys true) = true) /\
  ((exists b, result (check_sto [] true Sample.storage) = Return b) ->
   check_sto [] true Sample.storage =
   Run (Return true) Sample.storage (deprecation Sample.storage)).
Proof.
  apply (@X10_sto_passes [] true Sample.storage).
  - apply aligned_storage.
  - apply NoDup_one.
Defined.

(** X11, on the storage unit without its self-discharge. *)
Lemma X11_sto_missing_column_witness :
  let plants := Sample.without "STOSelfDischarge" Sample.storage in
  check_sto [] true plants =
  Run (SysExit 1) plants
      (deprecation plants
       ++ [Log CRITICAL sto_missing_field [VStr "STOSelfDischarge"]]).
Proof.
  apply (@X11_sto_missing_column
           [] true (Sample.without "STOSelfDischarge" Sample.storage)
           "STOSelfDischarge").
  reflexivity.
Defined.

(** X12, on the example unit without its power-to-heat ratio. *)
Lemma X12_chp_missing_column_witness :
  let plants := Sample.without "CHPPowerToHeat" Example.extraction in
  check_chp [] plants =
  Run (SysExit 1) plants
      [Log CRITICAL chp_missing_field [VStr "CHPPowerToHeat"]].
Proof.
  apply (@X12_chp_missing_column
           [] (Sample.without "CHPPowerToHeat" Example.extraction)
           "CHPPowerToHeat").
  reflexivity.
Defined.

(** X13, on a table that has the three columns and no unit. *)
Lemma X13_chp_no_unit_witness :
  check_chp [] Sample.no_chp = Run (Return true) Sample.no_chp [].
Proof.
  apply (@X13_chp_no_unit [] Sample.no_chp); reflexivity.
Defined.

(** X15, on the example unit without the column [CHPMaxHeat]. *)
Lemma X15_chp_needs_MaxHeat_column_witness :
  result (check_chp [] (Sample.without "CHPMaxHeat" Example.extraction))
  <> Return true.
Proof.
  apply (@X15_chp_needs_MaxHeat_column
           [] (Sample.without "CHPMaxHeat" Example.extraction) true).
  - discriminate.
  - reflexivity.
Defined.

(** X16, on a [back-pressure] unit without [CHPMaxHeat]. *)
Lemma X16_chp_backpressure_without_MaxHeat_witness :
  CHP.check_unit (LStr "CHP1") Sample.backpressure =
  Run (Return (VCell (CStr "CHP1"))) Sample.backpressure
      [Log DEBUG chp_efficiency [VLabel (LStr "CHP1"); VFloat F64.nan]].
Proof.
  apply (@X16_chp_backpressure_without_MaxHeat
           Sample.backpressure (LStr "CHP1") (CStr "CHP1") "back-pressure"
           Example.c100 Example.c2 (F64.of_Z 0) Example.c0_4);
    try reflexivity.
  apply NoDup_one.
Defined.

(** X17, on a unit of the type [condensing] under the default index. *)
Lemma X17_chp_fatal_message_needs_text_label_witness :
  CHP.check_unit (LInt 0) Sample.condensing =
  Run (Raise TypeError) Sample.condensing [].
Proof.
  apply (@X17_chp_fatal_message_needs_text_label
           Sample.condensing (LInt 0) (CStr "CHP1") (CNum F64.nan)
           (CNum Example.c100) "condensing" Example.c2 (F64.of_Z 0));
    try reflexivity.
  - apply NoDup_one.
  - left. reflexivity.
Defined.

(** X18: the small storage is that of [CHP1], and the warning names
    [CHP2]. *)
Lemma X18_chp_storage_records_name_the_last_unit_witness :
  exists idx u n,
    index Sample.two_chp = idx ++ [u] /\
    name_of Sample.two_chp u = Some n /\
    hd_error [VCell (CStr "CHP2"); VFloat (F64.of_Z 1);
              VFloat (F64.div Example.c100 Example.c2)] = Some n.
Proof.
  apply (@X18_chp_storage_records_name_the_last_unit
           [] Sample.two_chp
           (Log WARNING chp_storage_low
                [VCell (CStr "CHP2"); VFloat (F64.of_Z 1);
                 VFloat (F64.div Example.c100 Example.c2)])).
  - repeat constructor; cbn; intros H;
      repeat (destruct H as [H | H]; [discriminate H |]); exact H.
  - vm_compute. right. right. left. reflexivity.
  - reflexivity.
Defined.

(** X19, on two units, one and a half of the first. *)
Lemma X19_units_Nunits_not_whole_witness :
  check_units Example.no_text Example.config Sample.half_units =
  Run (SysExit 1) Sample.half_units [Log ERROR units_nunits_not_integer []].
Proof.
  apply (@X19_units_Nunits_not_whole
           Example.no_text Example.config Sample.half_units
           [F64.dec 15 10; F64.of_Z 1]);
    reflexivity.
Defined.

(** X20, on two units without their zones. *)
Lemma X20_units_missing_column_witness :
  let plants := Sample.without "Zone" Example.two_units in
  check_units Example.no_text Example.config plants =
  Run (SysExit 1) plants
      (Nunits_default plants ++ [Log CRITICAL units_missing_field [VStr "Zone"]]).
Proof.
  apply (@X20_units_missing_column
           Example.no_text Example.config
           (Sample.without "Zone" Example.two_units) "Zone");
    reflexivity.
Defined.

(** X21: the two example units are accepted. *)
Lemma X21_units_accepts_witness :
  accepted Example.config Example.two_units.
Proof.
  apply (proj1 (@X21_units_accepts Example.no_text Example.config
                  Example.two_units aligned_two_units NoDup_two_units)).
  exists true. vm_compute. reflexivity.
Defined.

(** X22, on the two example units under an empty configuration. *)
Lemma X22_units_needs_HorizonLength_witness :
  result (check_units Example.no_text [] Example.two_units) <> Return true.
Proof.
  apply (@X22_units_needs_HorizonLength
           Example.no_text [] Example.two_units true).
  reflexivity.
Defined.

Lemma In_cases A (P : A -> Prop) (l : list A) :
  Forall P l -> forall x, In x l -> P x.
Proof. intros H. rewrite Forall_forall in H. exact H. Qed.

Lemma well_formed_negative_capacity : well_formed Sample.negative_capacity.
Proof.
  unfold well_formed. split; [reflexivity |]. split; [reflexivity |].
  split; [ | split].
  - apply In_cases. repeat constructor; right; reflexivity.
  - apply In_cases. repeat constructor; reflexivity.
  - exists ["A"; "B"]. split; [reflexivity |].
    repeat constructor; cbn; intros H;
      repeat (destruct H as [H | H]; [discriminate H |]); exact H.
Qed.

Lemma aligned_negative_capacity : aligned Sample.negative_capacity.
Proof. unfold aligned. vm_compute. repeat constructor. Qed.

(** X23: of the units [A] and [B], [A] has the capacity -5. *)
Lemma X23_units_negative_capacity_witness :
  check_units Example.no_text Example.config Sample.negative_capacity =
  Run (SysExit 1) Sample.negative_capacity
      (Nunits_default Sample.negative_capacity
       ++ [Log CRITICAL units_negative
               [VStr "PowerCapacity";
                VCells (offenders (fun x => F64.ltb x Units.zero)
                                  [CStr "A"; CStr "B"]
                                  [F64.of_Z (-5); Example.c100])]]).
Proof.
  apply (@X23_units_negative_capacity
           Example.no_text Example.config Sample.negative_capacity
           [CStr "A"; CStr "B"] [F64.of_Z (-5); Example.c100]).
  - apply aligned_negative_capacity.
  - apply NoDup_two_units.
  - apply well_formed_negative_capacity.
  - reflexivity.
  - reflexivity.
  - reflexivity.
Defined.

(** X24, on a demand for [CHP9] and the unit [CHP1]. *)
Lemma X24_heat_demand_unknown_units_witness :
  check_heat_demand (Example.heat_plants, Sample.stray_demand) =
  Run (Return true)
      (by_name Example.heat_plants [CStr "CHP1"], Sample.stray_demand)
      (map (fun k => Log WARNING heat_no_plant [VStr k])
           (headers Sample.stray_demand)).
Proof.
  apply (@X24_heat_demand_unknown_units
           Example.heat_plants Sample.stray_demand [CStr "CHP1"]).
  - reflexivity.
  - intros k [<- | []]. reflexivity.
Defined.



(** X27, on the list of all the variables. *)
Lemma X27_environment_list_witness :
  let r := check_simulation_environment
             (Sample.world []) (Env.AList Sample.all_variables) "list" 7 in
  let given := map CStr (Env.list_sets ++ Env.list_param) in
  (Env.ended r = Env.Returned <->
   forall v, In v (Env.list_sets ++ Env.list_param) -> In (CStr v) given) /\
  (Env.ended r = Env.Returned -> Env.critical r = []) /\
  (Env.ended r <> Env.Returned ->
   exists v pre post,
     r = Env.fatal (Env.list_missing v) /\
     Env.list_sets ++ Env.list_param = pre ++ v :: post /\
     ~ In (CStr v) given /\
     forall v', In v' pre -> In (CStr v') given).
Proof.
  apply (@X27_environment_list
           (Sample.world []) Sample.all_variables
           (map CStr (Env.list_sets ++ Env.list_param)) 7);
    reflexivity.
Defined.

(** X28, on a pickle that holds all the variables but the first. *)
Lemma X28_environment_pickle_as_list_witness :
  let w := Sample.world (tl Sample.all_variables) in
  Env.ended (check_simulation_environment w (Env.APath "sim") "pickle" 7)
  = Env.ended (check_simulation_environment
                 w (Env.AList (tl Sample.all_variables)) "list" 7).
Proof.
  apply (@X28_environment_pickle_as_list
           (Sample.world (tl Sample.all_variables)) "sim"
           (tl Sample.all_variables) 7);
    reflexivity.
Defined.

(** X29, in a directory where every file is there. *)
Lemma X29_environment_excel_witness :
  check_simulation_environment (Sample.world []) (Env.APath "sim") "excel" 7
  = Env.done
  <-> Env.exists_ (Sample.world []) "sim" = true /\
      Env.isfile (Sample.world [])
                 (Env.join (Sample.world []) "sim" "InputDispa-SET - Sets.xlsx")
      = true /\
      forall v, In v Env.list_param ->
                Env.isfile (Sample.world [])
                           (Env.join (Sample.world []) "sim" (Env.file v))
                = true.
Proof.
  apply (@X29_environment_excel (Sample.world []) "sim" 7).
  reflexivity.
Defined.

(** X30, on the example unit: it can give 50, and the demand stays
    between 10 and 20. *)
Lemma X30_heat_demand_extraction_witness :
  let Qmax := extraction_Qmax Example.c100 Example.c2 F64.nan Heat.one in
  check_heat_demand (Example.heat_plants, Example.heat_data) =
  if F64.isnan Qmax
  then Run (SysExit 1)
           (by_name Example.heat_plants [CStr "CHP1"], Example.heat_data)
           ((if forallb (fun x => F64.eqb x Heat.zero)
                        [F64.of_Z 10; F64.of_Z 20]
             then [Log CRITICAL heat_always_zero [VStr "CHP1"]] else [])
            ++ [Log ERROR heat_no_powertoheat [VStr "CHP1"]])
  else Run (Return true)
           (by_name Example.heat_plants [CStr "CHP1"], Example.heat_data)
           (demand_records "CHP1" [F64.of_Z 10; F64.of_Z 20] Heat.zero Qmax).
Proof.
  apply (@X30_heat_demand_extraction
           Example.heat_plants Example.heat_data [CStr "CHP1"] "CHP1"
           [F64.of_Z 10; F64.of_Z 20] "extraction"
           Example.c100 Example.c2 F64.nan Heat.one);
    try reflexivity.
  apply NoDup_one.
Defined.
